(** * Codebase assistant: chunk splitter, fallback vectorizer and
      multi-tenant embedding store

    A shallow embedding of [chunking.py], [config.py], [embedding_store.py],
    [multi_embedding_store.py], [repo_loader.py], [temp_processor.py],
    [database.py], [cleanup_chromadb.py] and the ingest, refresh and delete
    paths of [codebase_manager.py], followed by the properties stated about
    them.

    Conventions.
    - A Python [str] is a [string] holding the UTF-8 encoding of the text, so
      [text.encode()] is the identity on the representation; identifiers,
      paths and hex digests are ASCII.
    - Python integers are [Z]; Python floats are IEEE binary64, which is what
      [PrimFloat.float] is.
    - An exception is a value of an error type; code that can raise returns
      a sum or an option.
    - The vector database, the file system and the clock are outside the
      repository: their state is explicit, and what they answer to one call
      is read from an environment record. *)

From Stdlib Require Import ZArith Ascii String Floats Uint63 Lia.
From Stdlib Require Import DecimalString DecimalPos DecimalZ.
From stdpp Require Import base strings gmap list sorting.

(** ** Python built-ins used by the sources *)

Module Py.

Definition len {A} (l : list A) : Z := Z.of_nat (length l).

(** [str(n)] and the [{n}] of an f-string, for an integer. *)
Definition str (n : Z) : string := NilZero.string_of_int (Z.to_int n).

(** [s.split(sep)] for a one-character separator. *)
Fixpoint split (sep : ascii) (s : string) : list string :=
  match s with
  | EmptyString => [EmptyString]
  | String c r =>
      if Ascii.eqb c sep then EmptyString :: split sep r
      else match split sep r with
           | [] => [String c EmptyString]
           | w :: ws => String c w :: ws
           end
  end.

(** [sep in s] for a one-character [sep]. *)
Fixpoint has (sep : ascii) (s : string) : bool :=
  match s with
  | EmptyString => false
  | String c r => Ascii.eqb c sep || has sep r
  end.

(** [sep.join(parts)] for a one-character separator. *)
Fixpoint join (sep : ascii) (parts : list string) : string :=
  match parts with
  | [] => EmptyString
  | [w] => w
  | w :: ws => w +:+ String sep (join sep ws)
  end.

Definition LF : ascii := Ascii.ascii_of_N 10.

(** Index clamping of a slice bound, [PySlice_AdjustIndices] with step 1. *)
Definition clamp (n i : Z) : Z :=
  if (i <? 0)%Z then Z.max 0 (i + n) else Z.min i n.

(** [l[a:b]]. *)
Definition slice {A} (l : list A) (a b : Z) : list A :=
  let lo := clamp (len l) a in
  let hi := clamp (len l) b in
  take (Z.to_nat (hi - lo)) (drop (Z.to_nat lo) l).

(** [list(range(start, stop, step))]; a zero step raises [ValueError]. *)
Definition range (start stop step : Z) : option (list Z) :=
  if (step =? 0)%Z then None
  else
    let n := (if 0 <? step
              then (stop - start + step - 1) / step
              else (start - stop - step - 1) / (- step))%Z in
    Some (map (fun k => start + Z.of_nat k * step)%Z (seq 0 (Z.to_nat n))).

(** Whitespace in the sense of [str.isspace], on one-byte characters. *)
Definition space1 (c : ascii) : bool :=
  let n := Ascii.N_of_ascii c in
  ((9 <=? n) && (n <=? 13) || (28 <=? n) && (n <=? 32))%N.

(** The two-byte whitespace characters U+0085 and U+00A0. *)
Definition space2 (c d : ascii) : bool :=
  let d := Ascii.N_of_ascii d in
  ((Ascii.N_of_ascii c =? 194) && ((d =? 133) || (d =? 160)))%N.

(** The three-byte ones: U+1680, U+2000..200A, U+2028, U+2029, U+202F,
    U+205F and U+3000. *)
Definition space3 (c d e : ascii) : bool :=
  let c := Ascii.N_of_ascii c in
  let d := Ascii.N_of_ascii d in
  let e := Ascii.N_of_ascii e in
  ((c =? 225) && (d =? 154) && (e =? 128)
   || (c =? 226) && (d =? 128)
      && ((128 <=? e) && (e <=? 138) || (e =? 168) || (e =? 169)
          || (e =? 175))
   || (c =? 226) && (d =? 129) && (e =? 159)
   || (c =? 227) && (d =? 128) && (e =? 128))%N.

(** [not s.strip()]: the text holds nothing but the whitespace
    characters of [str.strip], read in their UTF-8 form. *)
Fixpoint blank (s : string) : bool :=
  match s with
  | EmptyString => true
  | String c r =>
      if space1 c then blank r
      else
        match r with
        | String d r1 =>
            if space2 c d then blank r1
            else
              match r1 with
              | String e r2 => space3 c d e && blank r2
              | EmptyString => false
              end
        | EmptyString => false
        end
  end.

(** Truth value of [s.strip()]. *)
Definition strip_truthy (s : string) : bool := negb (blank s).

(** [s.startswith(p)]. *)
Fixpoint startswith (p s : string) : bool :=
  match p, s with
  | EmptyString, _ => true
  | String a p', String b s' => Ascii.eqb a b && startswith p' s'
  | String _ _, EmptyString => false
  end.

(** [s.endswith(p)]. *)
Definition endswith (p s : string) : bool :=
  startswith (String.rev p) (String.rev s).

End Py.

(** ** config.py *)

Module Config.
Definition CHUNK_SIZE : Z := 40.
Definition CHUNK_OVERLAP : Z := 10.
End Config.

(** ** chunking.py *)

Module Chunking.
Import Py.

(** Raised by [range] when its step is zero. *)
Inductive error := ValueError_range_step_zero.

(** The body of [chunk_code], with the two module constants it reads as
    arguments. *)
Definition chunk_code_with (size overlap : Z) (text : string)
  : error + list string :=
  let lines := split LF text in
  match range 0 (len lines) (size - overlap) with
  | None => inl ValueError_range_step_zero
  | Some idx =>
      inr (flat_map
             (fun i =>
                let chunk := join LF (slice lines i (i + size)) in
                if strip_truthy chunk then [chunk] else [])
             idx)
  end.

Definition chunk_code (text : string) : error + list string :=
  chunk_code_with Config.CHUNK_SIZE Config.CHUNK_OVERLAP text.

(** The splitter as the specification words it: a start index that
    advances by [window - overlap] until it reaches the line count.  The
    loop is cut after [fuel] turns; with a positive step it needs no more
    turns than there are lines ([scan_range] below). *)
Fixpoint scan (fuel : nat) (window step : Z) (lines : list string) (i : Z)
  : list string :=
  match fuel with
  | O => []
  | S fuel' =>
      if (len lines <=? i)%Z then []
      else
        let chunk := join LF (slice lines i (i + window)) in
        (if blank chunk then [] else [chunk])
          ++ scan fuel' window step lines (i + step)
  end.

Definition split_stepping (window overlap : Z) (text : string)
  : list string :=
  let lines := split LF text in
  scan (length lines) window (window - overlap) lines 0.

End Chunking.

(** ** hashlib.md5 (RFC 1321) *)

Module Md5.
Local Open Scope Z_scope.

Definition w32 (x : Z) : Z := x mod 2 ^ 32.

Definition rotl (x c : Z) : Z :=
  w32 (Z.lor (Z.shiftl x c) (Z.shiftr x (32 - c))).

Definition lnot32 (x : Z) : Z := Z.lxor x 4294967295.

Definition K : list Z :=
  [ 0xd76aa478; 0xe8c7b756; 0x242070db; 0xc1bdceee;
    0xf57c0faf; 0x4787c62a; 0xa8304613; 0xfd469501;
    0x698098d8; 0x8b44f7af; 0xffff5bb1; 0x895cd7be;
    0x6b901122; 0xfd987193; 0xa679438e; 0x49b40821;
    0xf61e2562; 0xc040b340; 0x265e5a51; 0xe9b6c7aa;
    0xd62f105d; 0x02441453; 0xd8a1e681; 0xe7d3fbc8;
    0x21e1cde6; 0xc33707d6; 0xf4d50d87; 0x455a14ed;
    0xa9e3e905; 0xfcefa3f8; 0x676f02d9; 0x8d2a4c8a;
    0xfffa3942; 0x8771f681; 0x6d9d6122; 0xfde5380c;
    0xa4beea44; 0x4bdecfa9; 0xf6bb4b60; 0xbebfbc70;
    0x289b7ec6; 0xeaa127fa; 0xd4ef3085; 0x04881d05;
    0xd9d4d039; 0xe6db99e5; 0x1fa27cf8; 0xc4ac5665;
    0xf4292244; 0x432aff97; 0xab9423a7; 0xfc93a039;
    0x655b59c3; 0x8f0ccc92; 0xffeff47d; 0x85845dd1;
    0x6fa87e4f; 0xfe2ce6e0; 0xa3014314; 0x4e0811a1;
    0xf7537e82; 0xbd3af235; 0x2ad7d2bb; 0xeb86d391 ].

Definition S : list Z :=
  [ 7; 12; 17; 22; 7; 12; 17; 22; 7; 12; 17; 22; 7; 12; 17; 22;
    5; 9; 14; 20; 5; 9; 14; 20; 5; 9; 14; 20; 5; 9; 14; 20;
    4; 11; 16; 23; 4; 11; 16; 23; 4; 11; 16; 23; 4; 11; 16; 23;
    6; 10; 15; 21; 6; 10; 15; 21; 6; 10; 15; 21; 6; 10; 15; 21 ].

Definition at_ (l : list Z) (i : Z) : Z := nth (Z.to_nat i) l 0.

(** The message with its padding: a one bit, zeros up to 56 modulo 64,
    then the bit length on eight little-endian bytes. *)
Definition le_bytes (n : nat) (x : Z) : list Z :=
  map (fun k => (x / 2 ^ (8 * Z.of_nat k)) mod 256) (seq 0 n).

Definition pad (msg : list Z) : list Z :=
  let n := Z.of_nat (length msg) in
  let zeros := (55 - n) mod 64 in
  msg ++ [128] ++ replicate (Z.to_nat zeros) 0
      ++ le_bytes 8 ((8 * n) mod 2 ^ 64).

Definition le_word (bs : list Z) : Z :=
  at_ bs 0 + 256 * at_ bs 1 + 65536 * at_ bs 2 + 16777216 * at_ bs 3.

Definition words (block : list Z) : list Z :=
  map (fun k => le_word (take 4 (drop (4 * k) block))) (seq 0 16).

Definition state : Type := Z * Z * Z * Z.

Definition round (M : list Z) (st : state) (i : Z) : state :=
  let '(a, b, c, d) := st in
  let '(f, g) :=
    if i <? 16 then (Z.lor (Z.land b c) (Z.land (lnot32 b) d), i)
    else if i <? 32
         then (Z.lor (Z.land d b) (Z.land (lnot32 d) c), (5 * i + 1) mod 16)
    else if i <? 48 then (Z.lxor b (Z.lxor c d), (3 * i + 5) mod 16)
    else (Z.lxor c (Z.lor b (lnot32 d)), (7 * i) mod 16) in
  let f' := w32 (f + a + at_ K i + at_ M g) in
  (d, w32 (b + rotl f' (at_ S i)), b, c).

Definition compress (st : state) (block : list Z) : state :=
  let '(a0, b0, c0, d0) := st in
  let '(a, b, c, d) :=
    fold_left (round (words block)) (map Z.of_nat (seq 0 64)) st in
  (w32 (a0 + a), w32 (b0 + b), w32 (c0 + c), w32 (d0 + d)).

Fixpoint blocks (n : nat) (bs : list Z) : list (list Z) :=
  match n with
  | O => []
  | Datatypes.S n' => take 64 bs :: blocks n' (drop 64 bs)
  end.

Definition init : state := (0x67452301, 0xefcdab89, 0x98badcfe, 0x10325476).

(** [hashlib.md5(data).digest()], sixteen bytes. *)
Definition digest (msg : list Z) : list Z :=
  let p := pad msg in
  let '(a, b, c, d) :=
    fold_left compress (blocks (length p / 64) p) init in
  le_bytes 4 a ++ le_bytes 4 b ++ le_bytes 4 c ++ le_bytes 4 d.

Definition hexdigit (n : Z) : ascii :=
  if n <? 10 then ascii_of_N (Z.to_N (48 + n))
  else ascii_of_N (Z.to_N (87 + n)).

Definition hex2 (b : Z) : string :=
  String (hexdigit (b / 16)) (String (hexdigit (b mod 16)) EmptyString).

(** [hashlib.md5(data).hexdigest()]. *)
Definition hexdigest (msg : list Z) : string :=
  fold_right (fun b acc => hex2 b +:+ acc) EmptyString (digest msg).

End Md5.

Module PyStr.
Import Py.
Local Open Scope Z_scope.

(** [text.encode()]: the bytes of the text. *)
Definition encode (text : string) : list Z :=
  map (fun c => Z.of_N (N_of_ascii c)) (list_ascii_of_string text).

(** [len(s)] of an ASCII string. *)
Definition slen (s : string) : Z := Z.of_nat (String.length s).

(** [s[a:b]] of an ASCII string. *)
Definition substr (s : string) (a b : Z) : string :=
  string_of_list_ascii (slice (list_ascii_of_string s) a b).

Definition hexval (c : ascii) : option Z :=
  let n := Z.of_N (N_of_ascii c) in
  if (48 <=? n) && (n <=? 57) then Some (n - 48)
  else if (97 <=? n) && (n <=? 102) then Some (n - 87)
  else if (65 <=? n) && (n <=? 70) then Some (n - 55)
  else None.

Fixpoint int16_acc (acc : Z) (s : string) : option Z :=
  match s with
  | EmptyString => Some acc
  | String c r =>
      match hexval c with
      | Some d => int16_acc (16 * acc + d) r
      | None => None
      end
  end.

(** [int(s, 16)] on a string of hexadecimal digits; [None] is
    [ValueError].  Signs, prefixes and surrounding blanks, which [int]
    also accepts, never occur in a slice of a hex digest. *)
Definition int16 (s : string) : option Z :=
  match s with
  | EmptyString => None
  | _ => int16_acc 0 s
  end.

Definition decval (c : ascii) : option Z :=
  let n := Z.of_N (N_of_ascii c) in
  if (48 <=? n) && (n <=? 57) then Some (n - 48) else None.

Fixpoint int10_acc (acc : Z) (s : string) : option Z :=
  match s with
  | EmptyString => Some acc
  | String c r =>
      match decval c with
      | Some d => int10_acc (10 * acc + d) r
      | None => None
      end
  end.

(** [int(s)] on an optionally signed run of ASCII digits; [None] is
    [ValueError].  [int] also takes blanks around the number, underscores
    between digits and the decimal digits of other scripts; on such strings
    [int10] gives [None].  The names [get_db_path] writes, [codebase_<id>]
    with [<id>] as [str] prints it, and the backup names made from them
    hold none of these. *)
Definition int10 (s : string) : option Z :=
  match s with
  | EmptyString => None
  | String c r =>
      if Ascii.eqb c "-" then
        match r with EmptyString => None | _ => Z.opp <$> int10_acc 0 r end
      else if Ascii.eqb c "+" then
        match r with EmptyString => None | _ => int10_acc 0 r end
      else int10_acc 0 s
  end.

End PyStr.

(** ** embedding_store.py and MultiCodebaseEmbeddingStore.get_embedding *)

Module Embedding.
Import Py PyStr.

(** [(v - 127.5) / 127.5] in binary64. *)
Definition normalize (v : Z) : float :=
  PrimFloat.div
    (PrimFloat.sub (PrimFloat.of_uint63 (Uint63.of_Z v)) 127.5%float)
    127.5%float.

Definition target_size : Z := 16.

(** One turn of the hex-pair loop over a digest string [text_hash]. *)
Definition pair_value (text_hash : string) (i : Z) : option float :=
  v ← int16 (substr text_hash i (i + 2)); Some (normalize v).

(** The hex-pair loop. *)
Definition pairs_to_floats (text_hash : string) : option (list float) :=
  idx ← range 0 (slen text_hash) 2;
  mapM (pair_value text_hash) idx.

(** Pad or truncate to [target_size]. *)
Definition fit (embedding : list float) : list float :=
  if (len embedding <? target_size)%Z
  then embedding ++ replicate (Z.to_nat (target_size - len embedding)) 0%float
  else slice embedding 0 target_size.

(** [MultiCodebaseEmbeddingStore.get_embedding]. *)
Definition get_embedding (text : string) : option (list float) :=
  let text_hash := Md5.hexdigest (encode text) in
  fit <$> pairs_to_floats text_hash.

(** [embedding_store.get_embedding], the same statements in the
    single-collection module. *)
Definition get_embedding_single (text : string) : option (list float) :=
  let text_hash := Md5.hexdigest (encode text) in
  embedding ← pairs_to_floats text_hash;
  Some (if (len embedding <? 16)%Z
        then embedding ++ replicate (Z.to_nat (16 - len embedding)) 0%float
        else slice embedding 0 16).

End Embedding.

(** ** The vector database (chromadb) as the store module uses it

    The library is not part of the repository.  A collection is modelled
    by what the store module can observe of it: its entries in insertion
    order.  [add] checks the batch before it writes, so a call that raises
    has written nothing, and it leaves an id that is already stored as it
    is (the behaviour of the releases that have [PersistentClient]).  The
    nearest-neighbour search is exact here and computes in binary64. *)

Module Chroma.
Import Py.

Inductive mval := MInt (z : Z) | MStr (s : string).

#[global] Instance mval_eq_dec : EqDecision mval.
Proof. solve_decision. Defined.

Record entry := Entry {
  e_id : string;
  e_document : string;
  e_embedding : list float;
  e_metadata : gmap string mval
}.

(** A collection keeps its entries in insertion order. *)
Abbreviation collection := (list entry).

(** [collection.get(where={key: v})['ids']]. *)
Definition get_where (key : string) (v : mval) (c : collection)
  : list string :=
  e_id <$> filter (fun e => e_metadata e !! key = Some v) c.

(** [collection.delete(ids=ids)]. *)
Definition delete (ids : list string) (c : collection) : collection :=
  filter (fun e => e_id e ∉ ids) c.

Fixpoint zip4 (ids docs : list string) (embs : list (list float))
    (metas : list (gmap string mval)) : list entry :=
  match ids, docs, embs, metas with
  | i :: ids', d :: docs', v :: embs', m :: metas' =>
      Entry i d v m :: zip4 ids' docs' embs' metas'
  | _, _, _, _ => []
  end.

(** Insertion of a batch in order; an id the collection already holds is
    left as it is stored. *)
Fixpoint insert_new (batch : list entry) (c : collection) : collection :=
  match batch with
  | [] => c
  | e :: batch' =>
      if decide (e_id e ∈ (e_id <$> c)) then insert_new batch' c
      else insert_new batch' (c ++ [e])
  end.

(** [collection.add(ids=, documents=, embeddings=, metadatas=)]: the four
    lists must have one length, else the call raises before it writes. *)
Definition add (ids docs : list string) (embs : list (list float))
    (metas : list (gmap string mval)) (c : collection)
  : option collection :=
  if decide (length docs = length ids ∧ length embs = length ids
             ∧ length metas = length ids)
  then Some (insert_new (zip4 ids docs embs metas) c)
  else None.

(** Squared Euclidean distance, the default space of a collection. *)
Fixpoint l2 (a b : list float) : float :=
  match a, b with
  | x :: a', y :: b' =>
      PrimFloat.add (PrimFloat.mul (PrimFloat.sub x y) (PrimFloat.sub x y))
                    (l2 a' b')
  | _, _ => 0%float
  end.

Fixpoint place (q : list float) (e : entry) (sorted : list entry)
  : list entry :=
  match sorted with
  | [] => [e]
  | x :: rest =>
      if PrimFloat.leb (l2 q (e_embedding e)) (l2 q (e_embedding x))
      then e :: sorted
      else x :: place q e rest
  end.

(** Entries by ascending distance to [q], ties in insertion order:
    [fold_right] places an entry in front of the later ones, before the
    first of them that is not nearer. *)
Definition ranked (q : list float) (c : collection) : list entry :=
  fold_right (place q) [] c.

(** [collection.query(query_embeddings=[q], n_results=n)]: the [n]
    nearest entries; [None] when [n] is not positive. *)
Definition query (q : list float) (n : Z) (c : collection)
  : option (list entry) :=
  if (0 <? n)%Z then Some (take (Z.to_nat n) (ranked q c)) else None.

(** [collection.count()]. *)
Definition count (c : collection) : Z := len c.

End Chroma.

(** ** Paths and directories

    The disk is a finite map from absolute POSIX paths to what they name.
    Only the entries the store module looks at are kept: the base
    directory, the tenant directories in it, and plain files. *)

Module Os.
Import Py.

Definition sep : ascii := "/"%char.

(** [os.path.join(a, b)] on POSIX paths. *)
Definition path_join (a b : string) : string :=
  if startswith (String sep EmptyString) b then b
  else if (String.eqb a EmptyString) || endswith (String sep EmptyString) a
       then a +:+ b
       else a +:+ String sep b.

(** What a path names: a plain file, or a directory with the files below
    it and, when a database client persists there, its collections by
    name. *)
Inductive node :=
| File
| Dir (files : list string) (db : gmap string Chroma.collection).

Abbreviation fs := (gmap string node).

Definition exists_ (d : fs) (path : string) : bool :=
  bool_decide (is_Some (d !! path)).

Definition isdir (d : fs) (path : string) : bool :=
  match d !! path with Some (Dir _ _) => true | _ => false end.

Fixpoint drop_prefix (p s : string) : option string :=
  match p, s with
  | EmptyString, _ => Some s
  | String a p', String b s' =>
      if Ascii.eqb a b then drop_prefix p' s' else None
  | String _ _, EmptyString => None
  end.

(** The name [n] with [path = os.path.join(base, n)], when [path] is an
    entry of the directory [base]. *)
Definition child_name (base path : string) : option string :=
  n ← drop_prefix (path_join base EmptyString) path;
  if String.eqb n EmptyString
     || existsb (Ascii.eqb sep) (list_ascii_of_string n)
  then None else Some n.

(** [os.listdir(base)], in the order the file system gives, for a [base]
    that is a directory (on a plain file [os.listdir] raises; here the
    list is empty). *)
Definition listdir (d : fs) (base : string) : list string :=
  omap (child_name base) (fst <$> map_to_list d).

(** One level of [os.makedirs(path, exist_ok=True)]; [None] is
    [FileExistsError]. *)
Definition mkdir (path : string) (d : fs) : option fs :=
  match d !! path with
  | None => Some (<[path := Dir [] ∅]> d)
  | Some (Dir _ _) => Some d
  | Some File => None
  end.

(** What one call of [shutil.rmtree] meets: the tree goes, or something
    holds it and the call raises after removing what it could. *)
Inductive rm_outcome :=
| Removed
| Blocked (survive : string → bool).

(** [shutil.rmtree(path)]; the boolean tells whether it returned. *)
Definition rmtree (o : rm_outcome) (path : string) (d : fs) : fs * bool :=
  match d !! path with
  | None => (d, false)
  | Some File => (d, false)
  | Some (Dir files db) =>
      match o with
      | Removed => (delete path d, true)
      | Blocked survive =>
          (<[path := Dir (filter (fun f => survive f = true) files) db]> d,
           false)
      end
  end.

(** [shutil.rmtree(path, onerror=handle_remove_readonly)]: the handler
    lets the call return when the path is not there at all. *)
Definition rmtree_onerror (o : rm_outcome) (path : string) (d : fs)
  : fs * bool :=
  match d !! path with
  | None => (d, true)
  | _ => rmtree o path d
  end.

(** [os.rename(src, dst)]; [None] is [OSError]. *)
Definition rename (raises : bool) (src dst : string) (d : fs) : option fs :=
  if raises then None
  else match d !! src, d !! dst with
       | Some n, None => Some (<[dst := n]> (delete src d))
       | _, _ => None
       end.

End Os.

(** ** What lies outside the process during one operation *)

Module World.

Record env := Env {
  (** what the [k]-th call of [shutil.rmtree] meets, counted from 0 *)
  rmtree_meets : nat → Os.rm_outcome;
  (** whether [os.rename] raises *)
  rename_raises : bool;
  (** [int(time.time())] *)
  now : Z;
  (** whether [collection.get], [collection.delete], [collection.add]
      raise *)
  get_raises : bool;
  delete_raises : bool;
  add_raises : bool
}.

(** Nothing interferes. *)
Definition calm : env :=
  Env (fun _ => Os.Removed) false 0 false false false.

Inductive exn :=
| GitCommandError
| ValueError (msg : string)
| KeyError (key : Z)
| FileExistsError (path : string)
| OSError (src dst : string)
| StoreError.

Inductive outcome {A : Type} :=
| Returned (a : A)
| Raised (e : exn).
Arguments outcome : clear implicits.

(** What the process prints or asks of the system, in order. *)
Inductive event :=
| Info_removing (n : Z) (cid : Z)
| Warning_could_not_clear
| Info_added (n : Z) (cid : Z)
| Error_failed_to_add
| Gc_collect
| Sleep (millis : Z)
| Rmtree (path : string) (handler returned : bool)
| Chmod_walk (path : string)
| Info_attempt (k : Z)
| Warning_retry_failed (k : Z)
| Rename (src dst : string) (returned : bool)
| Warning_renamed (path backup : string)
| Error_cannot_remove_or_rename (path : string)
| Info_deleted (cid : Z)
| Warning_no_source_files
| Warning_no_processable_content (cid : Z)
| Update_stats (cid files chunks : Z).

End World.

(** ** multi_embedding_store.py *)

Module Store.
Import Py PyStr World.

(** A collection handle: the directory of its client and its name. *)
Record handle := Handle { h_path : string; h_name : string }.

(** The fields of a [MultiCodebaseEmbeddingStore], the disk it works on
    and what it has emitted. *)
Record state := State {
  base_db_dir : string;
  clients : gmap Z string;
  collections : gmap Z handle;
  disk : Os.fs;
  trace : list event
}.

Definition with_clients (f : gmap Z string → gmap Z string) (st : state) :=
  State (base_db_dir st) (f (clients st)) (collections st) (disk st)
        (trace st).
Definition with_collections (f : gmap Z handle → gmap Z handle)
    (st : state) :=
  State (base_db_dir st) (clients st) (f (collections st)) (disk st)
        (trace st).
Definition with_disk (d : Os.fs) (st : state) :=
  State (base_db_dir st) (clients st) (collections st) d (trace st).
Definition emit (e : event) (st : state) :=
  State (base_db_dir st) (clients st) (collections st) (disk st)
        (trace st ++ [e]).

(** [MultiCodebaseEmbeddingStore(base_db_dir)]. *)
Definition init (base : string) (d : Os.fs) : state := State base ∅ ∅ d [].

Definition get_collection_name (codebase_id : Z) : string :=
  "codebase_" +:+ str codebase_id.

Definition get_db_path (st : state) (codebase_id : Z) : string :=
  Os.path_join (base_db_dir st) ("codebase_" +:+ str codebase_id).

(** The collection a handle points to, if its directory still holds it. *)
Definition read (d : Os.fs) (h : handle) : option Chroma.collection :=
  match d !! h_path h with
  | Some (Os.Dir _ db) => db !! h_name h
  | _ => None
  end.

Definition write (h : handle) (c : Chroma.collection) (d : Os.fs) : Os.fs :=
  match d !! h_path h with
  | Some (Os.Dir files db) => <[h_path h := Os.Dir files (<[h_name h := c]> db)]> d
  | _ => d
  end.

(** [chromadb.PersistentClient(path)] followed by
    [get_or_create_collection(name)] on a directory that exists.  The
    client is taken to read what the directory holds.  What the library
    keeps in the process for a path it has opened before, and hands out
    again after the directory was removed and made anew, is not
    modelled. *)
Definition open_collection (path name : string) (d : Os.fs) : Os.fs :=
  match d !! path with
  | Some (Os.Dir files db) =>
      let files' := if decide ("chroma.sqlite3" ∈ files) then files
                    else files ++ ["chroma.sqlite3"] in
      let db' := match db !! name with
                 | Some _ => db
                 | None => <[name := []]> db
                 end in
      <[path := Os.Dir files' db']> d
  | _ => d
  end.

Definition get_client_and_collection (st : state) (codebase_id : Z)
  : outcome (state * handle) :=
  let go (st : state) :=
    match collections st !! codebase_id with
    | Some h => Returned (st, h)
    | None => Raised (KeyError codebase_id)
    end in
  if decide (codebase_id ∈ dom (clients st)) then go st
  else
    let db_path := get_db_path st codebase_id in
    match Os.mkdir (base_db_dir st) (disk st) ≫= Os.mkdir db_path with
    | None => Raised (FileExistsError db_path)
    | Some d =>
        let collection_name := get_collection_name codebase_id in
        go (with_collections
              (insert codebase_id (Handle db_path collection_name))
              (with_clients (insert codebase_id db_path)
                 (with_disk (open_collection db_path collection_name d) st)))
    end.

(** The [replace_existing] block of [add_documents]: whatever goes wrong
    in it is caught and reported as a warning. *)
Definition clear_existing (w : env) (st : state) (h : handle)
    (codebase_id : Z) : state :=
  match (if get_raises w then None else read (disk st) h) with
  | None => emit Warning_could_not_clear st
  | Some c =>
      let existing_ids :=
        Chroma.get_where "codebase_id" (Chroma.MInt codebase_id) c in
      match existing_ids with
      | [] => st
      | _ :: _ =>
          let st' := emit (Info_removing (len existing_ids) codebase_id) st in
          if delete_raises w then emit Warning_could_not_clear st'
          else with_disk (write h (Chroma.delete existing_ids c) (disk st'))
                         st'
      end
  end.

Definition doc_id (codebase_id : Z) (i : nat) : string :=
  "doc_" +:+ str codebase_id +:+ "_" +:+ str (Z.of_nat i).

Definition default_metadata (codebase_id : Z) (i : nat)
  : gmap string Chroma.mval :=
  <["codebase_id" := Chroma.MInt codebase_id]>
    {["chunk_id" := Chroma.MInt (Z.of_nat i)]}.

Definition add_documents (w : env) (st : state) (codebase_id : Z)
    (documents : list string)
    (metadata : option (list (gmap string Chroma.mval)))
    (replace_existing : bool) : state * outcome unit :=
  match documents with
  | [] => (st, Returned ())
  | _ :: _ =>
      match get_client_and_collection st codebase_id with
      | Raised e => (st, Raised e)
      | Returned (st, collection) =>
          let ids := doc_id codebase_id <$> seq 0 (length documents) in
          match mapM Embedding.get_embedding documents with
          | None => (st, Raised (ValueError "invalid literal for int()"))
          | Some embeddings =>
              let metadata :=
                match metadata with
                | None =>
                    default_metadata codebase_id
                      <$> seq 0 (length documents)
                | Some metadata =>
                    insert "codebase_id" (Chroma.MInt codebase_id)
                      <$> metadata
                end in
              let st :=
                if replace_existing
                then clear_existing w st collection codebase_id
                else st in
              match (if add_raises w then None
                     else read (disk st) collection
                            ≫= Chroma.add ids documents embeddings metadata)
              with
              | Some c =>
                  (emit (Info_added (len documents) codebase_id)
                     (with_disk (write collection c (disk st)) st),
                   Returned ())
              | None => (emit Error_failed_to_add st, Raised StoreError)
              end
          end
      end
  end.

Definition query_codebase (st : state) (codebase_id : Z) (query : string)
    (n_results : Z) : outcome (list Chroma.entry) :=
  match collections st !! codebase_id with
  | None =>
      Raised (ValueError ("Codebase " +:+ str codebase_id
                            +:+ " not found in embedding store"))
  | Some collection =>
      match Embedding.get_embedding query with
      | None => Raised (ValueError "invalid literal for int()")
      | Some query_embedding =>
          match read (disk st) collection
                  ≫= Chroma.query query_embedding n_results with
          | Some results => Returned results
          | None => Raised StoreError
          end
      end
  end.

Definition max_retries : Z := 3.

(** The [for attempt in range(max_retries)] loop of
    [_force_remove_directory]; [k] counts the calls of [shutil.rmtree]
    made so far. *)
Fixpoint force_remove_loop (w : env) (path : string) (attempts : list Z)
    (k : nat) (st : state) : state * outcome unit :=
  match attempts with
  | [] => (st, Returned ())
  | attempt :: rest =>
      let '(d, ok) := Os.rmtree (rmtree_meets w k) path (disk st) in
      let st := emit (Rmtree path false ok) (with_disk d st) in
      if ok then (st, Returned ())
      else
        let st := emit (Info_attempt (attempt + 1)) st in
        if (attempt <? max_retries - 1)%Z then
          let st := emit (Sleep 1000) (emit (Chmod_walk path) st) in
          let '(d, ok) :=
            Os.rmtree_onerror (rmtree_meets w (S k)) path (disk st) in
          let st := emit (Rmtree path true ok) (with_disk d st) in
          if ok then (st, Returned ())
          else
            let st := emit (Warning_retry_failed (attempt + 1)) st in
            let st := if (attempt <? max_retries - 1)%Z
                      then emit (Sleep 2000) st else st in
            force_remove_loop w path rest (S (S k)) st
        else
          let backup_path := path +:+ "_backup_" +:+ str (now w) in
          match Os.rename (rename_raises w) path backup_path (disk st) with
          | Some d =>
              let st := emit (Warning_renamed path backup_path)
                          (emit (Rename path backup_path true)
                             (with_disk d st)) in
              force_remove_loop w path rest (S k) st
          | None =>
              (emit (Error_cannot_remove_or_rename path)
                 (emit (Rename path backup_path false) st),
               Raised (OSError path backup_path))
          end
  end.

Definition _force_remove_directory (w : env) (path : string) (st : state)
  : state * outcome unit :=
  match range 0 max_retries 1 with
  | Some attempts => force_remove_loop w path attempts 0 st
  | None => (st, Raised (ValueError "range() arg 3 must not be zero"))
  end.

Definition delete_codebase (w : env) (st : state) (codebase_id : Z)
  : state * outcome unit :=
  let st := if decide (codebase_id ∈ dom (clients st))
            then with_clients (delete codebase_id) st else st in
  let st := if decide (codebase_id ∈ dom (collections st))
            then with_collections (delete codebase_id) st else st in
  let st := emit (Sleep 500) (emit Gc_collect st) in
  let db_path := get_db_path st codebase_id in
  if Os.exists_ (disk st) db_path then
    match _force_remove_directory w db_path st with
    | (st, Returned _) => (emit (Info_deleted codebase_id) st, Returned ())
    | (st, Raised e) => (st, Raised e)
    end
  else (st, Returned ()).

(** The body of the loop of [list_codebases] for one directory entry:
    the id it contributes, if any.  [item.split("_")[1]] exists whenever
    the prefix test passed. *)
Definition listed_id (st : state) (item : string) : option Z :=
  if startswith "codebase_" item
     && Os.isdir (disk st) (Os.path_join (base_db_dir st) item)
  then split "_" item !! 1%nat ≫= int10
  else None.

Definition list_codebases (st : state) : list Z :=
  if negb (Os.exists_ (disk st) (base_db_dir st)) then []
  else merge_sort Z.le (omap (listed_id st) (Os.listdir (disk st) (base_db_dir st))).

(** [get_codebase_stats]: the state after it, [document_count] and
    [exists]. *)
Definition get_codebase_stats (st : state) (codebase_id : Z)
  : state * (Z * bool) :=
  let opened :=
    if decide (codebase_id ∈ dom (collections st)) then Some st
    else match get_client_and_collection st codebase_id with
         | Returned (st, _) => Some st
         | Raised _ => None
         end in
  match opened with
  | None => (st, (0%Z, false))
  | Some st =>
      match collections st !! codebase_id ≫= read (disk st) with
      | Some c => (st, (Chroma.count c, true))
      | None => (st, (0%Z, false))
      end
  end.

End Store.

(** ** repo_loader.py *)

Module RepoLoader.
Import Py.

(** A working tree as the loader sees it: what [os.walk] yields (each
    directory with the files in it), and what [open(path).read()] gives,
    [None] when the file cannot be read or decoded.  For a notebook the
    text is the flattened cell text that [read_file] builds. *)
Record tree := Tree {
  walk : list (string * list string);
  content : string → option string;
  top_items : Z
}.

Definition exts : list string :=
  [".py"; ".js"; ".java"; ".ts"; ".cpp"; ".go"; ".ipynb"; ".md"; ".txt";
   ".rst"; ".yaml"; ".yml"; ".json"; ".xml"; ".html"; ".css"; ".sql";
   ".sh"; ".bat"; ".r"; ".scala"; ".kt"; ".swift"; ".php"; ".rb"; ".cs";
   ".c"; ".h"; ".hpp"; ".cc"; ".cxx"].

Definition skipped_dirs : list string :=
  ["node_modules"; "__pycache__"; "target"; "build"; "dist"; "bin"; "obj"].

Definition skipped_suffixes : list string :=
  [".exe"; ".dll"; ".so"; ".dylib"; ".class"; ".jar"; ".war"; ".zip";
   ".tar"; ".gz"; ".pdf"; ".docx"; ".xlsx"; ".pptx"; ".png"; ".jpg";
   ".jpeg"; ".gif"; ".bmp"; ".ico"; ".svg"].

Definition get_source_files (t : tree) : list string :=
  flat_map
    (fun '(root, files) =>
       let parts := split Os.sep root in
       if existsb (startswith ".") parts
          || existsb (fun part => bool_decide (part ∈ skipped_dirs)) parts
       then []
       else
         flat_map
           (fun file =>
              if startswith "." file
                 || existsb (fun x => endswith x file) skipped_suffixes
              then []
              else if existsb (fun x => endswith x file) exts
                   then [Os.path_join root file]
                   else [])
           files)
    (walk t).

(** [read_file]: the text, or the empty string after a logged error. *)
Definition read_file (t : tree) (path : string) : string :=
  default EmptyString (content t path).

End RepoLoader.

(** ** temp_processor.py *)

Module TempProcessor.
Import Py World RepoLoader.

Record metadata := Metadata {
  total_files : Z;
  processed_files : Z;
  total_chunks : Z;
  status : string
}.

Definition placeholder (name : string) (items : Z) : string :=
  "No processable source files found in repository " +:+ name
    +:+ ". Repository contains " +:+ str items
    +:+ " items but no supported code files.".

(** One turn of the file loop: the chunks and the number of files
    recorded so far.  A file whose splitting raises is skipped after it
    was recorded. *)
Definition process_file (t : tree) (acc : list string * Z)
    (file_path : string) : list string * Z :=
  let '(chunks, recorded) := acc in
  let content := read_file t file_path in
  if String.eqb content EmptyString then acc
  else match Chunking.chunk_code content with
       | inr file_chunks => (chunks ++ file_chunks, recorded + 1)%Z
       | inl _ => (chunks, recorded + 1)%Z
       end.

(** [process_repository]; [cloned] is what [git.Repo.clone_from] brought
    into the temporary directory with the commit it is at, [None] when
    cloning raised. *)
Definition process_repository (cloned : option (tree * string))
    (name : string) : outcome (list string * metadata * string) :=
  match cloned with
  | None => Raised GitCommandError
  | Some (t, commit_hash) =>
      let source_files := get_source_files t in
      let '(chunks, recorded) :=
        fold_left (process_file t) source_files ([], 0%Z) in
      let md st := Metadata (len source_files) recorded (len chunks) st in
      match chunks with
      | [] => Returned ([placeholder name (top_items t)], md "empty",
                        commit_hash)
      | _ :: _ => Returned (chunks, md "processed", commit_hash)
      end
  end.

End TempProcessor.

(** ** codebase_manager.py: the ingest paths *)

Module Manager.
Import Py World RepoLoader Store.

Definition chunk_meta (rel_path : string) (i j chunk_id : Z)
  : gmap string Chroma.mval :=
  <["chunk_id" := Chroma.MInt chunk_id]>
    (<["chunk_index" := Chroma.MInt j]>
       (<["file_index" := Chroma.MInt i]>
          {["file_path" := Chroma.MStr rel_path]})).

(** [os.path.relpath(path, start)] for a path below [start]. *)
Definition relpath (path start : string) : string :=
  default path (Os.drop_prefix (Os.path_join start EmptyString) path).

(** The inner [for j, chunk in enumerate(chunks)] loop. *)
Definition push_chunks (rel_path : string) (i : Z)
    (acc : list string * list (gmap string Chroma.mval))
    (chunks : list string) :=
  fold_left
    (fun '(all_chunks, chunk_metadata) '(j, chunk) =>
       (all_chunks ++ [chunk],
        chunk_metadata
          ++ [chunk_meta rel_path i (Z.of_nat j)
                (len (all_chunks ++ [chunk]) - 1)%Z]))
    (imap (fun j chunk => (j, chunk)) chunks) acc.

(** One turn of [for i, file_path in enumerate(files)]. *)
Definition process_file (t : tree) (local_path : string)
    (acc : list string * list (gmap string Chroma.mval))
    (item : nat * string) :=
  let '(i, file_path) := item in
  let content := read_file t file_path in
  if strip_truthy content then
    match Chunking.chunk_code content with
    | inr chunks =>
        push_chunks (relpath file_path local_path) (Z.of_nat i) acc chunks
    | inl _ => acc
    end
  else acc.

Definition placeholder : string :=
  "No processable source files found in this repository.".

Definition placeholder_meta : gmap string Chroma.mval :=
  chunk_meta "README" 0 0 0.

(** [CodebaseManager._process_codebase]; [t] is the tree at
    [local_path]. *)
Definition _process_codebase (w : env) (st : state) (codebase_id : Z)
    (local_path : string) (t : tree) : state * outcome unit :=
  let files := get_source_files t in
  match files with
  | [] => (emit Warning_no_source_files st, Returned ())
  | _ :: _ =>
      let '(all_chunks, chunk_metadata) :=
        fold_left (process_file t local_path)
                  (imap (fun i f => (i, f)) files) ([], []) in
      let '(st, r) :=
        match all_chunks with
        | _ :: _ =>
            add_documents w st codebase_id all_chunks (Some chunk_metadata)
                          true
        | [] =>
            let '(st, r) :=
              add_documents w st codebase_id [placeholder]
                            (Some [placeholder_meta]) true in
            match r with
            | Returned _ =>
                (emit (Warning_no_processable_content codebase_id) st, r)
            | Raised _ => (st, r)
            end
        end in
      match r with
      | Returned _ =>
          (emit (Update_stats codebase_id (len files) (len all_chunks)) st,
           Returned ())
      | Raised e => (st, Raised e)
      end
  end.

Definition safe_placeholder : string :=
  "No processable source files found in this repository. It may contain only documentation, images, or other non-code files.".

(** The read-and-chunk loop of [_safe_process_codebase]; nothing in it
    is caught. *)
Fixpoint safe_docs (t : tree) (source_files : list string)
  : Chunking.error + list string :=
  match source_files with
  | [] => inr []
  | file_path :: rest =>
      let content := read_file t file_path in
      if String.eqb content EmptyString then safe_docs t rest
      else match Chunking.chunk_code content with
           | inl e => inl e
           | inr chunks =>
               match safe_docs t rest with
               | inl e => inl e
               | inr more => inr (chunks ++ more)
               end
           end
  end.

(** [CodebaseManager._safe_process_codebase]. *)
Definition _safe_process_codebase (w : env) (st : state) (codebase_id : Z)
    (t : tree) : state * outcome unit :=
  let source_files := get_source_files t in
  let docs :=
    match source_files with
    | [] => inr [safe_placeholder]
    | _ :: _ => safe_docs t source_files
    end in
  match docs with
  | inl _ => (st, Raised (ValueError "range() arg 3 must not be zero"))
  | inr docs =>
      match add_documents w st codebase_id docs None true with
      | (st, Returned _) =>
          (emit (Update_stats codebase_id (len source_files) (len docs)) st,
           Returned ())
      | (st, Raised e) => (st, Raised e)
      end
  end.

(** [CodebaseManager._add_codebase_temp] once the catalog has assigned
    [codebase_id]. *)
Definition _add_codebase_temp (w : env) (st : state) (codebase_id : Z)
    (cloned : option (tree * string)) (name : string)
  : state * outcome unit :=
  match TempProcessor.process_repository cloned name with
  | Raised e => (st, Raised e)
  | Returned (chunks, metadata, _) =>
      match add_documents w st codebase_id chunks None true with
      | (st, Returned _) =>
          (emit (Update_stats codebase_id
                   (TempProcessor.processed_files metadata) (len chunks)) st,
           Returned ())
      | (st, Raised e) => (st, Raised e)
      end
  end.

End Manager.

(** ** cleanup_chromadb.py *)

Module Cleanup.
Import Py World.

(** What the stand-alone utility meets: the system calls as in
    [World.env], and whether [kill_processes_using_directory] lets an
    exception through (it catches [TimeoutExpired] and [FileNotFoundError]
    only). *)
Record env := Env {
  os_env : World.env;
  kill_raises : bool
}.

Inductive event :=
| Rmtree (path : string) (handler returned : bool)
| Removed_ok (path : string)
| Attempt (k max : Z)
| Kill (path : string)
| Chmod_walk (path : string)
| Waiting (seconds : Z)
| Sleep (seconds : Z)
| Retry_failed (k : Z)
| Rename (src dst : string) (returned : bool)
| Renamed (path backup : string)
| Cannot_remove_or_rename (path : string).

Record state := State {
  disk : Os.fs;
  trace : list event
}.

Definition with_disk (d : Os.fs) (st : state) := State d (trace st).
Definition emit (e : event) (st : state) :=
  State (disk st) (trace st ++ [e]).

(** What the call returns, or that the exception of the process-killing
    helper left it. *)
Inductive result :=
| Returned (b : bool)
| Raised_by_kill.

(** [str(path.parent / (path.name + suffix))] for a [path] in the form
    pathlib prints it: the suffix goes behind the last component, and the
    path [.] has no name. *)
Definition sibling (path suffix : string) : string :=
  if String.eqb path "." then suffix else path +:+ suffix.

Definition max_retries : Z := 5.

(** [list(range(n))]. *)
Definition range1 (n : Z) : list Z := Z.of_nat <$> seq 0 (Z.to_nat n).

(** The [for attempt in range(max_retries)] loop of
    [force_remove_directory]; [k] counts the calls of [shutil.rmtree] made
    so far.  The [return False] behind the loop is what an empty range
    would reach. *)
Fixpoint force_remove_loop (w : env) (path : string) (attempts : list Z)
    (k : nat) (st : state) : state * result :=
  match attempts with
  | [] => (st, Returned false)
  | attempt :: rest =>
      let '(d, ok) :=
        Os.rmtree (rmtree_meets (os_env w) k) path (disk st) in
      let st := emit (Rmtree path false ok) (with_disk d st) in
      if ok then (emit (Removed_ok path) st, Returned true)
      else
        let st := emit (Attempt (attempt + 1) max_retries) st in
        if (attempt <? max_retries - 1)%Z then
          let st := if (attempt =? 1)%Z then emit (Kill path) st else st in
          if (attempt =? 1)%Z && kill_raises w then (st, Raised_by_kill)
          else
            let st := emit (Chmod_walk path) st in
            let wait_time := (2 ^ attempt)%Z in
            let st := emit (Sleep wait_time) (emit (Waiting wait_time) st) in
            let '(d, ok) :=
              Os.rmtree_onerror (rmtree_meets (os_env w) (S k)) path
                                (disk st) in
            let st := emit (Rmtree path true ok) (with_disk d st) in
            if ok then (emit (Removed_ok path) st, Returned true)
            else
              force_remove_loop w path rest (S (S k))
                (emit (Retry_failed (attempt + 1)) st)
        else
          let backup_path :=
            sibling path ("_backup_" +:+ str (now (os_env w))) in
          match Os.rename (rename_raises (os_env w)) path backup_path
                          (disk st) with
          | Some d =>
              (emit (Renamed path backup_path)
                 (emit (Rename path backup_path true) (with_disk d st)),
               Returned true)
          | None =>
              (emit (Cannot_remove_or_rename path)
                 (emit (Rename path backup_path false) st),
               Returned false)
          end
  end.

(** [force_remove_directory(path)], [path] as [Path(path)] prints it. *)
Definition force_remove_directory (w : env) (path : string) (st : state)
  : state * result :=
  force_remove_loop w path (range1 max_retries) 0 st.

End Cleanup.

(** ** temp_processor.py: the temporary directory *)

Module TempRepositoryProcessor.
Import Py World RepoLoader.

(** The system calls as in [World.env], the directory of temporary files,
    the random part of the name [tempfile.mkdtemp] settles on, and the
    files [git.Repo.clone_from] leaves in the directory, whether it returns
    or raises. *)
Record env := Env {
  os_env : World.env;
  tempdir : string;
  random_part : string;
  clone_leaves : list string
}.

Inductive event :=
| Mkdtemp (path : string)
| Error_failed_to_process
| Rmtree (path : string) (returned : bool)
| Info_cleaned_up
| Warning_could_not_clean_up (path : string)
| Rename (src dst : string) (returned : bool)
| Info_renamed_failed_cleanup (backup_name : string)
| Warning_manual_cleanup (path : string).

(** The field [temp_dir] of the processor, the disk, and what was printed
    or asked of the system. *)
Record state := State {
  temp_dir : option string;
  disk : Os.fs;
  trace : list event
}.

Definition with_temp_dir (t : option string) (st : state) :=
  State t (disk st) (trace st).
Definition with_disk (d : Os.fs) (st : state) :=
  State (temp_dir st) d (trace st).
Definition emit (e : event) (st : state) :=
  State (temp_dir st) (disk st) (trace st ++ [e]).

(** [_cleanup]: every exception in it is caught. *)
Definition _cleanup (w : env) (st : state) : state :=
  match temp_dir st with
  | None => st
  | Some dir =>
      if negb (String.eqb dir EmptyString) && Os.exists_ (disk st) dir then
        let '(d, ok) :=
          Os.rmtree (rmtree_meets (os_env w) 0) dir (disk st) in
        let st := emit (Rmtree dir ok) (with_disk d st) in
        let st :=
          if ok then emit Info_cleaned_up st
          else
            let st := emit (Warning_could_not_clean_up dir) st in
            let backup_name := dir +:+ "_cleanup_failed" in
            match Os.rename (rename_raises (os_env w)) dir backup_name
                            (disk st) with
            | Some d =>
                emit (Info_renamed_failed_cleanup backup_name)
                  (emit (Rename dir backup_name true) (with_disk d st))
            | None =>
                emit (Warning_manual_cleanup dir)
                  (emit (Rename dir backup_name false) st)
            end in
        with_temp_dir None st
      else st
  end.

(** The name [tempfile.mkdtemp(prefix=f"codebase_temp_{name}_")] makes a
    directory under. *)
Definition mkdtemp_path (w : env) (name : string) : string :=
  Os.path_join (tempdir w)
    ("codebase_temp_" +:+ name +:+ "_" +:+ random_part w).

(** [process_repository]: the temporary directory is made, the clone
    writes into it, the body runs ([TempProcessor.process_repository], on
    what the clone brought), and [_cleanup] runs whether the body returned
    or raised. *)
Definition process_repository (w : env) (st : state)
    (cloned : option (tree * string)) (name : string)
  : state * outcome (list string * TempProcessor.metadata * string) :=
  let dir := mkdtemp_path w name in
  let st :=
    emit (Mkdtemp dir)
      (with_temp_dir (Some dir)
         (with_disk (<[dir := Os.Dir [] ∅]> (disk st)) st)) in
  let st :=
    with_disk (<[dir := Os.Dir (clone_leaves w) ∅]> (disk st)) st in
  let r := TempProcessor.process_repository cloned name in
  let st := match r with
            | World.Raised _ => emit Error_failed_to_process st
            | World.Returned _ => st
            end in
  (_cleanup w st, r).

End TempRepositoryProcessor.

(** ** database.py

    The tables as lists of rows in the order of insertion.  What SQLite
    does is written out where the statements rely on it: [AUTOINCREMENT]
    gives a row an id above every id the table ever held, and the
    [UNIQUE] name makes an [INSERT] of a taken name fail.  The clock of
    [CURRENT_TIMESTAMP] is an argument.  [list_codebases] and
    [get_chat_history], whose order among equal time stamps SQLite leaves
    open, are not embedded. *)

Module CodebaseDatabase.
Import Py.

Record codebase_row := Codebase_row {
  id : Z;
  name : string;
  repo_url : string;
  local_path : option string;
  storage_mode : string;
  description : string;
  created_at : Z;
  updated_at : Z;
  file_count : Z;
  chunk_count : Z;
  commit_hash : option string;
  repo_metadata : option TempProcessor.metadata
}.

Record chat_row := Chat_row {
  chat_id : Z;
  codebase_id : Z;
  question : string;
  answer : string;
  chat_created_at : Z
}.

(** The database file: the two tables and their [sqlite_sequence]
    entries. *)
Record db := Db {
  codebases : list codebase_row;
  codebases_seq : Z;
  chat_history : list chat_row;
  chat_history_seq : Z
}.

(** [CodebaseDatabase(db_path)] on a path without a database file. *)
Definition init : db := Db [] 0 [] 0.

Definition max_id {A} (key : A → Z) (rows : list A) : Z :=
  foldr (fun r m => Z.max (key r) m) 0%Z rows.

(** [add_codebase]: the new id, or [ValueError] when the name is
    taken. *)
Definition add_codebase (now : Z) (d : db) (name_ repo_url_ : string)
    (local_path_ : option string) (description_ storage_mode_ : string)
    (commit_hash_ : option string)
    (repo_metadata_ : option TempProcessor.metadata)
  : db * option Z :=
  if existsb (fun r => String.eqb (name r) name_) (codebases d)
  then (d, None)
  else
    let codebase_id :=
      (Z.max (codebases_seq d) (max_id id (codebases d)) + 1)%Z in
    (Db (codebases d
           ++ [Codebase_row codebase_id name_ repo_url_ local_path_
                 storage_mode_ description_ now now 0 0 commit_hash_
                 repo_metadata_])
        codebase_id (chat_history d) (chat_history_seq d),
     Some codebase_id).

(** The dictionary built from a row: [storage_mode] reads [local] when
    the column is empty. *)
Definition as_dict (r : codebase_row) : codebase_row :=
  Codebase_row (id r) (name r) (repo_url r) (local_path r)
    (if String.eqb (storage_mode r) EmptyString then "local"
     else storage_mode r)
    (description r) (created_at r) (updated_at r) (file_count r)
    (chunk_count r) (commit_hash r) (repo_metadata r).

Definition get_codebase (d : db) (codebase_id_ : Z) : option codebase_row :=
  as_dict <$> List.find (fun r => Z.eqb (id r) codebase_id_) (codebases d).

Definition get_codebase_by_name (d : db) (name_ : string)
  : option codebase_row :=
  as_dict <$> List.find (fun r => String.eqb (name r) name_) (codebases d).

Definition update_codebase_stats (now : Z) (d : db) (codebase_id_ : Z)
    (file_count_ chunk_count_ : Z) : db :=
  Db ((fun r =>
         if Z.eqb (id r) codebase_id_
         then Codebase_row (id r) (name r) (repo_url r) (local_path r)
                (storage_mode r) (description r) (created_at r) now
                file_count_ chunk_count_ (commit_hash r) (repo_metadata r)
         else r) <$> codebases d)
     (codebases_seq d) (chat_history d) (chat_history_seq d).

(** The [UPDATE] of [_refresh_temp_codebase]. *)
Definition update_commit (now : Z) (d : db) (codebase_id_ : Z)
    (commit_hash_ : string) (repo_metadata_ : TempProcessor.metadata) : db :=
  Db ((fun r =>
         if Z.eqb (id r) codebase_id_
         then Codebase_row (id r) (name r) (repo_url r) (local_path r)
                (storage_mode r) (description r) (created_at r) now
                (file_count r) (chunk_count r) (Some commit_hash_)
                (Some repo_metadata_)
         else r) <$> codebases d)
     (codebases_seq d) (chat_history d) (chat_history_seq d).

Definition delete_codebase (d : db) (codebase_id_ : Z) : db :=
  Db (List.filter (fun r => negb (Z.eqb (id r) codebase_id_)) (codebases d))
     (codebases_seq d)
     (List.filter (fun c => negb (Z.eqb (codebase_id c) codebase_id_))
        (chat_history d))
     (chat_history_seq d).

Definition add_chat_entry (now : Z) (d : db) (codebase_id_ : Z)
    (question_ answer_ : string) : db :=
  let chat_id_ :=
    (Z.max (chat_history_seq d) (max_id chat_id (chat_history d)) + 1)%Z in
  Db (codebases d) (codebases_seq d)
     (chat_history d
        ++ [Chat_row chat_id_ codebase_id_ question_ answer_ now])
     chat_id_.

End CodebaseDatabase.

(** ** codebase_manager.py: the manager over the catalog and the store

    Printing is left out of this module. *)

Module CodebaseManager.
Import Py World RepoLoader.

(** What the manager meets besides what the store meets: the clock of the
    database, and what the calls of [shutil.rmtree] on a local repository
    meet, counted from 0 within one operation. *)
Record env := Env {
  store_env : World.env;
  db_now : Z;
  local_rmtree_meets : nat → Os.rm_outcome;
  local_rename_raises : bool;
  local_now : Z
}.

(** The exceptions that leave the manager: those of the store and the
    loader, the [TypeError] of [os.path.exists(None)], the [ValueError] of
    a taken name, and the [Exception] of [_force_remove_directory]. *)
Inductive exn :=
| Of_store (e : World.exn)
| TypeError
| ValueError_exists (name : string)
| Exception_cannot_remove_or_rename (path : string).

Inductive outcome {A : Type} :=
| Returned (a : A)
| Raised (e : exn).
Arguments outcome : clear implicits.

(** The fields of a [CodebaseManager]; the disk of the store is the disk
    the local repositories lie on. *)
Record state := State {
  db : CodebaseDatabase.db;
  embedding_store : Store.state;
  current_codebase_id : option Z
}.

Definition with_db (d : CodebaseDatabase.db) (m : state) :=
  State d (embedding_store m) (current_codebase_id m).
Definition with_store (s : Store.state) (m : state) :=
  State (db m) s (current_codebase_id m).
Definition with_current (c : option Z) (m : state) :=
  State (db m) (embedding_store m) c.
Definition with_local_disk (d : Os.fs) (m : state) :=
  with_store (Store.with_disk d (embedding_store m)) m.

Definition local_disk (m : state) : Os.fs := Store.disk (embedding_store m).

(** [switch_codebase]. *)
Definition switch_codebase (m : state) (codebase_id : Z) : state * bool :=
  match CodebaseDatabase.get_codebase (db m) codebase_id with
  | Some _ => (with_current (Some codebase_id) m, true)
  | None => (m, false)
  end.

(** [get_current_codebase]; the id 0 counts as none selected. *)
Definition get_current_codebase (m : state)
  : option CodebaseDatabase.codebase_row :=
  match current_codebase_id m with
  | Some c => if Z.eqb c 0 then None
              else CodebaseDatabase.get_codebase (db m) c
  | None => None
  end.

(** [delete_codebase]: whatever is raised after the look-up is caught and
    answered with [False]. *)
Definition delete_codebase (w : env) (m : state) (codebase_id : Z)
  : state * bool :=
  match CodebaseDatabase.get_codebase (db m) codebase_id with
  | None => (m, false)
  | Some codebase =>
      let m := with_db (CodebaseDatabase.delete_codebase (db m) codebase_id)
                 m in
      match Store.delete_codebase (store_env w) (embedding_store m)
                                  codebase_id with
      | (s, World.Raised _) => (with_store s m, false)
      | (s, World.Returned _) =>
          let m := with_store s m in
          match CodebaseDatabase.local_path codebase with
          | None => (m, false)
          | Some local_path =>
              let removed :=
                if Os.exists_ (local_disk m) local_path
                then Os.rmtree (local_rmtree_meets w 0) local_path
                               (local_disk m)
                else (local_disk m, true) in
              let '(d, ok) := removed in
              let m := with_local_disk d m in
              if ok then
                (if bool_decide (current_codebase_id m = Some codebase_id)
                 then with_current None m else m,
                 true)
              else (m, false)
          end
      end
  end.

(** [_force_remove_directory] of the manager: three calls of
    [shutil.rmtree], then the rename. *)
Definition _force_remove_directory (w : env) (path : string) (d : Os.fs)
  : Os.fs * outcome unit :=
  let '(d, ok) := Os.rmtree (local_rmtree_meets w 0) path d in
  if ok then (d, Returned ())
  else
    let '(d, ok) := Os.rmtree_onerror (local_rmtree_meets w 1) path d in
    if ok then (d, Returned ())
    else
      let '(d, ok) := Os.rmtree_onerror (local_rmtree_meets w 2) path d in
      if ok then (d, Returned ())
      else
        let backup_path := path +:+ "_backup_" +:+ str (local_now w) in
        match Os.rename (local_rename_raises w) path backup_path d with
        | Some d => (d, Returned ())
        | None => (d, Raised (Exception_cannot_remove_or_rename path))
        end.

(** [_safe_process_codebase]; [t] is the tree at [local_path]. *)
Definition _safe_process_codebase (w : env) (m : state) (codebase_id : Z)
    (t : tree) : state * outcome unit :=
  let source_files := get_source_files t in
  let docs :=
    match source_files with
    | [] => inr [Manager.safe_placeholder]
    | _ :: _ => Manager.safe_docs t source_files
    end in
  match docs with
  | inl _ =>
      (m, Raised (Of_store
                    (World.ValueError "range() arg 3 must not be zero")))
  | inr docs =>
      match Store.add_documents (store_env w) (embedding_store m)
                                codebase_id docs None true with
      | (s, World.Returned _) =>
          (with_db
             (CodebaseDatabase.update_codebase_stats (db_now w) (db m)
                codebase_id (len source_files) (len docs))
             (with_store s m),
           Returned ())
      | (s, World.Raised e) => (with_store s m, Raised (Of_store e))
      end
  end.

(** [reprocess_codebase]; [t] is the tree at the local path. *)
Definition reprocess_codebase (w : env) (m : state) (codebase_id : Z)
    (t : tree) : state * outcome bool :=
  match CodebaseDatabase.get_codebase (db m) codebase_id with
  | None => (m, Returned false)
  | Some codebase =>
      match CodebaseDatabase.local_path codebase with
      | None => (m, Raised TypeError)
      | Some local_path =>
          if negb (Os.exists_ (local_disk m) local_path)
          then (m, Returned false)
          else
            match _safe_process_codebase w m codebase_id t with
            | (m, Returned _) => (m, Returned true)
            | (m, Raised _) => (m, Returned false)
            end
      end
  end.

(** [_add_codebase_temp]; [cloned] as for
    [TempProcessor.process_repository].  The temporary directory of the
    processor lies outside the paths the manager looks at and is left out
    here (see [TempRepositoryProcessor]). *)
Definition _add_codebase_temp (w : env) (m : state) (name repo_url : string)
    (description : string) (cloned : option (tree * string))
  : state * outcome Z :=
  match TempProcessor.process_repository cloned name with
  | World.Raised e => (m, Raised (Of_store e))
  | World.Returned (chunks, metadata, commit_hash) =>
      match CodebaseDatabase.add_codebase (db_now w) (db m) name repo_url
              None description "temporary" (Some commit_hash)
              (Some metadata) with
      | (_, None) => (m, Raised (ValueError_exists name))
      | (d, Some codebase_id) =>
          let m := with_db d m in
          match Store.add_documents (store_env w) (embedding_store m)
                                    codebase_id chunks None true with
          | (s, World.Raised e) => (with_store s m, Raised (Of_store e))
          | (s, World.Returned _) =>
              (with_db
                 (CodebaseDatabase.update_codebase_stats (db_now w)
                    (db (with_store s m)) codebase_id
                    (TempProcessor.processed_files metadata) (len chunks))
                 (with_store s m),
               Returned codebase_id)
          end
      end
  end.

(** [_refresh_temp_codebase]: what is raised after the look-up is caught
    and answered with [False]. *)
Definition _refresh_temp_codebase (w : env) (m : state) (codebase_id : Z)
    (cloned : option (tree * string)) : state * bool :=
  match CodebaseDatabase.get_codebase (db m) codebase_id with
  | None => (m, false)
  | Some codebase =>
      match TempProcessor.process_repository cloned
              (CodebaseDatabase.name codebase) with
      | World.Raised _ => (m, false)
      | World.Returned (chunks, metadata, commit_hash) =>
          let m :=
            with_db (CodebaseDatabase.update_commit (db_now w) (db m)
                       codebase_id commit_hash metadata) m in
          match Store.add_documents (store_env w) (embedding_store m)
                                    codebase_id chunks None true with
          | (s, World.Raised _) => (with_store s m, false)
          | (s, World.Returned _) =>
              (with_db
                 (CodebaseDatabase.update_codebase_stats (db_now w)
                    (db (with_store s m)) codebase_id
                    (TempProcessor.processed_files metadata) (len chunks))
                 (with_store s m),
               true)
          end
      end
  end.

End CodebaseManager.

(** * Vocabulary of the properties *)

Section Vocabulary.
Import Py PyStr World Store Chunking Embedding RepoLoader.

(** What one window contributes. *)
Definition keep (chunk : string) : list string :=
  if strip_truthy chunk then [chunk] else [].

Definition window (size : Z) (lines : list string) (i : Z) : string :=
  join LF (slice lines i (i + size)).

(** The lines a chunk is made of. *)
Definition lines_of (chunk : string) : list string := split LF chunk.

(** The last [k] lines of [c] are the first [k] lines of [c']. *)
Definition overlap_by (k : nat) (c c' : string) : Prop :=
  drop (length (lines_of c) - k) (lines_of c) = take k (lines_of c').

(** Each chunk overlaps the next by [k] lines; with [but_last] the pair
    that ends with the last chunk is exempt. *)
Fixpoint chained (but_last : bool) (k : nat) (chunks : list string) : Prop :=
  match chunks with
  | c :: rest =>
      match rest with
      | [] => True
      | [c'] => (if but_last then True else overlap_by k c c')
      | c' :: _ :: _ => overlap_by k c c' ∧ chained but_last k rest
      end
  | [] => True
  end.

(** A hundred lines [x]. *)
Definition hundred_lines : string := join LF (replicate 100 "x"%string).

(** A hundred lines whose window of lines 30 to 69 is blank: thirty lines
    [a], one line holding a space, thirty-nine empty lines, thirty lines
    [b]. *)
Definition hundred_lines_gap : string :=
  join LF (replicate 30 "a"%string ++ [" "%string]
             ++ replicate 39 EmptyString ++ replicate 30 "b"%string).

(** [-1 <= x <= 1] in binary64. *)
Definition in_unit (x : float) : bool :=
  PrimFloat.leb (-1)%float x && PrimFloat.leb x 1%float.

Definition byte (b : Z) : Prop := (0 <= b < 256)%Z.

(** The digest string of a list of bytes. *)
Definition hexstr (bs : list Z) : string :=
  fold_right (fun b acc => Md5.hex2 b +:+ acc) EmptyString bs.

(** Whether each call of [shutil.rmtree] in a trace returned, in order. *)
Definition rmtree_results (tr : list event) : list bool :=
  omap (fun e => match e with Rmtree _ _ r => Some r | _ => None end) tr.

(** The calls of [os.rename] in a trace. *)
Definition renames (tr : list event) : list (string * string * bool) :=
  omap (fun e => match e with
                 | Rename s d r => Some (s, d, r)
                 | _ => None
                 end) tr.

(** The rounds of the loop that went past their first [rmtree], by the
    number printed for them. *)
Definition rounds (tr : list event) : list Z :=
  omap (fun e => match e with Info_attempt k => Some k | _ => None end) tr.

(** The [k]-th call of [shutil.rmtree] meets a lock. *)
Definition blocked (w : env) (k : nat) : bool :=
  match rmtree_meets w k with Os.Removed => false | Os.Blocked _ => true end.

Definition backup_of (w : env) (path : string) : string :=
  path +:+ "_backup_" +:+ str (now w).

(** What a stretch of the loop did between two states: the results of its
    [rmtree] calls, its [rename] calls, the rounds it counted, and the disk
    away from the directory and its backup name left alone. *)
Definition stretch (path backup : string) (st st' : state)
    (calls : list bool) (moves : list (string * string * bool))
    (tries : list Z) : Prop :=
  rmtree_results (trace st') = rmtree_results (trace st) ++ calls
  ∧ renames (trace st') = renames (trace st) ++ moves
  ∧ rounds (trace st') = rounds (trace st) ++ tries
  ∧ (∀ p : string, p ≠ path → p ≠ backup → disk st' !! p = disk st !! p)
  ∧ base_db_dir st' = base_db_dir st
  ∧ clients st' = clients st
  ∧ collections st' = collections st.

(** The handle every tenant gets: its own directory, its own collection
    name. *)
Definition canonical (st : state) (codebase_id : Z) : handle :=
  Handle (get_db_path st codebase_id) (get_collection_name codebase_id).

(** Every entry carries the tenant's id, as [add_documents] writes it. *)
Definition tagged (codebase_id : Z) (c : list Chroma.entry) : Prop :=
  Forall (fun e => Chroma.e_metadata e !! "codebase_id"
                   = Some (Chroma.MInt codebase_id)) c.

(** What holds of a store that only its own methods have worked on: cached
    handles are the canonical ones and can be read, and what a tenant's
    collection holds was put there for that tenant. *)
Record ok (st : state) : Prop := Ok {
  ok_handles : ∀ cid h, collections st !! cid = Some h → h = canonical st cid;
  ok_readable : ∀ cid h, collections st !! cid = Some h →
                         is_Some (read (disk st) h);
  ok_tagged : ∀ cid c, read (disk st) (canonical st cid) = Some c →
                       tagged cid c
}.

(** The ids and the metadata [add_documents] builds for a batch. *)
Definition batch_ids (cid : Z) (docs : list string) : list string :=
  doc_id cid <$> seq 0 (length docs).

Definition batch_metas (cid : Z) (docs : list string)
    (meta : option (list (gmap string Chroma.mval)))
  : list (gmap string Chroma.mval) :=
  match meta with
  | None => default_metadata cid <$> seq 0 (length docs)
  | Some m => insert "codebase_id" (Chroma.MInt cid) <$> m
  end.

(** Every call of [shutil.rmtree] is blocked and keeps all files; the
    rename works; the clock reads 1700000000. *)
Definition locked : env :=
  Env (fun _ => Os.Blocked (fun _ => true)) false 1700000000 false false false.

(** A store directory holding the directory of tenant 5. *)
Definition locked_store : state :=
  State "/db" ∅ ∅
        (<["/db/codebase_5" := Os.Dir ["chroma.sqlite3"] ∅]>
           {["/db" := Os.Dir [] ∅]})
        [].

(** Tenant 5 after one ingest of one chunk into an empty store. *)
Definition populated : state :=
  fst (add_documents calm (init "/db" ∅) 5 ["print(1)"] None true).

(** Tenants 5 and 6, one chunk each. *)
Definition two_tenants : state :=
  fst (add_documents calm populated 6 ["x = 2"] None true).

(** The database raises in [collection.delete] and nowhere else. *)
Definition delete_fails : env :=
  Env (fun _ => Os.Removed) false 0 false true false.

(** The database raises in [collection.add] and nowhere else. *)
Definition add_fails : env :=
  Env (fun _ => Os.Removed) false 0 false false true.

(** A working tree with a picture and a licence, nothing the loader
    takes. *)
Definition picture_only : tree :=
  Tree [("/repos/logo", ["logo.png"; "LICENSE"])] (fun _ => None) 2.

(** What one system call may do to the disk as far as a directory [path]
    and its backup name are concerned: every other path is left alone, and
    [path] is gone, or as it was, or still a directory with the same
    database in it. *)
Definition touches (path backup : string) (d d' : gmap string Os.node)
  : Prop :=
  (∀ p : string, p ≠ path → p ≠ backup → d' !! p = d !! p)
  ∧ (d' !! path = None
     ∨ d' !! path = d !! path
     ∨ ∃ files files' db, d !! path = Some (Os.Dir files db)
                          ∧ d' !! path = Some (Os.Dir files' db)).

(** The same for two states of the store, whose other fields agree. *)
Definition settled (path backup : string) (st st' : state) : Prop :=
  base_db_dir st' = base_db_dir st
  ∧ clients st' = clients st
  ∧ collections st' = collections st
  ∧ touches path backup (disk st) (disk st').

(** The states a store goes through from its creation on an empty disk. *)
Inductive reachable : state → Prop :=
| reach_init (base : string) : reachable (init base ∅)
| reach_add w st cid docs meta repl :
    reachable st → reachable (fst (add_documents w st cid docs meta repl))
| reach_delete w st cid :
    reachable st → reachable (fst (delete_codebase w st cid))
| reach_stats st cid :
    reachable st → reachable (fst (get_codebase_stats st cid)).

End Vocabulary.

Section SplitterVocabulary.
Import Py Chunking.

(** The number of windows [chunk_code] looks at in a text of these
    lines: one every thirty lines. *)
Definition windows (lines : list string) : nat :=
  Z.to_nat ((len lines - 0 + 30 - 1) / 30).

(** The window that starts at line [30 * k], as a list of lines. *)
Definition window_lines (lines : list string) (k : nat) : list string :=
  take 40 (drop (30 * k) lines).

End SplitterVocabulary.

Section ListingVocabulary.
Import Py PyStr World Store.

(** The number a run of decimal digits stands for, read from the left
    with [acc] for what was read before. *)
Fixpoint uint_value (acc : Z) (d : Decimal.uint) : Z :=
  match d with
  | Decimal.Nil => acc
  | Decimal.D0 l => uint_value (10 * acc + 0) l
  | Decimal.D1 l => uint_value (10 * acc + 1) l
  | Decimal.D2 l => uint_value (10 * acc + 2) l
  | Decimal.D3 l => uint_value (10 * acc + 3) l
  | Decimal.D4 l => uint_value (10 * acc + 4) l
  | Decimal.D5 l => uint_value (10 * acc + 5) l
  | Decimal.D6 l => uint_value (10 * acc + 6) l
  | Decimal.D7 l => uint_value (10 * acc + 7) l
  | Decimal.D8 l => uint_value (10 * acc + 8) l
  | Decimal.D9 l => uint_value (10 * acc + 9) l
  end.

(** The name of a tenant's directory inside the base directory. *)
Definition tenant_dir (codebase_id : Z) : string :=
  "codebase_" +:+ str codebase_id.

(** The base directory is a directory as soon as a client is open. *)
Definition grounded (st : state) : Prop :=
  clients st ≠ ∅ → Os.isdir (disk st) (base_db_dir st) = true.

(** The states of a store object in a process that has not opened tenant
    [cid]: the object is made, over whatever the disk holds, and there is
    no ingest and no statistics call for [cid] (deleting a tenant opens
    nothing). *)
Inductive unopened (cid : Z) : state → Prop :=
| unopened_init base d : unopened cid (init base d)
| unopened_add w st c docs meta repl :
    c ≠ cid → unopened cid st →
    unopened cid (fst (add_documents w st c docs meta repl))
| unopened_delete w st c :
    unopened cid st → unopened cid (fst (delete_codebase w st c))
| unopened_stats st c :
    c ≠ cid → unopened cid st →
    unopened cid (fst (get_codebase_stats st c)).

(** The base directory holds, under names that start with [codebase_],
    no directory but the tenants' as [get_db_path] names them: no backup
    of a removal that failed, nothing put there by hand. *)
Definition canonical_names (st : state) : Prop :=
  ∀ item : string,
    item ∈ Os.listdir (disk st) (base_db_dir st) →
    startswith "codebase_" item = true →
    Os.isdir (disk st) (Os.path_join (base_db_dir st) item) = true →
    ∃ c : Z, item = tenant_dir c.

End ListingVocabulary.

Section CatalogVocabulary.

(** The row [add_codebase] writes, as [get_codebase] hands it out. *)
Definition fresh_row (now i : Z) (n u : string) (lp : option string)
    (desc sm : string) (ch : option string)
    (rm : option TempProcessor.metadata) : CodebaseDatabase.codebase_row :=
  CodebaseDatabase.Codebase_row i n u lp
    (if String.eqb sm EmptyString then "local"%string else sm)
    desc now now 0 0 ch rm.

End CatalogVocabulary.

Section ManagerVocabulary.


(** The counts [update_codebase_stats] writes into a row. *)
Definition with_counts (now fc cc : Z) (r : CodebaseDatabase.codebase_row)
  : CodebaseDatabase.codebase_row :=
  CodebaseDatabase.Codebase_row
    (CodebaseDatabase.id r) (CodebaseDatabase.name r)
    (CodebaseDatabase.repo_url r) (CodebaseDatabase.local_path r)
    (CodebaseDatabase.storage_mode r) (CodebaseDatabase.description r)
    (CodebaseDatabase.created_at r) now fc cc
    (CodebaseDatabase.commit_hash r) (CodebaseDatabase.repo_metadata r).

(** The commit and the metadata [_refresh_temp_codebase] writes into a
    row. *)
Definition with_commit (now : Z) (ch : string)
    (md : TempProcessor.metadata) (r : CodebaseDatabase.codebase_row)
  : CodebaseDatabase.codebase_row :=
  CodebaseDatabase.Codebase_row
    (CodebaseDatabase.id r) (CodebaseDatabase.name r)
    (CodebaseDatabase.repo_url r) (CodebaseDatabase.local_path r)
    (CodebaseDatabase.storage_mode r) (CodebaseDatabase.description r)
    (CodebaseDatabase.created_at r) now (CodebaseDatabase.file_count r)
    (CodebaseDatabase.chunk_count r) (Some ch) (Some md).

(** A manager that has nothing yet, over a store in [/db]. *)
Definition new_manager : CodebaseManager.state :=
  CodebaseManager.State CodebaseDatabase.init (Store.init "/db" ∅) None.

(** Nothing interferes with the manager. *)
Definition quiet : CodebaseManager.env :=
  CodebaseManager.Env World.calm 0 (fun _ => Os.Removed) false 0.

(** The database raises in [collection.add]. *)
Definition store_add_fails : CodebaseManager.env :=
  CodebaseManager.Env add_fails 0 (fun _ => Os.Removed) false 0.

End ManagerVocabulary.

Section CleanupVocabulary.
Import Py World.

(** Whether each call of [shutil.rmtree] of the utility returned. *)
Definition cleanup_calls (tr : list Cleanup.event) : list bool :=
  omap (fun e => match e with
                 | Cleanup.Rmtree _ _ r => Some r
                 | _ => None
                 end) tr.

(** The seconds it slept, call by call. *)
Definition cleanup_sleeps (tr : list Cleanup.event) : list Z :=
  omap (fun e => match e with Cleanup.Sleep s => Some s | _ => None end) tr.

(** The directories it ran the process-killing helper for. *)
Definition cleanup_kills (tr : list Cleanup.event) : list string :=
  omap (fun e => match e with Cleanup.Kill p => Some p | _ => None end) tr.

(** Its calls of [Path.rename]. *)
Definition cleanup_moves (tr : list Cleanup.event)
  : list (string * string * bool) :=
  omap (fun e => match e with
                 | Cleanup.Rename s d r => Some (s, d, r)
                 | _ => None
                 end) tr.

Definition cleanup_blocked (w : Cleanup.env) (k : nat) : bool :=
  blocked (Cleanup.os_env w) k.

Definition cleanup_backup (w : Cleanup.env) (path : string) : string :=
  Cleanup.sibling path ("_backup_" +:+ str (now (Cleanup.os_env w))).

(** What a stretch of the utility's loop did between two states. *)
Definition cleanup_stretch (path backup : string)
    (st st' : Cleanup.state) (calls : list bool) (sleeps : list Z)
    (kills : list string) (moves : list (string * string * bool)) : Prop :=
  cleanup_calls (Cleanup.trace st')
  = cleanup_calls (Cleanup.trace st) ++ calls
  ∧ cleanup_sleeps (Cleanup.trace st')
    = cleanup_sleeps (Cleanup.trace st) ++ sleeps
  ∧ cleanup_kills (Cleanup.trace st')
    = cleanup_kills (Cleanup.trace st) ++ kills
  ∧ cleanup_moves (Cleanup.trace st')
    = cleanup_moves (Cleanup.trace st) ++ moves
  ∧ (∀ p : string, p ≠ path → p ≠ backup →
       Cleanup.disk st' !! p = Cleanup.disk st !! p).

End CleanupVocabulary.

Section ScenarioVocabulary.

(** A working tree whose one source file holds blanks only. *)
Definition blank_tree : RepoLoader.tree :=
  RepoLoader.Tree [("/repos/notes", ["notes.md"])]
                  (fun _ => Some "   "%string) 1.

(** The row of a codebase kept on disk, as [get_codebase] hands it
    out. *)
Definition one_local_row : CodebaseDatabase.codebase_row :=
  CodebaseDatabase.Codebase_row 1 "demo" "https://example.org/demo.git"
    (Some "/app/repos/demo"%string) "local" EmptyString 100 100 3 7 None
    None.

(** A manager whose catalog holds that row and has it selected. *)
Definition one_local : CodebaseManager.state :=
  CodebaseManager.State (CodebaseDatabase.Db [one_local_row] 1 [] 0)
                        (Store.init "/db" ∅) (Some 1%Z).

(** The clean-up utility before the directory of tenant 5. *)
Definition locked_tenant : Cleanup.state :=
  Cleanup.State {["vector_db/codebase_5"%string
                  := Os.Dir ["chroma.sqlite3"%string] ∅]} [].

End ScenarioVocabulary.

(** * Properties *)

(** ** Facts about the Python built-ins *)

Section PyFacts.
Import Py.

Lemma split_nonempty sep s : split sep s ≠ [].
Proof.
  destruct s as [|c r]; simpl; [done|].
  destruct (Ascii.eqb c sep); [done|].
  destruct (split sep r); done.
Qed.

Lemma join_cons2 sep w w' ws :
  join sep (w :: w' :: ws) = w +:+ String sep (join sep (w' :: ws)).
Proof. reflexivity. Qed.

Lemma join_split sep s : join sep (split sep s) = s.
Proof.
  induction s as [|c r IH]; simpl; [done|].
  destruct (Ascii.eqb_spec c sep) as [->|Hne].
  - pose proof (split_nonempty sep r) as Hr.
    destruct (split sep r) as [|w ws]; [done|].
    by rewrite join_cons2, IH.
  - pose proof (split_nonempty sep r) as Hr.
    destruct (split sep r) as [|w ws]; [done|].
    destruct ws as [|w' ws].
    + simpl in *. by rewrite IH.
    + rewrite join_cons2. rewrite join_cons2 in IH. by rewrite <- IH.
Qed.

Lemma split_has sep s : Forall (fun w => has sep w = false) (split sep s).
Proof.
  induction s as [|c r IH]; simpl; [by repeat constructor|].
  destruct (Ascii.eqb_spec c sep) as [->|Hne].
  - by constructor.
  - destruct (split sep r) as [|w ws]; simpl.
    + repeat constructor. simpl.
      destruct (Ascii.eqb_spec c sep); [done|reflexivity].
    + inversion_clear IH as [|? ? Hw Hws]. constructor; [|done].
      simpl. destruct (Ascii.eqb_spec c sep); [done|]. by rewrite Hw.
Qed.

Lemma split_app_free sep w rest :
  has sep w = false →
  split sep (w +:+ String sep rest) = w :: split sep rest.
Proof.
  induction w as [|c r IH]; simpl; intros Hw.
  - by rewrite Ascii.eqb_refl.
  - apply orb_false_iff in Hw as [Hc Hr]. rewrite Hc.
    by rewrite (IH Hr).
Qed.

Lemma split_free sep w : has sep w = false → split sep w = [w].
Proof.
  induction w as [|c r IH]; simpl; intros Hw; [done|].
  apply orb_false_iff in Hw as [Hc Hr]. rewrite Hc.
  by rewrite (IH Hr).
Qed.

Lemma split_join sep ws :
  ws ≠ [] → Forall (fun w => has sep w = false) ws →
  split sep (join sep ws) = ws.
Proof.
  induction ws as [|w ws IH]; [done|]. intros _ Hall.
  inversion_clear Hall as [|? ? Hw Hws].
  destruct ws as [|w' ws].
  - simpl. by apply split_free.
  - rewrite join_cons2, split_app_free by done.
    f_equal. by apply IH.
Qed.

Lemma len_nonneg {A} (l : list A) : (0 <= len l)%Z.
Proof. unfold len. lia. Qed.

Lemma slice_from_0 {A} (l : list A) (b : Z) :
  (len l <= b)%Z → slice l 0 b = l.
Proof.
  intros Hb. unfold slice, clamp. simpl.
  pose proof (len_nonneg l).
  destruct (b <? 0)%Z eqn:E; [lia|].
  rewrite Z.min_r, Z.min_l by lia. unfold len.
  rewrite Z.sub_0_r, Nat2Z.id. simpl. by rewrite firstn_all.
Qed.

Lemma slice_take_drop {A} (l : list A) (a b : Z) :
  (0 <= a <= b)%Z →
  slice l a b
  = take (Z.to_nat (Z.min b (len l) - Z.min a (len l)))
         (drop (Z.to_nat (Z.min a (len l))) l).
Proof.
  intros Hab. unfold slice, clamp.
  destruct (a <? 0)%Z eqn:Ea; [lia|].
  destruct (b <? 0)%Z eqn:Eb; [lia|]. reflexivity.
Qed.

Lemma strip_truthy_blank s :
  (if strip_truthy s then [s] else []) = if blank s then [] else [s].
Proof. unfold strip_truthy. by destruct (blank s). Qed.

End PyFacts.

(** ** The splitter *)

Section ChunkingFacts.
Import Py Chunking.

Lemma range_up (stop step : Z) :
  (0 < step)%Z →
  range 0 stop step
  = Some (map (fun k => 0 + Z.of_nat k * step)%Z
              (seq 0 (Z.to_nat ((stop - 0 + step - 1) / step)))).
Proof.
  intros Hs. unfold range.
  destruct (step =? 0)%Z eqn:E0; [lia|].
  destruct (0 <? step)%Z eqn:E1; [done|lia].
Qed.

Lemma range_down (stop step : Z) :
  (0 <= stop)%Z → (step < 0)%Z → range 0 stop step = Some [].
Proof.
  intros Hn Hs. unfold range.
  destruct (step =? 0)%Z eqn:E0; [lia|].
  destruct (0 <? step)%Z eqn:E1; [lia|].
  assert ((0 - stop - step - 1) / - step <= 0)%Z as Hq.
  { assert ((0 - stop - step - 1) / - step < 1)%Z; [|lia].
    apply Z.div_lt_upper_bound; lia. }
  replace (Z.to_nat ((0 - stop - step - 1) / - step)) with 0%nat by lia.
  done.
Qed.

Lemma steps_done (n i step : Z) :
  (0 < step)%Z → (n <= i)%Z →
  Z.to_nat ((n - i + step - 1) / step) = 0%nat.
Proof.
  intros Hs Hi.
  assert ((n - i + step - 1) / step < 1)%Z; [|lia].
  apply Z.div_lt_upper_bound; lia.
Qed.

Lemma steps_more (n i step : Z) :
  (0 < step)%Z → (i < n)%Z →
  Z.to_nat ((n - i + step - 1) / step)
  = S (Z.to_nat ((n - (i + step) + step - 1) / step)).
Proof.
  intros Hs Hi.
  replace (n - i + step - 1)%Z
    with ((n - (i + step) + step - 1) + 1 * step)%Z by lia.
  rewrite Z.div_add by lia.
  assert (0 <= (n - (i + step) + step - 1) / step)%Z.
  { apply Z.div_pos; lia. }
  lia.
Qed.

Lemma steps_le (n step : Z) :
  (0 < step)%Z → (0 <= n)%Z →
  (Z.to_nat ((n - 0 + step - 1) / step) <= Z.to_nat n)%nat.
Proof.
  intros Hs Hn.
  assert ((n - 0 + step - 1) / step <= n)%Z; [|lia].
  assert ((n - 0 + step - 1) / step < n + 1)%Z; [|lia].
  apply Z.div_lt_upper_bound; nia.
Qed.

(** The start-index loop visits the indices of [range]. *)
Lemma scan_range (size step : Z) (lines : list string) :
  (0 < step)%Z →
  ∀ (fuel : nat) (i : Z),
    (Z.to_nat ((len lines - i + step - 1) / step) <= fuel)%nat →
    scan fuel size step lines i
    = flat_map (fun j => keep (window size lines j))
        (map (fun k => i + Z.of_nat k * step)%Z
             (seq 0 (Z.to_nat ((len lines - i + step - 1) / step)))).
Proof.
  intros Hs. induction fuel as [|fuel IH]; intros i Hfuel.
  - replace (Z.to_nat ((len lines - i + step - 1) / step)) with 0%nat
      by lia.
    done.
  - simpl. destruct (len lines <=? i)%Z eqn:E.
    + rewrite steps_done by lia. done.
    + rewrite steps_more in Hfuel |- * by lia.
      rewrite IH by lia.
      rewrite <- cons_seq, <- fmap_S_seq. simpl.
      rewrite Z.add_0_r. unfold keep at 2, window at 2.
      rewrite strip_truthy_blank. f_equal.
      f_equal. rewrite <- list_fmap_compose.
      apply list_fmap_ext. intros _ k _. simpl. lia.
Qed.

(** With [overlap < window] the code is the stepping loop of the
    specification. *)
Lemma chunk_code_with_stepping (size overlap : Z) (text : string) :
  (overlap < size)%Z →
  chunk_code_with size overlap text
  = inr (split_stepping size overlap text).
Proof.
  intros Hlt. unfold chunk_code_with, split_stepping.
  rewrite range_up by lia.
  rewrite scan_range; [| lia |].
  - reflexivity.
  - pose proof (steps_le (len (split LF text)) (size - overlap)) as H.
    unfold len in *. rewrite Nat2Z.id in H. apply H; lia.
Qed.

End ChunkingFacts.

Section ChunkingClaims.
Import Py Chunking.

Lemma rng_1 (n : Z) : (1 <= n <= 30)%Z → Z.to_nat ((n - 0 + 30 - 1) / 30) = 1%nat.
Proof.
  intros H. assert ((n - 0 + 30 - 1) / 30 = 1)%Z as ->; [|done].
  symmetry. apply Z.div_unique with (r := (n - 1)%Z); lia.
Qed.

Lemma rng_2 (n : Z) : (30 < n <= 60)%Z → Z.to_nat ((n - 0 + 30 - 1) / 30) = 2%nat.
Proof.
  intros H. assert ((n - 0 + 30 - 1) / 30 = 2)%Z as ->; [|done].
  symmetry. apply Z.div_unique with (r := (n - 31)%Z); lia.
Qed.

Lemma len_split_pos sep s : (1 <= len (split sep s))%Z.
Proof.
  pose proof (split_nonempty sep s). unfold len.
  destruct (split sep s); [done|]. simpl. lia.
Qed.

Lemma slice_tail {A} (l : list A) (a b : Z) :
  (0 <= a <= len l)%Z → (len l <= b)%Z →
  slice l a b = drop (Z.to_nat a) l.
Proof.
  intros Ha Hb. rewrite slice_take_drop by lia.
  rewrite Z.min_r, Z.min_l by lia.
  apply take_ge. rewrite length_drop. unfold len in *. lia.
Qed.

(** C9, as the code has it: a text of at most 30 lines gives the whole
    text as its only chunk, or no chunk when it is blank; a text of 31 to
    39 lines gives the whole text and then, from the second window, its
    lines from index 30 on, each kept unless blank. *)
Theorem chunk_code_short (text : string)
    (Hshort : (len (split LF text) < Config.CHUNK_SIZE)%Z) :
  chunk_code text
  = inr (keep text
           ++ if (30 <? len (split LF text))%Z
              then keep (join LF (drop 30 (split LF text)))
              else []).
Proof.
  unfold Config.CHUNK_SIZE in Hshort.
  unfold chunk_code, chunk_code_with, Config.CHUNK_SIZE,
    Config.CHUNK_OVERLAP.
  pose proof (len_split_pos LF text) as Hpos.
  replace (40 - 10)%Z with 30%Z by done.
  rewrite range_up by lia.
  destruct (30 <? len (split LF text))%Z eqn:E.
  - rewrite rng_2 by lia. simpl.
    rewrite slice_from_0, join_split by lia.
    rewrite slice_tail by lia. rewrite app_nil_r. reflexivity.
  - rewrite rng_1 by lia. simpl.
    rewrite slice_from_0, join_split by lia. reflexivity.
Qed.

Lemma chunk_code_short_witness :
  (len (split LF "def f():
  return 1") < Config.CHUNK_SIZE)%Z
  ∧ chunk_code "def f():
  return 1" = inr ["def f():
  return 1"].
Proof.
  split; [reflexivity|].
  exact (chunk_code_short "def f():
  return 1" eq_refl).
Defined.

(** C9 as stated fails between 31 and 39 lines: thirty-one lines [a]
    give two chunks, the whole text and the last line again. *)
Lemma chunk_code_short_counterexample :
  ¬ (∀ text : string,
       (len (split LF text) < Config.CHUNK_SIZE)%Z →
       chunk_code text = inr (if strip_truthy text then [text] else [])).
Proof.
  intros H. specialize (H (join LF (replicate 31 "a"%string)) eq_refl).
  vm_compute in H. discriminate H.
Qed.

(** C8, as the code has it: with [overlap = window] the zero step makes
    [range] raise before any line is looked at; with [overlap > window]
    the step is negative, the range is empty and the result is the empty
    list, without an error.  Either way the call ends. *)
Theorem chunk_code_degenerate (size overlap : Z) (text : string)
    (Hdeg : (size <= overlap)%Z) :
  chunk_code_with size overlap text
  = if (overlap =? size)%Z then inl ValueError_range_step_zero else inr [].
Proof.
  unfold chunk_code_with.
  destruct (overlap =? size)%Z eqn:E.
  - assert (size - overlap = 0)%Z as -> by lia. reflexivity.
  - rewrite range_down; [done| apply len_nonneg | lia].
Qed.

Lemma chunk_code_degenerate_witness :
  (10 <= 25)%Z ∧ chunk_code_with 10 25 "import os" = inr [].
Proof.
  split; [lia|]. exact (chunk_code_degenerate 10 25 "import os" ltac:(lia)).
Defined.

(** C8 as stated fails for [overlap > window]: nothing is raised. *)
Lemma chunk_code_degenerate_counterexample :
  ¬ (∀ (size overlap : Z) (text : string),
       (size <= overlap)%Z →
       ∃ e, chunk_code_with size overlap text = inl e).
Proof.
  intros H. destruct (H 10%Z 25%Z "import os"%string ltac:(lia)) as [e He].
  vm_compute in He. discriminate He.
Qed.

End ChunkingClaims.

Section HundredLines.
Import Py Chunking.

Lemma append_assoc (a b c : string) : (a +:+ b) +:+ c = a +:+ (b +:+ c).
Proof.
  induction a as [|x a IH]; [done|].
  change (String x ((a +:+ b) +:+ c) = String x (a +:+ (b +:+ c))).
  by rewrite IH.
Qed.

Lemma join_app sep (a b : list string) :
  a ≠ [] → b ≠ [] →
  join sep (a ++ b) = join sep a +:+ String sep (join sep b).
Proof.
  induction a as [|w a IH]; [done|]. intros _ Hb.
  destruct a as [|w' a].
  - destruct b as [|v b]; [done|]. reflexivity.
  - transitivity (w +:+ String sep (join sep ((w' :: a) ++ b)));
      [reflexivity|].
    rewrite IH by done.
    rewrite (join_cons2 sep w w' a), append_assoc. reflexivity.
Qed.

Lemma blank_cons c r :
  blank (String c r)
  = if space1 c then blank r
    else match r with
         | String d r1 =>
             if space2 c d then blank r1
             else match r1 with
                  | String e r2 => space3 c d e && blank r2
                  | EmptyString => false
                  end
         | EmptyString => false
         end.
Proof. reflexivity. Qed.

Lemma space1_LF : space1 LF = true.
Proof. reflexivity. Qed.

Lemma space2_LF c : space2 c LF = false.
Proof.
  unfold space2. change (N_of_ascii LF) with 10%N.
  destruct (N_of_ascii c =? 194)%N; reflexivity.
Qed.

Lemma space3_LF_mid c e : space3 c LF e = false.
Proof.
  unfold space3. change (N_of_ascii LF) with 10%N.
  destruct (N_of_ascii c =? 225)%N, (N_of_ascii c =? 226)%N,
    (N_of_ascii c =? 227)%N; reflexivity.
Qed.

Lemma space3_LF_end c d : space3 c d LF = false.
Proof.
  unfold space3. change (N_of_ascii LF) with 10%N.
  destruct (N_of_ascii c =? 225)%N, (N_of_ascii c =? 226)%N,
    (N_of_ascii c =? 227)%N, (N_of_ascii d =? 154)%N,
    (N_of_ascii d =? 128)%N, (N_of_ascii d =? 129)%N; reflexivity.
Qed.

Lemma append_nil_l (s : string) : EmptyString +:+ s = s.
Proof. reflexivity. Qed.

Lemma append_cons (c : ascii) (x s : string) :
  String c x +:+ s = String c (x +:+ s).
Proof. reflexivity. Qed.

(** No whitespace character reaches across a line feed: what follows a
    line feed in a blank text is blank. *)
Lemma blank_after_LF (y : string) :
  ∀ (n : nat) (x : string),
    (String.length x <= n)%nat →
    blank (x +:+ String LF y) = true → blank y = true.
Proof.
  induction n as [|n IH]; intros x Hn H.
  - destruct x; [|simpl in Hn; lia].
    by rewrite append_nil_l, blank_cons, space1_LF in H.
  - destruct x as [|c x].
    { by rewrite append_nil_l, blank_cons, space1_LF in H. }
    simpl in Hn. rewrite append_cons, blank_cons in H.
    destruct (space1 c).
    { apply (IH x); [lia|done]. }
    destruct x as [|d x]; simpl in Hn.
    { rewrite append_nil_l, space2_LF in H. destruct y; [done|].
      by rewrite space3_LF_mid in H. }
    rewrite append_cons in H.
    destruct (space2 c d).
    { apply (IH x); [lia|done]. }
    destruct x as [|e x]; simpl in Hn.
    { by rewrite append_nil_l, space3_LF_end in H. }
    rewrite append_cons in H.
    apply andb_true_iff in H as [_ H]. apply (IH x); [lia|done].
Qed.

Lemma blank_join_tail (a b : list string) :
  a ≠ [] → b ≠ [] →
  blank (join LF (a ++ b)) = true → blank (join LF b) = true.
Proof.
  intros Ha Hb H. rewrite join_app in H by done.
  by apply (blank_after_LF _ _ (join LF a) (le_n _)).
Qed.

Lemma lines_of_join (ws : list string) :
  ws ≠ [] → Forall (fun w => has LF w = false) ws →
  lines_of (join LF ws) = ws.
Proof. apply split_join. Qed.

End HundredLines.

Section SteppingClaim.
Import Py Chunking.

Lemma length_pos_nonnil {A} (l : list A) : (0 < length l)%nat → l ≠ [].
Proof. destruct l; simpl; [lia|done]. Qed.

Lemma windows_100 (lines : list string) :
  length lines = 100%nat →
  window 40 lines 0 = join LF (take 40 lines)
  ∧ window 40 lines 30 = join LF (take 40 (drop 30 lines))
  ∧ window 40 lines 60 = join LF (drop 60 lines)
  ∧ window 40 lines 90 = join LF (drop 90 lines).
Proof.
  intros Hlen. unfold window.
  assert (len lines = 100%Z) as Hl by (unfold len; lia).
  repeat split.
  - unfold slice. rewrite Hl. reflexivity.
  - unfold slice. rewrite Hl. reflexivity.
  - by rewrite slice_tail by lia.
  - by rewrite slice_tail by lia.
Qed.

Lemma overlaps_100 {A} (l : list A) :
  length l = 100%nat →
  drop 30 (take 40 l) = take 10 (take 40 (drop 30 l))
  ∧ drop 30 (take 40 (drop 30 l)) = take 10 (drop 60 l)
  ∧ drop 30 (drop 60 l) = take 10 (drop 90 l).
Proof.
  intros Hlen. repeat split.
  - rewrite take_take. change (10 `min` 40)%nat with 10%nat.
    by rewrite (take_drop_commute l 10 30).
  - replace (drop 60 l) with (drop 30 (drop 30 l)) by (by rewrite drop_drop).
    by rewrite (take_drop_commute (drop 30 l) 10 30).
  - rewrite drop_drop. symmetry. apply take_ge.
    rewrite length_drop. lia.
Qed.

Lemma ordinals_contiguous (cid : Z) (n : nat) :
  (fun i => Store.default_metadata cid i !! "chunk_id") <$> seq 0 n
  = (fun i => Some (Chroma.MInt (Z.of_nat i))) <$> seq 0 n.
Proof.
  apply list_fmap_ext. intros _ i _. unfold Store.default_metadata.
  rewrite lookup_insert_ne by done. by rewrite lookup_singleton_eq.
Qed.

(** C7, as the code has it.  With [overlap < window] the code is the
    stepping loop of the specification, blank windows dropped.  On a
    100-line text with the constants 40 and 10 the windows start at lines 0,
    30, 60 and 90; the chunks are the windows that are not blank, each of at
    most 40 lines, stored under the ordinals 0, 1, ... in order; and when
    the window of lines 30 to 69 is not blank, the last 10 lines of each
    chunk are the first 10 lines of the next. *)
Theorem chunk_code_stepping (size overlap : Z) (text : string) (cid : Z)
    (Hcfg : (overlap < size)%Z)
    (H100 : len (split LF text) = 100%Z)
    (Hmid : strip_truthy (window 40 (split LF text) 30) = true) :
  (∀ t : string,
     chunk_code_with size overlap t = inr (split_stepping size overlap t))
  ∧ ∃ chunks : list string,
      chunk_code text = inr chunks
      ∧ chunks = flat_map (fun i => keep (window 40 (split LF text) i))
                          [0; 30; 60; 90]%Z
      ∧ Forall (fun c => (length (lines_of c) <= 40)%nat) chunks
      ∧ chained false 10 chunks
      ∧ (fun i => Store.default_metadata cid i !! "chunk_id")
          <$> seq 0 (length chunks)
        = (fun i => Some (Chroma.MInt (Z.of_nat i)))
          <$> seq 0 (length chunks).
Proof.
  split; [intros t; by apply chunk_code_with_stepping|].
  eexists. split; [|split; [reflexivity|]].
  { unfold chunk_code, chunk_code_with, Config.CHUNK_SIZE,
      Config.CHUNK_OVERLAP. rewrite H100. reflexivity. }
  split; [|split; [|apply ordinals_contiguous]].
  all: set (lines := split LF text) in *.
  all: assert (length lines = 100%nat) as Hlen by (unfold len in H100; lia).
  all: assert (Forall (fun w => has LF w = false) lines) as Hfree
         by apply split_has.
  all: destruct (windows_100 lines Hlen) as (E0 & E1 & E2 & E3).
  all: destruct (overlaps_100 lines Hlen) as (O01 & O12 & O23).
  all: assert (lines_of (join LF (take 40 lines)) = take 40 lines) as L0
         by (apply lines_of_join;
             [apply length_pos_nonnil; rewrite length_take; lia
             | by apply Forall_take]).
  all: assert (lines_of (join LF (take 40 (drop 30 lines)))
               = take 40 (drop 30 lines)) as L1
         by (apply lines_of_join;
             [apply length_pos_nonnil; rewrite length_take, length_drop; lia
             | by apply Forall_take, Forall_drop]).
  all: assert (lines_of (join LF (drop 60 lines)) = drop 60 lines) as L2
         by (apply lines_of_join;
             [apply length_pos_nonnil; rewrite length_drop; lia
             | by apply Forall_drop]).
  all: assert (lines_of (join LF (drop 90 lines)) = drop 90 lines) as L3
         by (apply lines_of_join;
             [apply length_pos_nonnil; rewrite length_drop; lia
             | by apply Forall_drop]).
  all: assert (strip_truthy (window 40 lines 60) = false →
               strip_truthy (window 40 lines 90) = false) as Hlast.
  1, 3: rewrite E2, E3; unfold strip_truthy; intros Hb;
        apply negb_false_iff in Hb; apply negb_false_iff;
        rewrite <- (take_drop 30 (drop 60 lines)) in Hb;
        rewrite drop_drop in Hb;
        apply blank_join_tail in Hb; [exact Hb| |];
        apply length_pos_nonnil;
        rewrite ?length_take, ?length_drop; lia.
  all: simpl; unfold keep; rewrite Hmid.
  all: destruct (strip_truthy (window 40 lines 0)) eqn:K0;
       destruct (strip_truthy (window 40 lines 60)) eqn:K2;
       [ destruct (strip_truthy (window 40 lines 90)) eqn:K3
       | rewrite (Hlast eq_refl)
       | destruct (strip_truthy (window 40 lines 90)) eqn:K3
       | rewrite (Hlast eq_refl) ].
  all: rewrite ?E0, ?E1, ?E2, ?E3; simpl.
  1-6: repeat first [apply Forall_nil_2 | apply Forall_cons_2];
       rewrite ?L0, ?L1, ?L2, ?L3, ?length_take, ?length_drop; lia.
  all: unfold overlap_by; rewrite ?L0, ?L1, ?L2, ?L3;
       rewrite ?length_take, ?length_drop, ?Hlen; simpl;
       repeat split; done.
Qed.

End SteppingClaim.

Section SteppingExamples.
Import Py Chunking.

Lemma chunk_code_stepping_witness :
  (10 < 40)%Z
  ∧ len (split LF hundred_lines) = 100%Z
  ∧ strip_truthy (window 40 (split LF hundred_lines) 30) = true
  ∧ ∃ chunks : list string,
      chunk_code hundred_lines = inr chunks
      ∧ length chunks = 4%nat
      ∧ chained false 10 chunks.
Proof.
  split; [lia|]. split; [reflexivity|]. split; [reflexivity|].
  destruct (chunk_code_stepping 40 10 hundred_lines 1 ltac:(lia)
              eq_refl eq_refl)
    as (_ & chunks & Hc & Hw & _ & Hch & _).
  exists chunks. split; [exact Hc|]. split; [|exact Hch].
  rewrite Hw. reflexivity.
Defined.

(** C7 as stated fails when a window in the middle is blank: it is
    dropped, and the chunks before and after it, which is not the last,
    share no line. *)
Lemma chunk_code_stepping_counterexample :
  ¬ (∀ text : string,
       len (split LF text) = 100%Z →
       ∀ chunks : list string,
         chunk_code text = inr chunks → chained true 10 chunks).
Proof.
  intros H. specialize (H hundred_lines_gap eq_refl _ eq_refl).
  vm_compute in H. destruct H as [H _]. discriminate H.
Qed.

End SteppingExamples.

(** ** The fallback vectorizer *)

Section EmbeddingFacts.
Import Py PyStr Embedding.

Lemma bytes_checked :
  forallb (fun k => in_unit (normalize (Z.of_nat k))
                    && bool_decide (int16 (Md5.hex2 (Z.of_nat k))
                                    = Some (Z.of_nat k)))
          (seq 0 256) = true.
Proof. vm_compute. reflexivity. Qed.

Lemma byte_checked (b : Z) :
  byte b → in_unit (normalize b) = true ∧ int16 (Md5.hex2 b) = Some b.
Proof.
  intros Hb. pose proof bytes_checked as H.
  rewrite forallb_forall in H. specialize (H (Z.to_nat b)).
  rewrite Z2Nat.id in H by (unfold byte in Hb; lia).
  assert (In (Z.to_nat b) (seq 0 256)) as Hin
    by (apply in_seq; unfold byte in Hb; lia).
  apply H, andb_true_iff in Hin as [H1 H2].
  split; [done|]. by apply bool_decide_eq_true in H2.
Qed.

Lemma le_bytes_byte (n : nat) (x : Z) : Forall byte (Md5.le_bytes n x).
Proof.
  unfold Md5.le_bytes. apply List.Forall_forall. intros b Hb.
  apply in_map_iff in Hb as (k & <- & _). unfold byte.
  apply Z.mod_pos_bound. lia.
Qed.

Lemma digest_bytes (msg : list Z) :
  Forall byte (Md5.digest msg) ∧ length (Md5.digest msg) = 16%nat.
Proof.
  unfold Md5.digest.
  destruct (fold_left Md5.compress _ Md5.init) as [[[a b] c] d].
  split.
  - repeat apply Forall_app_2; apply le_bytes_byte.
  - reflexivity.
Qed.

Lemma slen_hexstr (bs : list Z) : slen (hexstr bs) = (2 * len bs)%Z.
Proof.
  unfold slen, len. induction bs as [|b bs IH]; [done|].
  change (hexstr (b :: bs)) with (Md5.hex2 b +:+ hexstr bs).
  unfold Md5.hex2. rewrite !append_cons, append_nil_l. simpl String.length.
  simpl length. lia.
Qed.

Lemma substr_head (a b : ascii) (s : string) :
  substr (String a (String b s)) 0 (0 + 2)
  = String a (String b EmptyString).
Proof.
  unfold substr, slice, clamp, len. simpl list_ascii_of_string.
  simpl length. simpl (0 + 2)%Z. simpl (_ <? _)%Z.
  rewrite Z.min_l, Z.min_l by lia. reflexivity.
Qed.

Lemma substr_shift (a b : ascii) (s : string) (i : Z) :
  (0 <= i)%Z →
  substr (String a (String b s)) (i + 2) (i + 2 + 2) = substr s i (i + 2).
Proof.
  intros Hi. unfold substr, slice, clamp, len.
  simpl list_ascii_of_string. simpl length.
  destruct (i + 2 <? 0)%Z eqn:E1; [lia|].
  destruct (i + 2 + 2 <? 0)%Z eqn:E2; [lia|].
  destruct (i <? 0)%Z eqn:E3; [lia|].
  set (n := length (list_ascii_of_string s)).
  replace (Z.to_nat (Z.min (i + 2) (Z.of_nat (S (S n)))))
    with (S (S (Z.to_nat (Z.min i (Z.of_nat n))))) by lia.
  replace (Z.to_nat (Z.min (i + 2 + 2) (Z.of_nat (S (S n)))
                     - Z.min (i + 2) (Z.of_nat (S (S n)))))
    with (Z.to_nat (Z.min (i + 2) (Z.of_nat n) - Z.min i (Z.of_nat n)))
    by lia.
  reflexivity.
Qed.

Lemma pairs_shift (a b : ascii) (s : string) (ks : list nat) :
  mapM (pair_value (String a (String b s)))
       (map (fun k => 0 + Z.of_nat (S k) * 2)%Z ks)
  = mapM (pair_value s) (map (fun k => 0 + Z.of_nat k * 2)%Z ks).
Proof.
  induction ks as [|k ks IH]; [done|].
  simpl map. simpl mapM. rewrite IH. f_equal.
  unfold pair_value.
  replace (0 + Z.of_nat (S k) * 2)%Z with (0 + Z.of_nat k * 2 + 2)%Z by lia.
  by rewrite substr_shift by lia.
Qed.

Lemma pairs_hexstr (bs : list Z) :
  Forall byte bs →
  mapM (pair_value (hexstr bs))
       (map (fun k => 0 + Z.of_nat k * 2)%Z (seq 0 (length bs)))
  = Some (normalize <$> bs).
Proof.
  induction 1 as [|b bs Hb Hbs IH]; [done|].
  change (hexstr (b :: bs)) with (Md5.hex2 b +:+ hexstr bs).
  unfold Md5.hex2 at 1. rewrite !append_cons, append_nil_l.
  simpl length. rewrite <- cons_seq, <- fmap_S_seq.
  simpl map. simpl mapM.
  change (map (fun k => 0 + Z.of_nat k * 2)%Z (S <$> seq 0 (length bs)))
    with (map (fun k => 0 + Z.of_nat k * 2)%Z (map S (seq 0 (length bs)))).
  rewrite map_map, pairs_shift, IH.
  unfold pair_value at 1. simpl (0 + Z.of_nat 0 * 2)%Z. rewrite substr_head.
  destruct (byte_checked b Hb) as [_ Hv]. unfold Md5.hex2 in Hv.
  rewrite Hv. reflexivity.
Qed.

Lemma pairs_to_floats_hexstr (bs : list Z) :
  Forall byte bs → pairs_to_floats (hexstr bs) = Some (normalize <$> bs).
Proof.
  intros Hbs. unfold pairs_to_floats.
  rewrite slen_hexstr, range_up by lia.
  assert (Z.to_nat ((2 * len bs - 0 + 2 - 1) / 2) = length bs) as ->.
  { assert ((2 * len bs - 0 + 2 - 1) / 2 = len bs)%Z as ->.
    { symmetry. apply Z.div_unique with (r := 1%Z); lia. }
    unfold len. lia. }
  simpl. by apply pairs_hexstr.
Qed.

Lemma fit_shape (e : list float) :
  fit e = take 16 (e ++ replicate (16 - length e) 0%float).
Proof.
  unfold fit, target_size.
  destruct (len e <? 16)%Z eqn:E; unfold len in E |- *.
  - replace (Z.to_nat (16 - Z.of_nat (length e))) with (16 - length e)%nat
      by lia.
    symmetry. apply take_ge. rewrite length_app, length_replicate. lia.
  - rewrite slice_take_drop by lia. unfold len.
    replace (16 - length e)%nat with 0%nat by lia.
    rewrite Z.min_l, Z.min_l by lia. simpl. by rewrite app_nil_r.
Qed.

Lemma fit_digest (text : string) :
  fit (normalize <$> Md5.digest (encode text))
  = normalize <$> Md5.digest (encode text).
Proof.
  destruct (digest_bytes (encode text)) as [_ Hl].
  rewrite fit_shape, length_fmap, Hl. simpl replicate.
  rewrite app_nil_r. apply take_ge. rewrite length_fmap. lia.
Qed.

Lemma get_embedding_value (text : string) :
  get_embedding text = Some (normalize <$> Md5.digest (encode text))
  ∧ get_embedding_single text
    = Some (normalize <$> Md5.digest (encode text)).
Proof.
  destruct (digest_bytes (encode text)) as [Hb _].
  assert (pairs_to_floats (Md5.hexdigest (encode text))
          = Some (normalize <$> Md5.digest (encode text))) as Hp
    by (by apply pairs_to_floats_hexstr).
  split.
  - unfold get_embedding. rewrite Hp. simpl. by rewrite fit_digest.
  - unfold get_embedding_single. rewrite Hp. simpl. f_equal.
    apply fit_digest.
Qed.


End EmbeddingFacts.

(** ** The reclaimer *)

Section ReclaimFacts.
Import Py World Store.

Lemma length_append (a b : string) :
  String.length (a +:+ b) = (String.length a + String.length b)%nat.
Proof.
  induction a as [|c a IH]; [done|].
  rewrite append_cons. simpl. by rewrite IH.
Qed.

Lemma backup_differs (w : env) (path : string) : backup_of w path ≠ path.
Proof.
  unfold backup_of. intros E. apply (f_equal String.length) in E.
  rewrite length_append in E. rewrite append_cons in E. simpl in E. lia.
Qed.

Lemma rmtree_results_emit (e : event) (st : state) :
  rmtree_results (trace (emit e st))
  = rmtree_results (trace st) ++ rmtree_results [e].
Proof. unfold rmtree_results. simpl. by rewrite omap_app. Qed.

Lemma renames_emit (e : event) (st : state) :
  renames (trace (emit e st)) = renames (trace st) ++ renames [e].
Proof. unfold renames. simpl. by rewrite omap_app. Qed.

Lemma rmtree_removed (path : string) (d : Os.fs) files db :
  d !! path = Some (Os.Dir files db) →
  Os.rmtree Os.Removed path d = (delete path d, true).
Proof. intros H. unfold Os.rmtree. by rewrite H. Qed.

Lemma rmtree_blocked (path : string) (d : Os.fs) files db survive :
  d !! path = Some (Os.Dir files db) →
  Os.rmtree (Os.Blocked survive) path d
  = (<[path := Os.Dir (filter (fun f => survive f = true) files) db]> d,
     false).
Proof. intros H. unfold Os.rmtree. by rewrite H. Qed.

Lemma rmtree_onerror_dir o (path : string) (d : Os.fs) files db :
  d !! path = Some (Os.Dir files db) →
  Os.rmtree_onerror o path d = Os.rmtree o path d.
Proof. intros H. unfold Os.rmtree_onerror. by rewrite H. Qed.

Lemma stretch_trans path backup st1 st2 st3 c1 c2 m1 m2 t1 t2 :
  stretch path backup st1 st2 c1 m1 t1 →
  stretch path backup st2 st3 c2 m2 t2 →
  stretch path backup st1 st3 (c1 ++ c2) (m1 ++ m2) (t1 ++ t2).
Proof.
  intros (A1 & A2 & A0 & A3 & A4 & A5 & A6) (B1 & B2 & B0 & B3 & B4 & B5 & B6).
  repeat split; try congruence.
  - by rewrite B1, A1, app_assoc.
  - by rewrite B2, A2, app_assoc.
  - by rewrite B0, A0, app_assoc.
  - intros p H1 H2. by rewrite B3, A3.
Qed.

Ltac stretch_tac :=
  unfold stretch, rmtree_results, renames, rounds; simpl;
  rewrite ?omap_app; simpl;
  rewrite <- ?app_assoc; simpl; rewrite ?app_nil_r;
  split_and!; try done;
  intros ? ? ?;
  repeat first [ rewrite lookup_delete_ne by congruence
               | rewrite lookup_insert_ne by congruence ];
  reflexivity.

Section Loop.
Context (w : env) (path : string) (db : gmap string Chroma.collection).

Let backup := backup_of w path.

(** An attempt before the last one: a plain [rmtree], then one with the
    handler; both blocked, the loop goes on. *)
Lemma attempt_retry (attempt : Z) (rest : list Z) (k : nat) (st : state)
    files :
  (attempt < 2)%Z →
  disk st !! path = Some (Os.Dir files db) →
  (blocked w k = false
   ∧ ∃ st', force_remove_loop w path (attempt :: rest) k st
            = (st', Returned ())
       ∧ disk st' !! path = None
       ∧ stretch path backup st st' [true] [] [])
  ∨ (blocked w k = true ∧ blocked w (S k) = false
     ∧ ∃ st', force_remove_loop w path (attempt :: rest) k st
              = (st', Returned ())
         ∧ disk st' !! path = None
         ∧ stretch path backup st st' [false; true] [] [(attempt + 1)%Z])
  ∨ (blocked w k = true ∧ blocked w (S k) = true
     ∧ ∃ st' files',
         force_remove_loop w path (attempt :: rest) k st
         = force_remove_loop w path rest (S (S k)) st'
         ∧ disk st' !! path = Some (Os.Dir files' db)
         ∧ stretch path backup st st' [false; false] [] [(attempt + 1)%Z]).
Proof.
  intros Ha Hdir. cbn [force_remove_loop]. unfold blocked.
  assert ((attempt <? max_retries - 1)%Z = true) as Hlt
    by (unfold max_retries; lia).
  destruct (rmtree_meets w k) as [|s1].
  { left. split; [done|]. rewrite (rmtree_removed _ _ _ _ Hdir).
    eexists. split; [reflexivity|]. split; [apply lookup_delete_eq|].
    stretch_tac. }
  right. rewrite (rmtree_blocked _ _ _ _ _ Hdir). rewrite Hlt.
  cbn [disk emit with_disk].
  erewrite rmtree_onerror_dir by apply lookup_insert_eq.
  destruct (rmtree_meets w (S k)) as [|s2].
  { left. split; [done|]. split; [done|].
    erewrite rmtree_removed by apply lookup_insert_eq.
    eexists. split; [reflexivity|]. split; [apply lookup_delete_eq|].
    stretch_tac. }
  right. split; [done|]. split; [done|].
  erewrite rmtree_blocked by apply lookup_insert_eq.
  eexists. eexists. split; [reflexivity|].
  split; [apply lookup_insert_eq|].
  stretch_tac.
Qed.

(** The last attempt: a plain [rmtree], then the rename. *)
Lemma attempt_last (rest : list Z) (k : nat) (st : state) files :
  disk st !! path = Some (Os.Dir files db) →
  (blocked w k = false
   ∧ ∃ st', force_remove_loop w path (2%Z :: rest) k st
            = (st', Returned ())
       ∧ disk st' !! path = None
       ∧ stretch path backup st st' [true] [] [])
  ∨ (blocked w k = true
     ∧ ∃ st' files',
         force_remove_loop w path (2%Z :: rest) k st
         = force_remove_loop w path rest (S k) st'
         ∧ disk st' !! path = None
         ∧ disk st' !! backup = Some (Os.Dir files' db)
         ∧ Warning_renamed path backup ∈ trace st'
         ∧ stretch path backup st st' [false] [(path, backup, true)] [3%Z])
  ∨ (blocked w k = true
     ∧ ∃ st' files',
         force_remove_loop w path (2%Z :: rest) k st
         = (st', Raised (OSError path backup))
         ∧ disk st' !! path = Some (Os.Dir files' db)
         ∧ Error_cannot_remove_or_rename path ∈ trace st'
         ∧ stretch path backup st st' [false] [(path, backup, false)]
                   [3%Z]).
Proof.
  intros Hdir. cbn [force_remove_loop]. unfold blocked.
  pose proof (backup_differs w path) as Hne. fold backup in Hne.
  destruct (rmtree_meets w k) as [|s1].
  { left. split; [done|]. rewrite (rmtree_removed _ _ _ _ Hdir).
    eexists. split; [reflexivity|]. split; [apply lookup_delete_eq|].
    stretch_tac. }
  right. rewrite (rmtree_blocked _ _ _ _ _ Hdir).
  change (2 <? max_retries - 1)%Z with false.
  cbn [disk emit with_disk]. fold (backup_of w path). fold backup.
  unfold Os.rename.
  destruct (rename_raises w).
  { right. split; [done|]. eexists. eexists. split; [reflexivity|].
    split; [apply lookup_insert_eq|].
    split; [set_solver|]. stretch_tac. }
  rewrite lookup_insert_eq, lookup_insert_ne by done.
  destruct (disk st !! backup) as [n|] eqn:Hb.
  { right. split; [done|]. eexists. eexists. split; [reflexivity|].
    split; [apply lookup_insert_eq|].
    split; [set_solver|]. stretch_tac. }
  left. split; [done|]. eexists. eexists. split; [reflexivity|].
  split.
  { simpl. rewrite lookup_insert_ne by done. apply lookup_delete_eq. }
  split; [apply lookup_insert_eq|].
  split; [set_solver|]. stretch_tac.
Qed.

End Loop.

(** C5, as the code has it.  The retry ceiling of [_force_remove_directory]
    is three attempts, not five: on a directory it ends after at most five
    calls of [shutil.rmtree], made in at most three rounds of its loop (two
    calls in each of the first two rounds, one in the third).  Either one of
    the calls removes the tree, and the function returns without having
    renamed anything; or all five are blocked, and then it renames the
    directory to [path_backup_<time>]: if that works it prints a warning and
    returns, the directory no longer at its path but kept under the backup
    name; if the rename raises too, that exception, which names the path,
    reaches the caller.  Nothing else raises. *)
Theorem force_remove_bounded (w : env) (path : string) (st : state)
    (files : list string) (db : gmap string Chroma.collection)
    (Hdir : disk st !! path = Some (Os.Dir files db)) :
  ∃ (st' : state) (r : outcome unit) (calls : list bool)
    (moves : list (string * string * bool)) (tries : list Z),
    _force_remove_directory w path st = (st', r)
    ∧ stretch path (backup_of w path) st st' calls moves tries
    ∧ (length calls <= 5)%nat
    ∧ (length tries <= 3)%nat
    ∧ ((∃ k : nat,
          (k < 5)%nat ∧ blocked w k = false
          ∧ calls = replicate k false ++ [true]
          ∧ tries = take ((k + 1) / 2) [1; 2; 3]%Z
          ∧ moves = [] ∧ r = Returned () ∧ disk st' !! path = None)
       ∨ ((∀ k : nat, (k < 5)%nat → blocked w k = true)
          ∧ calls = replicate 5 false
          ∧ tries = [1; 2; 3]%Z
          ∧ ((moves = [(path, backup_of w path, true)]
              ∧ r = Returned ()
              ∧ disk st' !! path = None
              ∧ (∃ files', disk st' !! backup_of w path
                           = Some (Os.Dir files' db))
              ∧ Warning_renamed path (backup_of w path) ∈ trace st')
             ∨ (moves = [(path, backup_of w path, false)]
                ∧ r = Raised (OSError path (backup_of w path))
                ∧ is_Some (disk st' !! path)
                ∧ Error_cannot_remove_or_rename path ∈ trace st')))).
Proof.
  unfold _force_remove_directory.
  change (range 0 max_retries 1) with (Some [0; 1; 2]%Z).
  destruct (attempt_retry w path db 0 [1; 2]%Z 0 st files ltac:(lia) Hdir)
    as [(B0 & st1 & E1 & D1 & S1)
       |[(B0 & B1 & st1 & E1 & D1 & S1)
        |(B0 & B1 & st1 & f1 & E1 & D1 & S1)]].
  { exists st1, (Returned ()), [true], [], [].
    split_and!; [done|done|simpl; lia|simpl; lia|].
    left. exists 0%nat. split_and!; try done; lia. }
  { exists st1, (Returned ()), [false; true], [], [1%Z].
    split_and!; [done|done|simpl; lia|simpl; lia|].
    left. exists 1%nat. split_and!; try done; lia. }
  rewrite E1.
  destruct (attempt_retry w path db 1 [2]%Z 2 st1 f1 ltac:(lia) D1)
    as [(B2 & st2 & E2 & D2 & S2)
       |[(B2 & B3 & st2 & E2 & D2 & S2)
        |(B2 & B3 & st2 & f2 & E2 & D2 & S2)]].
  { exists st2, (Returned ()), ([false; false] ++ [true]), ([] ++ []),
      ([1%Z] ++ []).
    split_and!; [done|by eapply stretch_trans|simpl; lia|simpl; lia|].
    left. exists 2%nat. split_and!; try done; lia. }
  { exists st2, (Returned ()), ([false; false] ++ [false; true]), ([] ++ []),
      ([1%Z] ++ [2%Z]).
    split_and!; [done|by eapply stretch_trans|simpl; lia|simpl; lia|].
    left. exists 3%nat. split_and!; try done; lia. }
  rewrite E2.
  pose proof (stretch_trans _ _ _ _ _ _ _ _ _ _ _ S1 S2) as S12.
  assert (∀ k : nat, blocked w 4 = true → (k < 5)%nat → blocked w k = true)
    as Hall.
  { intros k B4 Hk. destruct k as [|[|[|[|[|k]]]]]; try done. lia. }
  destruct (attempt_last w path db [] 4 st2 f2 D2)
    as [(B4 & st3 & E3 & D3 & S3)
       |[(B4 & st3 & f3 & E3 & D3 & Dk & W3 & S3)
        |(B4 & st3 & f3 & E3 & D3 & W3 & S3)]].
  { exists st3, (Returned ()), (([false; false] ++ [false; false]) ++ [true]),
      (([] ++ []) ++ []), (([1%Z] ++ [2%Z]) ++ []).
    split_and!; [done|by eapply stretch_trans|simpl; lia|simpl; lia|].
    left. exists 4%nat. split_and!; try done; lia. }
  { rewrite E3. cbn [force_remove_loop].
    exists st3, (Returned ()),
      (([false; false] ++ [false; false]) ++ [false]),
      (([] ++ []) ++ [(path, backup_of w path, true)]),
      (([1%Z] ++ [2%Z]) ++ [3%Z]).
    split_and!; [done|by eapply stretch_trans|simpl; lia|simpl; lia|].
    right. split_and!; [intros k; by apply Hall|done|done|].
    left. split_and!; try done. by exists f3. }
  { exists st3, (Raised (OSError path (backup_of w path))),
      (([false; false] ++ [false; false]) ++ [false]),
      (([] ++ []) ++ [(path, backup_of w path, false)]),
      (([1%Z] ++ [2%Z]) ++ [3%Z]).
    split_and!; [done|by eapply stretch_trans|simpl; lia|simpl; lia|].
    right. split_and!; [intros k; by apply Hall|done|done|].
    right. split_and!; try done. }
Qed.

End ReclaimFacts.

(** ** Scenarios *)

Section Scenarios.
Import Py World Store.

Lemma force_remove_bounded_witness :
  disk locked_store !! "/db/codebase_5" = Some (Os.Dir ["chroma.sqlite3"] ∅)
  ∧ ∃ (st' : state) (r : outcome unit) (calls : list bool)
      (moves : list (string * string * bool)) (tries : list Z),
      _force_remove_directory locked "/db/codebase_5" locked_store = (st', r)
      ∧ stretch "/db/codebase_5" (backup_of locked "/db/codebase_5")
                locked_store st' calls moves tries
      ∧ (length calls <= 5)%nat
      ∧ (length tries <= 3)%nat.
Proof.
  split; [reflexivity|].
  destruct (force_remove_bounded locked "/db/codebase_5" locked_store
              ["chroma.sqlite3"] ∅ eq_refl)
    as (st' & r & calls & moves & tries & H1 & H2 & H3 & H4 & _).
  by exists st', r, calls, moves, tries.
Defined.

(** C5 as stated, with a ceiling of five attempts, fails: a directory that
    stays locked is given up after the third attempt. *)
Lemma force_remove_bounded_counterexample :
  ¬ (∀ (w : env) (path : string) (st : state) (files : list string)
       (db : gmap string Chroma.collection),
       disk st !! path = Some (Os.Dir files db) →
       trace st = [] →
       (∀ k : nat, blocked w k = true) →
       rounds (trace (fst (_force_remove_directory w path st)))
       = [1; 2; 3; 4; 5]%Z).
Proof.
  intros H.
  specialize (H locked "/db/codebase_5" locked_store ["chroma.sqlite3"] ∅
                eq_refl eq_refl (fun _ => eq_refl)).
  vm_compute in H. discriminate H.
Qed.

(** C6 at the failing input: the directory of tenant 5 stays locked through
    all five delete attempts and is renamed.  [delete_codebase] returns,
    the directory is no longer at its path, and [list_codebases] still
    lists 5, read off the name of the backup directory. *)
Theorem delete_codebase_backup_still_listed :
  list_codebases populated = [5%Z]
  ∧ snd (delete_codebase locked populated 5) = Returned ()
  ∧ disk (fst (delete_codebase locked populated 5)) !! "/db/codebase_5" = None
  ∧ Os.listdir (disk (fst (delete_codebase locked populated 5))) "/db"
    = ["codebase_5_backup_1700000000"]
  ∧ list_codebases (fst (delete_codebase locked populated 5)) = [5%Z].
Proof. vm_compute. repeat split; reflexivity. Qed.

(** When the first delete attempt works the tenant leaves the listing. *)
Lemma delete_codebase_unlisted :
  snd (delete_codebase calm populated 5) = Returned ()
  ∧ list_codebases (fst (delete_codebase calm populated 5)) = [].
Proof. vm_compute. repeat split; reflexivity. Qed.

End Scenarios.

(** ** Ingest of a repository without source files *)

Section EmptyRepository.
Import Py World Store RepoLoader.

Lemma process_codebase_no_files (w : env) (st : state) (codebase_id : Z)
    (local_path : string) (t : tree) :
  get_source_files t = [] →
  Manager._process_codebase w st codebase_id local_path t
  = (emit Warning_no_source_files st, Returned ()).
Proof. intros H. unfold Manager._process_codebase. by rewrite H. Qed.

(** The temporary mode never hands over an empty chunk list. *)
Lemma process_repository_nonempty (cloned : option (tree * string))
    (name : string) chunks metadata commit :
  TempProcessor.process_repository cloned name
  = Returned (chunks, metadata, commit) →
  chunks ≠ [].
Proof.
  unfold TempProcessor.process_repository.
  destruct cloned as [[t c]|]; [|done].
  destruct (fold_left _ _ _) as [cs n]. destruct cs; intros [= <- _ _]; done.
Qed.

(** C10 at the failing input: local-mode ingest of a repository in which
    [get_source_files] finds nothing.  [_process_codebase] prints a warning
    and returns before it has stored anything: the store is as it was, no
    collection is open for the tenant, and a later count finds zero
    documents.  The temporary mode and [_safe_process_codebase] store one
    placeholder chunk for the same tree. *)
Theorem process_codebase_skips_placeholder :
  get_source_files picture_only = []
  ∧ Manager._process_codebase calm (init "/db" ∅) 7 "/repos/logo"
                              picture_only
    = (emit Warning_no_source_files (init "/db" ∅), Returned ())
  ∧ snd (get_codebase_stats
           (fst (Manager._process_codebase calm (init "/db" ∅) 7
                   "/repos/logo" picture_only)) 7)
    = (0%Z, true)
  ∧ snd (get_codebase_stats
           (fst (Manager._add_codebase_temp calm (init "/db" ∅) 7
                   (Some (picture_only, "c0ffee"%string)) "logo")) 7)
    = (1%Z, true)
  ∧ snd (get_codebase_stats
           (fst (Manager._safe_process_codebase calm (init "/db" ∅) 7
                   picture_only)) 7)
    = (1%Z, true).
Proof. vm_compute. repeat split; reflexivity. Qed.

End EmptyRepository.

(** ** The tenant store *)

Section PathFacts.
Import Py World Store.

Lemma to_int_nonnil (n : Z) :
  Z.to_int n ≠ Decimal.Pos Decimal.Nil ∧ Z.to_int n ≠ Decimal.Neg Decimal.Nil.
Proof.
  destruct n as [|p|p]; simpl; split; try discriminate;
    intros [= H]; by apply (Unsigned.to_uint_nonnil p).
Qed.

Lemma str_inj (a b : Z) : str a = str b → a = b.
Proof.
  unfold str. intros H. apply DecimalZ.to_int_inj.
  destruct (to_int_nonnil a) as [A1 A2]. destruct (to_int_nonnil b) as [B1 B2].
  apply (f_equal NilZero.int_of_string) in H.
  rewrite !NilZero.isi in H by done. by injection H.
Qed.

Lemma append_inj_l (a b c : string) : a +:+ b = a +:+ c → b = c.
Proof.
  induction a as [|x a IH]; [done|].
  rewrite !append_cons. intros [= H]. by apply IH.
Qed.

(** The directory of a tenant is the base directory, a separator if the
    base needs one, and [codebase_<id>]. *)
Lemma get_db_path_shape (st : state) :
  ∃ pre : string,
    (String.length (base_db_dir st) <= String.length pre)%nat
    ∧ ∀ c : Z, get_db_path st c = pre +:+ ("codebase_" +:+ str c).
Proof.
  unfold get_db_path, Os.path_join.
  destruct (String.eqb (base_db_dir st) EmptyString
            || endswith (String Os.sep EmptyString) (base_db_dir st)).
  - exists (base_db_dir st). split; [done|]. intros c. reflexivity.
  - exists (base_db_dir st +:+ "/"). split.
    + rewrite length_append. lia.
    + intros c. rewrite append_assoc. reflexivity.
Qed.

(** No two tenants resolve to the same directory. *)
Lemma get_db_path_inj (st : state) (a b : Z) :
  get_db_path st a = get_db_path st b → a = b.
Proof.
  destruct (get_db_path_shape st) as (pre & _ & H). rewrite !H.
  intros E. apply append_inj_l, append_inj_l in E. by apply str_inj.
Qed.

Lemma get_db_path_not_base (st : state) (c : Z) :
  get_db_path st c ≠ base_db_dir st.
Proof.
  destruct (get_db_path_shape st) as (pre & Hlen & H). rewrite H.
  intros E. apply (f_equal String.length) in E.
  rewrite !length_append in E. simpl in E. lia.
Qed.

Lemma get_db_path_base (st st' : state) (c : Z) :
  base_db_dir st' = base_db_dir st → get_db_path st' c = get_db_path st c.
Proof. unfold get_db_path. by intros ->. Qed.

End PathFacts.

Section StoreFacts.
Import Py World Store.

Lemma ok_init (base : string) : ok (init base ∅).
Proof.
  split; simpl.
  - intros cid h H. by rewrite lookup_empty in H.
  - intros cid h H. by rewrite lookup_empty in H.
  - intros cid c H. unfold read in H. simpl in H.
    by rewrite lookup_empty in H.
Qed.

Lemma read_write (d : gmap string Os.node) (h : handle)
    (c c0 : list Chroma.entry) :
  read d h = Some c0 → read (write h c d) h = Some c.
Proof.
  unfold read, write. destruct (d !! h_path h) as [[|files db]|] eqn:E;
    try done.
  intros _. rewrite lookup_insert_eq. apply lookup_insert_eq.
Qed.

Lemma write_frame (d : gmap string Os.node) (h : handle)
    (c : list Chroma.entry) (p : string) :
  p ≠ h_path h → write h c d !! p = d !! p.
Proof.
  intros Hp. unfold write. destruct (d !! h_path h) as [[|files db]|];
    try done.
  by rewrite lookup_insert_ne.
Qed.

Lemma read_frame (d d' : gmap string Os.node) (h : handle) :
  d' !! h_path h = d !! h_path h → read d' h = read d h.
Proof. unfold read. by intros ->. Qed.

Lemma mkdir_spec (path : string) (d d' : gmap string Os.node) :
  Os.mkdir path d = Some d' →
  (∀ p, p ≠ path → d' !! p = d !! p)
  ∧ ∃ files db,
      d' !! path = Some (Os.Dir files db)
      ∧ (d !! path = Some (Os.Dir files db) ∨ (d !! path = None ∧ db = ∅)).
Proof.
  unfold Os.mkdir. destruct (d !! path) as [[|files db]|] eqn:E; [done| |].
  - intros [= <-]. split; [done|]. exists files, db. auto.
  - intros [= <-]. split.
    + intros p Hp. by rewrite lookup_insert_ne.
    + exists [], ∅. rewrite lookup_insert_eq. auto.
Qed.

Lemma get_where_tagged (cid : Z) (c : list Chroma.entry) :
  tagged cid c →
  Chroma.get_where "codebase_id" (Chroma.MInt cid) c = Chroma.e_id <$> c.
Proof.
  unfold Chroma.get_where. induction 1 as [|e c He Hc IH]; [done|].
  rewrite filter_cons_True by done. rewrite !fmap_cons. by rewrite IH.
Qed.

Lemma delete_all (c : list Chroma.entry) :
  Chroma.delete (Chroma.e_id <$> c) c = [].
Proof.
  unfold Chroma.delete.
  assert (∀ (ids : list string) (l : list Chroma.entry),
            (∀ e, e ∈ l → Chroma.e_id e ∈ ids) →
                   filter (fun e => Chroma.e_id e ∉ ids) l = []) as H.
  { intros ids l. induction l as [|e l IH]; [done|]. intros Hl.
    rewrite filter_cons_False.
    - apply IH. intros e' He'. apply Hl. by right.
    - intros Hn. apply Hn, Hl. by left. }
  apply H. intros e He. by apply list_elem_of_fmap_2.
Qed.

Lemma insert_new_fresh (batch c : list Chroma.entry) :
  NoDup (Chroma.e_id <$> (c ++ batch)) →
  Chroma.insert_new batch c = c ++ batch.
Proof.
  revert c. induction batch as [|e batch IH]; intros c Hnd.
  - by rewrite app_nil_r.
  - simpl. rewrite fmap_app, fmap_cons in Hnd.
    destruct (decide (Chroma.e_id e ∈ Chroma.e_id <$> c)) as [Hin|Hout].
    + apply NoDup_app in Hnd as (_ & Hd & _).
      exfalso. eapply Hd; [exact Hin|]. by left.
    + rewrite IH.
      * by rewrite <- app_assoc.
      * rewrite <- app_assoc. simpl. by rewrite fmap_app, fmap_cons.
Qed.

Lemma zip4_fields (ids docs : list string) (embs : list (list float))
    (metas : list (gmap string Chroma.mval)) :
  length docs = length ids → length embs = length ids →
  length metas = length ids →
  Chroma.e_id <$> Chroma.zip4 ids docs embs metas = ids
  ∧ Chroma.e_document <$> Chroma.zip4 ids docs embs metas = docs
  ∧ Chroma.e_metadata <$> Chroma.zip4 ids docs embs metas = metas.
Proof.
  revert docs embs metas.
  induction ids as [|i ids IH]; intros [|d docs] [|v embs] [|m metas];
    try done.
  intros [= H1] [= H2] [= H3]. destruct (IH _ _ _ H1 H2 H3) as (E1 & E2 & E3).
  cbn [Chroma.zip4]. rewrite !fmap_cons, E1, E2, E3. done.
Qed.

End StoreFacts.

Section StoreSteps.
Import Py World Store.

Lemma gcc_cached (st : state) (cid : Z) (h : handle) :
  cid ∈ dom (clients st) → collections st !! cid = Some h →
  get_client_and_collection st cid = Returned (st, h).
Proof.
  intros Hc Hh. unfold get_client_and_collection.
  rewrite decide_True by done. by rewrite Hh.
Qed.

(** Opening a tenant either raises and leaves everything as it was, or
    yields the canonical handle, touching nothing but the base directory
    and the tenant's own. *)
Lemma gcc_spec (st : state) (cid : Z) :
  ok st →
  (∃ e, get_client_and_collection st cid = Raised e)
  ∨ ∃ st0 c0,
      get_client_and_collection st cid = Returned (st0, canonical st cid)
      ∧ base_db_dir st0 = base_db_dir st
      ∧ trace st0 = trace st
      ∧ collections st0 !! cid = Some (canonical st cid)
      ∧ cid ∈ dom (clients st0)
      ∧ (∀ c', c' ≠ cid → collections st0 !! c' = collections st !! c')
      ∧ (∀ p, p ≠ base_db_dir st → p ≠ get_db_path st cid →
              disk st0 !! p = disk st !! p)
      ∧ read (disk st0) (canonical st cid) = Some c0
      ∧ tagged cid c0.
Proof.
  intros [Hh Hr Ht]. unfold get_client_and_collection.
  destruct (decide (cid ∈ dom (clients st))) as [Hin|Hout].
  - destruct (collections st !! cid) as [h|] eqn:E; [|left; eauto].
    right. pose proof (Hh _ _ E) as ->.
    destruct (Hr _ _ E) as [c0 Hc0].
    exists st, c0. split_and!; try done. by apply Ht.
  - destruct (Os.mkdir (base_db_dir st) (disk st)) as [d1|] eqn:E1;
      [|left; eauto].
    simpl. destruct (Os.mkdir (get_db_path st cid) d1) as [d2|] eqn:E2;
      [|left; eauto].
    right.
    destruct (mkdir_spec _ _ _ E1) as [F1 _].
    destruct (mkdir_spec _ _ _ E2) as [F2 (files & db & D2 & Hwas)].
    pose proof (get_db_path_not_base st cid) as Hnb.
    cbn [collections with_collections with_clients with_disk].
    rewrite lookup_insert_eq.
    unfold open_collection. rewrite D2.
    eexists _, (default [] (db !! get_collection_name cid)).
    split_and!; try done.
    + simpl. apply lookup_insert_eq.
    + simpl. apply elem_of_dom. rewrite lookup_insert_eq. eauto.
    + intros c' Hc'. simpl. by rewrite lookup_insert_ne.
    + intros p Hp1 Hp2. simpl. rewrite lookup_insert_ne by done.
      by rewrite F2, F1.
    + unfold read, canonical. simpl. rewrite lookup_insert_eq.
      destruct (db !! get_collection_name cid) eqn:Edb; [done|].
      simpl. apply lookup_insert_eq.
    + destruct (db !! get_collection_name cid) as [c|] eqn:Edb;
        [|by constructor].
      simpl. destruct Hwas as [Hwas|[_ ->]];
        [|by rewrite lookup_empty in Edb].
      apply Ht. unfold read, canonical. simpl.
      rewrite <- F1, Hwas by done. done.
Qed.

(** The clearing step touches the tenant's collection only, and empties
    it unless the database raised. *)
Lemma clear_spec (w : env) (st0 : state) (h : handle) (cid : Z)
    (c0 : list Chroma.entry) :
  read (disk st0) h = Some c0 → tagged cid c0 →
  ∃ c1,
    read (disk (clear_existing w st0 h cid)) h = Some c1
    ∧ (c1 = c0 ∨ c1 = [])
    ∧ (get_raises w = false → delete_raises w = false → c1 = [])
    ∧ base_db_dir (clear_existing w st0 h cid) = base_db_dir st0
    ∧ collections (clear_existing w st0 h cid) = collections st0
    ∧ clients (clear_existing w st0 h cid) = clients st0
    ∧ (∀ p, p ≠ h_path h →
            disk (clear_existing w st0 h cid) !! p = disk st0 !! p).
Proof.
  intros Hread Htag. unfold clear_existing.
  destruct (get_raises w).
  { exists c0. split_and!; auto; done. }
  rewrite Hread, (get_where_tagged _ _ Htag).
  destruct c0 as [|e c0].
  { exists []. split_and!; auto. }
  rewrite fmap_cons.
  destruct (delete_raises w).
  { exists (e :: c0). split_and!; auto; done. }
  exists []. cbn [disk emit with_disk base_db_dir collections clients].
  rewrite <- fmap_cons, delete_all.
  split_and!; auto.
  - by apply (read_write _ _ _ (e :: c0)).
  - intros p Hp. by apply write_frame.
Qed.

End StoreSteps.

Section AddDocuments.
Import Py World Store.

Lemma embeddings_exist (docs : list string) :
  is_Some (mapM Embedding.get_embedding docs).
Proof.
  apply mapM_is_Some_2, Forall_forall. intros d _.
  destruct (get_embedding_value d) as [Hv _]. simpl. eauto.
Qed.

Lemma tagged_sub (cid : Z) (c0 c1 : list Chroma.entry) :
  tagged cid c0 → c1 = c0 ∨ c1 = [] → tagged cid c1.
Proof. intros H [->| ->]; [done|constructor]. Qed.

(** What [add_documents] does to an [ok] store, case by case. *)
Lemma add_documents_spec (w : env) (st : state) (cid : Z)
    (docs : list string) (meta : option (list (gmap string Chroma.mval)))
    (repl : bool) :
  ok st → docs ≠ [] →
  (∃ e, get_client_and_collection st cid = Raised e
        ∧ add_documents w st cid docs meta repl = (st, Raised e))
  ∨ ∃ st' r st0 c0 c1 embs,
      add_documents w st cid docs meta repl = (st', r)
      ∧ get_client_and_collection st cid = Returned (st0, canonical st cid)
      ∧ read (disk st0) (canonical st cid) = Some c0
      ∧ mapM Embedding.get_embedding docs = Some embs
      ∧ base_db_dir st' = base_db_dir st
      ∧ collections st' !! cid = Some (canonical st cid)
      ∧ cid ∈ dom (clients st')
      ∧ (∀ c', c' ≠ cid → collections st' !! c' = collections st !! c')
      ∧ (∀ p, p ≠ base_db_dir st → p ≠ get_db_path st cid →
              disk st' !! p = disk st !! p)
      ∧ tagged cid c0
      ∧ (c1 = c0 ∨ c1 = [])
      ∧ (repl = false → c1 = c0)
      ∧ (repl = true → get_raises w = false → delete_raises w = false →
         c1 = [])
      ∧ ((r = Returned () ∧ add_raises w = false
          ∧ ∃ c, Chroma.add (batch_ids cid docs) docs embs
                            (batch_metas cid docs meta) c1 = Some c
                 ∧ read (disk st') (canonical st cid) = Some c)
         ∨ (r = Raised StoreError
            ∧ (add_raises w = true
               ∨ Chroma.add (batch_ids cid docs) docs embs
                            (batch_metas cid docs meta) c1 = None)
            ∧ read (disk st') (canonical st cid) = Some c1
            ∧ Error_failed_to_add ∈ trace st')).
Proof.
  intros Hok Hdocs. destruct docs as [|d docs']; [done|].
  set (docs := d :: docs') in *.
  destruct (gcc_spec st cid Hok)
    as [[e He]|(st0 & c0 & Hg & Hb & Htr & Hc & Hcl & Hco & Hfr & Hrd & Htg)].
  { left. exists e. split; [done|]. unfold add_documents, docs.
    by rewrite He. }
  right. destruct (embeddings_exist docs) as [embs Hembs].
  set (h := canonical st cid) in *.
  set (st1 := if repl then clear_existing w st0 h cid else st0).
  assert (∃ c1, read (disk st1) h = Some c1
                ∧ (c1 = c0 ∨ c1 = [])
                ∧ (repl = false → c1 = c0)
                ∧ (repl = true → get_raises w = false →
                   delete_raises w = false → c1 = [])
                ∧ base_db_dir st1 = base_db_dir st0
                ∧ collections st1 = collections st0
                ∧ clients st1 = clients st0
                ∧ (∀ p, p ≠ h_path h → disk st1 !! p = disk st0 !! p))
    as (c1 & R1 & Hsub & Hkeep & Hemp & B1 & C1 & K1 & F1).
  { unfold st1. destruct repl.
    - destruct (clear_spec w st0 h cid c0 Hrd Htg)
        as (c1 & ? & ? & ? & ? & ? & ? & ?).
      exists c1. split_and!; auto; done.
    - exists c0. split_and!; auto; done. }
  assert (add_documents w st cid docs meta repl
          = match (if add_raises w then None
                   else read (disk st1) h
                          ≫= Chroma.add (batch_ids cid docs) docs embs
                                         (batch_metas cid docs meta))
            with
            | Some c =>
                (emit (Info_added (len docs) cid)
                   (with_disk (write h c (disk st1)) st1), Returned ())
            | None => (emit Error_failed_to_add st1, Raised StoreError)
            end) as Hadd.
  { unfold add_documents, docs. fold docs. rewrite Hg, Hembs.
    unfold st1. destruct meta; reflexivity. }
  rewrite R1 in Hadd. cbn [mbind option_bind] in Hadd.
  assert (∀ p, p ≠ base_db_dir st → p ≠ get_db_path st cid →
               disk st1 !! p = disk st !! p) as Fr1.
  { intros p H1 H2. rewrite F1 by done. by apply Hfr. }
  destruct (add_raises w) eqn:Ew.
  { eexists _, _, st0, c0, c1, embs. split; [exact Hadd|].
    split_and!; try assumption.
    - cbn [base_db_dir emit]. congruence.
    - cbn [collections emit]. by rewrite C1.
    - cbn [clients emit]. by rewrite K1.
    - intros c' Hc'. cbn [collections emit]. rewrite C1. by apply Hco.
    - right. split_and!; auto. cbn [trace emit]. apply elem_of_app. right.
      by left. }
  destruct (Chroma.add (batch_ids cid docs) docs embs
              (batch_metas cid docs meta) c1) as [c|] eqn:Ea.
  { eexists _, _, st0, c0, c1, embs. split; [exact Hadd|].
    split_and!; try assumption.
    - cbn [base_db_dir emit with_disk]. congruence.
    - cbn [collections emit with_disk]. by rewrite C1.
    - cbn [clients emit with_disk]. by rewrite K1.
    - intros c' Hc'. cbn [collections emit with_disk]. rewrite C1.
      by apply Hco.
    - intros p H1 H2. cbn [disk emit with_disk].
      rewrite write_frame by exact H2. by apply Fr1.
    - left. split_and!; auto. exists c. split; [exact Ea|].
      cbn [disk emit with_disk]. by apply (read_write _ _ _ c1). }
  { eexists _, _, st0, c0, c1, embs. split; [exact Hadd|].
    split_and!; try assumption.
    - cbn [base_db_dir emit]. congruence.
    - cbn [collections emit]. by rewrite C1.
    - cbn [clients emit]. by rewrite K1.
    - intros c' Hc'. cbn [collections emit]. rewrite C1. by apply Hco.
    - right. split_and!; auto. cbn [trace emit]. apply elem_of_app. right.
      by left. }
Qed.

End AddDocuments.

Section StoreInvariant.
Import Py World Store.

Lemma place_perm (q : list float) (e : Chroma.entry)
    (sorted : list Chroma.entry) :
  Chroma.place q e sorted ≡ₚ e :: sorted.
Proof.
  induction sorted as [|x rest IH]; simpl; [done|].
  destruct (PrimFloat.leb _ _); [done|].
  rewrite IH. apply Permutation_swap.
Qed.

Lemma ranked_perm (q : list float) (c : list Chroma.entry) :
  Chroma.ranked q c ≡ₚ c.
Proof.
  unfold Chroma.ranked. induction c as [|e c IH]; simpl; [done|].
  by rewrite place_perm, IH.
Qed.

(** A query answers with entries of the collection it is asked about. *)
Lemma query_sub (q : list float) (n : Z) (c results : list Chroma.entry) :
  Chroma.query q n c = Some results → ∀ e, e ∈ results → e ∈ c.
Proof.
  unfold Chroma.query. destruct (0 <? n)%Z; [|done].
  intros [= <-] e He. apply subseteq_take in He.
  by rewrite ranked_perm in He.
Qed.

Lemma insert_new_sub (batch c : list Chroma.entry) (e : Chroma.entry) :
  e ∈ Chroma.insert_new batch c → e ∈ c ∨ e ∈ batch.
Proof.
  revert c. induction batch as [|b batch IH]; intros c; simpl; [auto|].
  destruct (decide _).
  - intros H. destruct (IH _ H); [by left|]. right. by right.
  - intros H. destruct (IH _ H) as [H'|H'].
    + apply elem_of_app in H' as [H'|H']; [by left|].
      apply list_elem_of_singleton in H' as ->. right. by left.
    + right. by right.
Qed.

Lemma batch_metas_tagged (cid : Z) (docs : list string)
    (meta : option (list (gmap string Chroma.mval))) :
  Forall (fun m => m !! "codebase_id" = Some (Chroma.MInt cid))
         (batch_metas cid docs meta).
Proof.
  unfold batch_metas. destruct meta as [m|]; apply Forall_fmap, Forall_forall;
    intros x _; simpl; unfold default_metadata; apply lookup_insert_eq.
Qed.

Lemma add_tagged (cid : Z) (docs : list string) (embs : list (list float))
    (meta : option (list (gmap string Chroma.mval)))
    (c1 c : list Chroma.entry) :
  tagged cid c1 →
  Chroma.add (batch_ids cid docs) docs embs (batch_metas cid docs meta) c1
  = Some c →
  tagged cid c.
Proof.
  intros Ht. unfold Chroma.add. destruct (decide _) as [(L1 & L2 & L3)|];
    [|done].
  intros [= <-]. apply Forall_forall. intros e He.
  apply insert_new_sub in He as [He|He].
  - unfold tagged in Ht. rewrite Forall_forall in Ht. by apply Ht.
  - destruct (zip4_fields _ _ _ _ L1 L2 L3) as (_ & _ & Hm).
    pose proof (batch_metas_tagged cid docs meta) as Hall.
    rewrite <- Hm in Hall. rewrite Forall_fmap, Forall_forall in Hall.
    by apply Hall.
Qed.

#[local] Instance doc_id_inj (cid : Z) : Inj (=) (=) (doc_id cid).
Proof.
  intros i j H. unfold doc_id in H.
  apply append_inj_l, append_inj_l, append_inj_l, str_inj in H. lia.
Qed.

Lemma batch_ids_nodup (cid : Z) (docs : list string) :
  NoDup (batch_ids cid docs).
Proof. unfold batch_ids. apply NoDup_fmap_2; [apply _|apply NoDup_seq]. Qed.

(** On an empty collection a valid batch is stored as it is. *)
Lemma add_to_empty (cid : Z) (docs : list string) (embs : list (list float))
    (metas : list (gmap string Chroma.mval)) (c1 c : list Chroma.entry) :
  Chroma.add (batch_ids cid docs) docs embs metas c1 = Some c →
  ∃ c', Chroma.add (batch_ids cid docs) docs embs metas [] = Some c'
        ∧ Chroma.e_id <$> c' = batch_ids cid docs
        ∧ Chroma.e_document <$> c' = docs
        ∧ length c' = length docs.
Proof.
  unfold Chroma.add. destruct (decide _) as [(L1 & L2 & L3)|]; [|done].
  intros _. destruct (zip4_fields _ _ _ _ L1 L2 L3) as (E1 & E2 & _).
  eexists. split; [reflexivity|].
  rewrite insert_new_fresh.
  - simpl. split_and!; [done|done|].
    pose proof (f_equal length E2) as E3. by rewrite length_fmap in E3.
  - simpl. rewrite E1. apply batch_ids_nodup.
Qed.

(** A change confined to one tenant, which leaves that tenant with its
    canonical handle on a tagged collection, keeps a store [ok]. *)
Lemma ok_after (st st' : state) (cid : Z) (cf : list Chroma.entry) :
  ok st →
  base_db_dir st' = base_db_dir st →
  collections st' !! cid = Some (canonical st cid) →
  (∀ c', c' ≠ cid → collections st' !! c' = collections st !! c') →
  (∀ p, p ≠ base_db_dir st → p ≠ get_db_path st cid →
        disk st' !! p = disk st !! p) →
  read (disk st') (canonical st cid) = Some cf → tagged cid cf →
  ok st'.
Proof.
  intros [Hh Hr Ht] Hb Hc Hco Hfr Hcf Htf.
  assert (∀ c, canonical st' c = canonical st c) as Hcan.
  { intros c. unfold canonical. by rewrite (get_db_path_base st st'). }
  assert (∀ c, c ≠ cid →
               read (disk st') (canonical st c) = read (disk st) (canonical st c))
    as Hother.
  { intros c Hne. apply read_frame. simpl. apply Hfr.
    - apply get_db_path_not_base.
    - intros E. by apply get_db_path_inj in E. }
  split.
  - intros c h H. rewrite Hcan. destruct (decide (c = cid)) as [->|Hne].
    + congruence.
    + rewrite Hco in H by done. by apply Hh.
  - intros c h H. destruct (decide (c = cid)) as [->|Hne].
    + rewrite Hc in H. injection H as <-. eauto.
    + rewrite Hco in H by done. pose proof (Hh _ _ H) as ->.
      rewrite Hother by done. by eapply Hr.
  - intros c col H. rewrite Hcan in H.
    destruct (decide (c = cid)) as [->|Hne].
    + congruence.
    + rewrite Hother in H by done. by apply Ht.
Qed.

(** Opening a tenant keeps a store [ok]. *)
Lemma get_client_and_collection_ok (st st0 : state) (cid : Z) (h : handle) :
  ok st → get_client_and_collection st cid = Returned (st0, h) → ok st0.
Proof.
  intros Hok H.
  destruct (gcc_spec st cid Hok)
    as [[e He]|(st0' & c0 & Hg & Hb & _ & Hc & _ & Hco & Hfr & Hrd & Htg)];
    rewrite H in *; [done|].
  injection Hg as <- _. by eapply ok_after.
Qed.

(** [add_documents] keeps a store [ok]. *)
Lemma add_documents_ok (w : env) (st : state) (cid : Z) (docs : list string)
    (meta : option (list (gmap string Chroma.mval))) (repl : bool) :
  ok st → ok (fst (add_documents w st cid docs meta repl)).
Proof.
  intros Hok. destruct docs as [|d docs']; [done|].
  destruct (add_documents_spec w st cid (d :: docs') meta repl Hok
              ltac:(done))
    as [(e & _ & ->)
       |(st' & r & st0 & c0 & c1 & embs & -> & _ & _ & _ & Hb & Hc & _ & Hco
         & Hfr & Htg & Hsub & _ & _ & Hend)]; [done|].
  cbn [fst].
  destruct Hend as [(_ & _ & c & Ha & Hrd)|(_ & _ & Hrd & _)].
  - eapply ok_after; try eassumption.
    eapply add_tagged; [|exact Ha]. by eapply tagged_sub.
  - eapply ok_after; try eassumption. by eapply tagged_sub.
Qed.

(** [get_codebase_stats] keeps a store [ok]. *)
Lemma get_codebase_stats_ok (st : state) (cid : Z) :
  ok st → ok (fst (get_codebase_stats st cid)).
Proof.
  intros Hok. unfold get_codebase_stats.
  destruct (decide (cid ∈ dom (collections st))).
  - by destruct (collections st !! cid ≫= read (disk st)).
  - destruct (get_client_and_collection st cid) as [[st0 h]|e] eqn:E;
      [|done].
    pose proof (get_client_and_collection_ok _ _ _ _ Hok E).
    by destruct (collections st0 !! cid ≫= read (disk st0)).
Qed.

End StoreInvariant.

Section StoreClaims.
Import Py World Store.

(** An ingest for tenant [A] leaves the handle and the directory of any
    other tenant as they were. *)
Lemma add_documents_frame (w : env) (st : state) (A B : Z)
    (docs : list string) (meta : option (list (gmap string Chroma.mval)))
    (repl : bool) :
  ok st → A ≠ B →
  base_db_dir (fst (add_documents w st A docs meta repl)) = base_db_dir st
  ∧ collections (fst (add_documents w st A docs meta repl)) !! B
    = collections st !! B
  ∧ disk (fst (add_documents w st A docs meta repl)) !! get_db_path st B
    = disk st !! get_db_path st B.
Proof.
  intros Hok HAB. destruct docs as [|d docs']; [done|].
  destruct (add_documents_spec w st A (d :: docs') meta repl Hok
              ltac:(done))
    as [(e & _ & ->)
       |(st' & r & st0 & c0 & c1 & embs & -> & _ & _ & _ & Hb & _ & _ & Hco
         & Hfr & _)]; [done|].
  cbn [fst]. split_and!; [done|by apply Hco|].
  apply Hfr.
  - apply get_db_path_not_base.
  - intros E. by apply get_db_path_inj in E.
Qed.

(** C1.  For two distinct tenants [A] and [B], whatever [add_documents]
    does for [A], under whatever the database does, a query against [B]
    answers as it did before: [B]'s handle and [B]'s directory are
    untouched, the two directories differ, and the answers to the query
    are entries of [B]'s own collection. *)
Theorem tenant_isolation (w : env) (st : state) (A B : Z)
    (docs : list string) (meta : option (list (gmap string Chroma.mval)))
    (repl : bool) (query : string) (n : Z)
    (Hok : ok st) (HAB : A ≠ B) :
  let st' := fst (add_documents w st A docs meta repl) in
  query_codebase st' B query n = query_codebase st B query n
  ∧ collections st' !! B = collections st !! B
  ∧ disk st' !! get_db_path st' B = disk st !! get_db_path st B
  ∧ get_db_path st' A ≠ get_db_path st' B
  ∧ ∀ results : list Chroma.entry,
      query_codebase st' B query n = Returned results →
      ∃ c : list Chroma.entry,
        read (disk st') (canonical st' B) = Some c
        ∧ ∀ e, e ∈ results → e ∈ c.
Proof.
  intros st'.
  destruct (add_documents_frame w st A B docs meta repl Hok HAB)
    as (Hb & Hc & Hd). fold st' in Hb, Hc, Hd.
  pose proof (add_documents_ok w st A docs meta repl Hok) as Hok'.
  fold st' in Hok'.
  assert (query_codebase st' B query n = query_codebase st B query n) as Hq.
  { unfold query_codebase. rewrite Hc.
    destruct (collections st !! B) as [h|] eqn:E; [|done].
    destruct (Embedding.get_embedding query); [|done].
    pose proof (ok_handles st Hok _ _ E) as ->.
    by rewrite (read_frame (disk st') (disk st)). }
  split_and!; try done.
  - by rewrite (get_db_path_base st st').
  - intros E. by apply get_db_path_inj in E.
  - intros results Hres. unfold query_codebase in Hres.
    destruct (collections st' !! B) as [h|] eqn:E; [|done].
    destruct (Embedding.get_embedding query) as [q|]; [|done].
    pose proof (ok_handles st' Hok' _ _ E) as ->.
    destruct (read (disk st') (canonical st' B)) as [c|]; [|done].
    simpl in Hres. exists c. split; [done|].
    destruct (Chroma.query q n c) as [res|] eqn:Eq; [|done].
    injection Hres as <-. by eapply query_sub.
Qed.

(** C2.  When [add_documents(X, replace_existing=True)] has returned for a
    tenant, a second such call during which the database raises nothing
    returns too and leaves the tenant's collection with exactly the
    documents of [X], [len(X)] of them. *)
Theorem replace_twice (w1 w2 : env) (st st1 : state) (cid : Z)
    (X : list string) (meta : option (list (gmap string Chroma.mval)))
    (Hok : ok st) (HX : X ≠ [])
    (Hget : get_raises w2 = false) (Hdel : delete_raises w2 = false)
    (Hadd : add_raises w2 = false)
    (Hfirst : add_documents w1 st cid X meta true = (st1, Returned ())) :
  ∃ (st2 : state) (c : list Chroma.entry),
    add_documents w2 st1 cid X meta true = (st2, Returned ())
    ∧ read (disk st2) (canonical st2 cid) = Some c
    ∧ length c = length X
    ∧ Chroma.e_document <$> c = X
    ∧ snd (get_codebase_stats st2 cid) = (len X, true).
Proof.
  pose proof (add_documents_ok w1 st cid X meta true Hok) as Hok1.
  rewrite Hfirst in Hok1. cbn [fst] in Hok1.
  destruct (add_documents_spec w1 st cid X meta true Hok HX)
    as [(e & _ & H)
       |(st' & r & st0 & c0 & c1 & embs & H & _ & _ & Hembs & Hb & Hc & Hcl
         & _ & _ & _ & _ & _ & _ & Hend)];
    rewrite Hfirst in H; [done|]. injection H as <- <-.
  destruct Hend as [(_ & _ & c & Ha & Hrd)|(? & _)]; [|done].
  destruct (add_to_empty _ _ _ _ _ _ Ha) as (c' & Ha' & _ & Hdocs & Hlen).
  assert (canonical st1 cid = canonical st cid) as Hcan.
  { unfold canonical. by rewrite (get_db_path_base st st1). }
  rewrite <- Hcan in Hc.
  destruct (add_documents_spec w2 st1 cid X meta true Hok1 HX)
    as [(e & He & _)
       |(st2 & r & st0' & c0' & c1' & embs' & H2 & _ & _ & Hembs' & Hb2 & Hc2
         & _ & _ & _ & _ & _ & _ & Hemp & Hend2)].
  { by rewrite (gcc_cached st1 cid _ Hcl Hc) in He. }
  rewrite Hembs in Hembs'. injection Hembs' as <-.
  rewrite (Hemp eq_refl Hget Hdel) in Hend2.
  destruct Hend2 as [(-> & _ & c2 & Ha2 & Hrd2)|(_ & [Hw|Hn] & _)];
    [|congruence|congruence].
  rewrite Ha' in Ha2. injection Ha2 as <-.
  assert (canonical st2 cid = canonical st1 cid) as Hcan2.
  { unfold canonical. by rewrite (get_db_path_base st1 st2). }
  exists st2, c'. split_and!; try done.
  - by rewrite Hcan2.
  - unfold get_codebase_stats.
    rewrite decide_True by (apply elem_of_dom; eauto).
    rewrite Hc2. cbn [mbind option_bind]. rewrite Hrd2.
    unfold Chroma.count, len. by rewrite Hlen.
Qed.

(** When the database raises in the clearing step, the step changes
    nothing on disk. *)
Lemma clear_existing_raised (w : env) (st0 : state) (h : handle) (cid : Z) :
  get_raises w = true ∨ delete_raises w = true →
  disk (clear_existing w st0 h cid) = disk st0.
Proof.
  intros Hw. unfold clear_existing.
  destruct (get_raises w); [done|]. destruct Hw as [Hw|Hw]; [done|].
  rewrite Hw. destruct (read (disk st0) h) as [c|]; [|done].
  by destruct (Chroma.get_where _ _ c).
Qed.

(** C3, as the code has it.  Take [add_documents] with [replace_existing]
    on a non-empty batch.  If the database does not raise in the clearing
    step, the call ends in one of three ways: it raises while opening the
    tenant and nothing has changed; or it returns and the collection holds
    exactly the new batch, none of what was stored before; or the insert
    raises, the collection is left empty and the exception reaches the
    caller.  If the database does raise in the clearing step, the exception
    is caught and the call ends, and leaves the disk, as the same call
    without [replace_existing] does: the batch is inserted on top of what
    was stored. *)
Theorem replace_two_phase (w : env) (st : state) (cid : Z)
    (docs : list string) (meta : option (list (gmap string Chroma.mval)))
    (Hok : ok st) (Hdocs : docs ≠ []) :
  (get_raises w = false → delete_raises w = false →
   (∃ e, get_client_and_collection st cid = Raised e
         ∧ add_documents w st cid docs meta true = (st, Raised e))
   ∨ (∃ (st' : state) (c : list Chroma.entry),
        add_documents w st cid docs meta true = (st', Returned ())
        ∧ read (disk st') (canonical st cid) = Some c
        ∧ Chroma.e_id <$> c = batch_ids cid docs
        ∧ Chroma.e_document <$> c = docs)
   ∨ (∃ st' : state,
        add_documents w st cid docs meta true = (st', Raised StoreError)
        ∧ read (disk st') (canonical st cid) = Some []
        ∧ Error_failed_to_add ∈ trace st'))
  ∧ (get_raises w = true ∨ delete_raises w = true →
     snd (add_documents w st cid docs meta true)
     = snd (add_documents w st cid docs meta false)
     ∧ disk (fst (add_documents w st cid docs meta true))
       = disk (fst (add_documents w st cid docs meta false))).
Proof.
  split.
  - intros Hget Hdel.
    destruct (add_documents_spec w st cid docs meta true Hok Hdocs)
      as [(e & He & H)
         |(st' & r & st0 & c0 & c1 & embs & H & _ & _ & _ & _ & _ & _ & _ & _
           & _ & _ & _ & Hemp & Hend)].
    { left. eauto. }
    right. rewrite (Hemp eq_refl Hget Hdel) in Hend.
    destruct Hend as [(-> & _ & c & Ha & Hrd)|(-> & _ & Hrd & Htr)].
    + left.
      destruct (add_to_empty _ _ _ _ _ _ Ha) as (c' & Ha' & Hids & Hd & _).
      rewrite Ha in Ha'. injection Ha' as <-.
      exists st', c. done.
    + right. exists st'. done.
  - intros Hw. destruct docs as [|d docs']; [done|].
    unfold add_documents.
    destruct (get_client_and_collection st cid) as [[st0 h]|e]; [|done].
    destruct (mapM Embedding.get_embedding (d :: docs')); [|done].
    pose proof (clear_existing_raised w st0 h cid Hw) as Hd.
    cbv beta iota zeta. rewrite Hd.
    by destruct (if add_raises w then None
                 else read (disk st0) h ≫= _) as [c|].
Qed.

End StoreClaims.

Section StoreScenarios.
Import Py World Store.

Lemma ok_populated : ok populated.
Proof. apply add_documents_ok, ok_init. Qed.

Lemma ok_two_tenants : ok two_tenants.
Proof. apply add_documents_ok, ok_populated. Qed.

Lemma tenant_isolation_witness :
  ok two_tenants ∧ (5 ≠ 6)%Z
  ∧ query_codebase
      (fst (add_documents calm two_tenants 5 ["import os"; "y = 3"] None
              false))
      6 "where is x" 3
    = query_codebase two_tenants 6 "where is x" 3.
Proof.
  split; [apply ok_two_tenants|]. split; [lia|].
  exact (proj1 (tenant_isolation calm two_tenants 5 6 ["import os"; "y = 3"]
                  None false "where is x" 3 ok_two_tenants ltac:(lia))).
Defined.

Lemma replace_twice_witness :
  ok (init "/db" ∅) ∧ ["print(1)"%string] ≠ []
  ∧ add_documents calm (init "/db" ∅) 5 ["print(1)"] None true
    = (populated, Returned ())
  ∧ ∃ (st2 : state) (c : list Chroma.entry),
      add_documents calm populated 5 ["print(1)"] None true
      = (st2, Returned ())
      ∧ read (disk st2) (canonical st2 5) = Some c
      ∧ length c = 1%nat.
Proof.
  split; [apply ok_init|]. split; [done|].
  assert (add_documents calm (init "/db" ∅) 5 ["print(1)"] None true
          = (populated, Returned ())) as Hfirst
    by (vm_compute; reflexivity).
  split; [exact Hfirst|].
  destruct (replace_twice calm calm (init "/db" ∅) populated 5 ["print(1)"]
              None (ok_init "/db") ltac:(done) eq_refl eq_refl eq_refl Hfirst)
    as (st2 & c & H1 & H2 & H3 & _).
  exists st2, c. split; [exact H1|]. split; [exact H2|exact H3].
Defined.

Lemma replace_two_phase_witness :
  ok populated ∧ ["print(2)"%string] ≠ []
  ∧ ((∃ e, get_client_and_collection populated 5 = Raised e
           ∧ add_documents add_fails populated 5 ["print(2)"] None true
             = (populated, Raised e))
     ∨ (∃ (st' : state) (c : list Chroma.entry),
          add_documents add_fails populated 5 ["print(2)"] None true
          = (st', Returned ())
          ∧ read (disk st') (canonical populated 5) = Some c
          ∧ Chroma.e_id <$> c = batch_ids 5 ["print(2)"]
          ∧ Chroma.e_document <$> c = ["print(2)"%string])
     ∨ (∃ st' : state,
          add_documents add_fails populated 5 ["print(2)"] None true
          = (st', Raised StoreError)
          ∧ read (disk st') (canonical populated 5) = Some []
          ∧ Error_failed_to_add ∈ trace st')).
Proof.
  split; [apply ok_populated|]. split; [done|].
  exact (proj1 (replace_two_phase add_fails populated 5 ["print(2)"] None
                  ok_populated ltac:(done)) eq_refl eq_refl).
Defined.

(** C3 as stated fails when the clearing step raises: the exception is
    caught, a warning is printed and the insert runs on top of what was
    stored.  Tenant 5 holds one chunk; replacing it by two chunks while
    [collection.delete] raises returns normally and leaves the old chunk
    stored next to a new one. *)
Lemma replace_two_phase_counterexample :
  ¬ (∀ (w : env) (st st' : state) (cid : Z) (docs : list string)
       (r : outcome unit) (c : list Chroma.entry),
       ok st → docs ≠ [] →
       add_documents w st cid docs None true = (st', r) →
       read (disk st') (canonical st cid) = Some c →
       ∀ e, e ∈ c → Chroma.e_document e ∈ docs).
Proof.
  intros H.
  pose (st' := fst (add_documents delete_fails populated 5
                      ["print(2)"; "print(3)"] None true)).
  pose (c := default [] (read (disk st') (canonical populated 5))).
  assert (add_documents delete_fails populated 5 ["print(2)"; "print(3)"]
            None true = (st', Returned ())) as Hrun
    by (vm_compute; reflexivity).
  assert (read (disk st') (canonical populated 5) = Some c) as Hread
    by (vm_compute; reflexivity).
  assert (∃ e rest, c = e :: rest ∧ Chroma.e_document e = "print(1)"%string)
    as (e & rest & Hc & He)
    by (vm_compute; eexists _, _; split; reflexivity).
  specialize (H delete_fails populated st' 5%Z ["print(2)"; "print(3)"]%string
                (Returned ()) c ok_populated ltac:(done) Hrun Hread e).
  rewrite Hc, He in H. specialize (H ltac:(by left)).
  clear - H. apply list_elem_of_In in H. simpl in H.
  destruct H as [H|[H|[]]]; discriminate H.
Qed.

End StoreScenarios.

(** ** The invariant along every run *)

Section Reachable.
Import Py World Store.

Lemma has_append (c : ascii) (a b : string) :
  has c (a +:+ b) = has c a || has c b.
Proof.
  induction a as [|x a IH]; [done|].
  rewrite append_cons. simpl. rewrite IH. by rewrite orb_assoc.
Qed.

Lemma uint_no_underscore (d : Decimal.uint) :
  has "_" (NilEmpty.string_of_uint d) = false.
Proof. induction d; simpl; done. Qed.

Lemma str_no_underscore (n : Z) : has "_" (str n) = false.
Proof.
  unfold str. destruct (Z.to_int n) as [d|d]; simpl.
  - destruct d; try apply uint_no_underscore. reflexivity.
  - destruct d; try apply uint_no_underscore. reflexivity.
Qed.

(** A backup name is the directory of no tenant. *)
Lemma backup_not_tenant (w : env) (st : state) (cid c : Z) :
  backup_of w (get_db_path st cid) ≠ get_db_path st c.
Proof.
  unfold backup_of. destruct (get_db_path_shape st) as (pre & _ & H).
  rewrite !H. rewrite !append_assoc. intros E.
  apply append_inj_l, append_inj_l in E.
  apply (f_equal (has "_")) in E.
  rewrite str_no_underscore, has_append, has_append in E.
  rewrite str_no_underscore in E. simpl in E. done.
Qed.

Lemma touches_refl path backup (d : gmap string Os.node) :
  touches path backup d d.
Proof. split; auto. Qed.

Lemma touches_trans path backup (d1 d2 d3 : gmap string Os.node) :
  touches path backup d1 d2 → touches path backup d2 d3 →
  touches path backup d1 d3.
Proof.
  intros [F1 P1] [F2 P2]. split.
  - intros p H1 H2. by rewrite F2, F1.
  - destruct P2 as [P2|[P2|(f & f' & db & A2 & B2)]].
    + by left.
    + rewrite P2. exact P1.
    + destruct P1 as [P1|[P1|(g & g' & db' & A1 & B1)]].
      * congruence.
      * right. right. exists f, f', db. by rewrite <- P1.
      * right. right. rewrite A2 in B1. injection B1 as E1 E2. subst.
        eexists _, _, _. split; eassumption.
Qed.

Lemma rmtree_touches o path backup (d : gmap string Os.node) :
  touches path backup d (fst (Os.rmtree o path d)).
Proof.
  unfold Os.rmtree. destruct (d !! path) as [[|files db]|] eqn:E;
    try apply touches_refl.
  destruct o as [|survive]; simpl; split.
  - intros p H1 _. by rewrite lookup_delete_ne.
  - left. apply lookup_delete_eq.
  - intros p H1 _. by rewrite lookup_insert_ne.
  - right. right. eexists _, _, _. split; [done|]. apply lookup_insert_eq.
Qed.

Lemma rmtree_onerror_touches o path backup (d : gmap string Os.node) :
  touches path backup d (fst (Os.rmtree_onerror o path d)).
Proof.
  unfold Os.rmtree_onerror. destruct (d !! path) eqn:E;
    [apply rmtree_touches|apply touches_refl].
Qed.

Lemma rename_touches raises path backup (d d' : gmap string Os.node) :
  backup ≠ path → Os.rename raises path backup d = Some d' →
  touches path backup d d'.
Proof.
  intros Hne. unfold Os.rename. destruct raises; [done|].
  destruct (d !! path) as [n|]; [|done].
  destruct (d !! backup); [done|]. intros [= <-]. split.
  - intros p H1 H2. by rewrite lookup_insert_ne, lookup_delete_ne.
  - left. rewrite lookup_insert_ne by done. apply lookup_delete_eq.
Qed.

Lemma settled_refl path backup (st : state) : settled path backup st st.
Proof. split_and!; try done. apply touches_refl. Qed.

Lemma settled_emit path backup (st st' : state) (e : event) :
  settled path backup st st' → settled path backup st (emit e st').
Proof. intros (? & ? & ? & ?). by split_and!. Qed.

Lemma settled_disk path backup (st st' : state) (d : gmap string Os.node) :
  settled path backup st st' → touches path backup (disk st') d →
  settled path backup st (with_disk d st').
Proof.
  intros (? & ? & ? & ?) Ht. split_and!; try done.
  simpl. by eapply touches_trans.
Qed.

(** The reclaimer touches nothing but the directory and its backup
    name. *)
Lemma force_remove_settled (w : env) (path : string) (attempts : list Z) :
  ∀ (k : nat) (st0 st : state),
    settled path (backup_of w path) st0 st →
    settled path (backup_of w path) st0
            (fst (force_remove_loop w path attempts k st)).
Proof.
  induction attempts as [|a rest IH]; intros k st0 st Hs; [done|].
  cbn [force_remove_loop].
  pose proof (rmtree_touches (rmtree_meets w k) path (backup_of w path)
                (disk st)) as T1.
  destruct (Os.rmtree (rmtree_meets w k) path (disk st)) as [d1 ok1].
  cbn [fst] in T1.
  destruct ok1.
  { cbn [fst]. by apply settled_emit, settled_disk. }
  destruct (a <? max_retries - 1)%Z.
  - cbn [disk emit with_disk].
    pose proof (rmtree_onerror_touches (rmtree_meets w (S k)) path
                  (backup_of w path) d1) as T2.
    destruct (Os.rmtree_onerror (rmtree_meets w (S k)) path d1)
      as [d2 ok2].
    cbn [fst] in T2.
    assert (settled path (backup_of w path) st0 (with_disk d2 st)) as Hs2.
    { apply settled_disk; [done|]. by eapply touches_trans. }
    destruct ok2.
    + cbn [fst]. destruct Hs2 as (? & ? & ? & ?). by split_and!.
    + apply IH. destruct Hs2 as (? & ? & ? & ?). by split_and!.
  - cbn [disk emit with_disk]. fold (backup_of w path).
    destruct (Os.rename (rename_raises w) path (backup_of w path) d1)
      as [d3|] eqn:E3.
    + apply IH.
      pose proof (rename_touches _ _ _ _ _ (backup_differs w path) E3) as T3.
      assert (settled path (backup_of w path) st0 (with_disk d3 st)) as Hs3.
      { apply settled_disk; [done|]. by eapply touches_trans. }
      destruct Hs3 as (? & ? & ? & ?). by split_and!.
    + cbn [fst].
      assert (settled path (backup_of w path) st0 (with_disk d1 st)) as Hs1
        by (by apply settled_disk).
      destruct Hs1 as (? & ? & ? & ?). by split_and!.
Qed.

Lemma delete_codebase_settled (w : env) (st : state) (cid : Z) :
  base_db_dir (fst (delete_codebase w st cid)) = base_db_dir st
  ∧ collections (fst (delete_codebase w st cid))
    = delete cid (collections st)
  ∧ touches (get_db_path st cid) (backup_of w (get_db_path st cid))
            (disk st) (disk (fst (delete_codebase w st cid))).
Proof.
  unfold delete_codebase.
  set (sa := if decide (cid ∈ dom (clients st))
             then with_clients (delete cid) st else st).
  set (sb := if decide (cid ∈ dom (collections sa))
             then with_collections (delete cid) sa else sa).
  set (sc := emit (Sleep 500) (emit Gc_collect sb)).
  assert (base_db_dir sc = base_db_dir st ∧ disk sc = disk st
          ∧ collections sc = delete cid (collections st))
    as (Hb & Hd & Hc).
  { unfold sc, sb, sa.
    destruct (decide (cid ∈ dom (clients st))); cbn;
      destruct (decide (cid ∈ dom (collections st))) as [|Hn]; cbn;
      split_and!; try done;
      symmetry; apply delete_id; by apply not_elem_of_dom. }
  rewrite (get_db_path_base st sc) by done.
  destruct (Os.exists_ (disk sc) (get_db_path st cid)).
  - pose proof (force_remove_settled w (get_db_path st cid) [0; 1; 2]%Z 0
                  sc sc (settled_refl _ _ sc)) as (S1 & _ & S3 & S4).
    unfold _force_remove_directory.
    change (range 0 max_retries 1) with (Some [0; 1; 2]%Z).
    destruct (force_remove_loop w (get_db_path st cid) [0; 1; 2]%Z 0 sc)
      as [st' [[]|e]]; cbn [fst] in *.
    + cbn [base_db_dir collections disk emit].
      rewrite S1, S3, <- Hd. by split_and!.
    + rewrite S1, S3, <- Hd. by split_and!.
  - cbn [fst]. rewrite Hd. split_and!; try done. apply touches_refl.
Qed.

(** [delete_codebase] keeps a store [ok]. *)
Lemma delete_codebase_ok (w : env) (st : state) (cid : Z) :
  ok st → ok (fst (delete_codebase w st cid)).
Proof.
  intros [Hh Hr Ht].
  destruct (delete_codebase_settled w st cid) as (Hb & Hc & [Hfr Hp]).
  set (st' := fst (delete_codebase w st cid)) in *.
  assert (∀ c, canonical st' c = canonical st c) as Hcan.
  { intros c. unfold canonical. by rewrite (get_db_path_base st st'). }
  assert (∀ c, c ≠ cid →
               read (disk st') (canonical st c) = read (disk st) (canonical st c))
    as Hother.
  { intros c Hne. apply read_frame. simpl. apply Hfr.
    - intros E. by apply get_db_path_inj in E.
    - intros E. symmetry in E. by apply backup_not_tenant in E. }
  assert (∀ c h, collections st' !! c = Some h →
                 c ≠ cid ∧ collections st !! c = Some h) as Hcol.
  { intros c h H. rewrite Hc in H. destruct (decide (c = cid)) as [->|Hne].
    - by rewrite lookup_delete_eq in H.
    - by rewrite lookup_delete_ne in H. }
  split.
  - intros c h H. destruct (Hcol _ _ H) as [_ H']. rewrite Hcan.
    by apply Hh.
  - intros c h H. destruct (Hcol _ _ H) as [Hne H'].
    pose proof (Hh _ _ H') as ->. rewrite Hother by done. by eapply Hr.
  - intros c col H. rewrite Hcan in H.
    destruct (decide (c = cid)) as [->|Hne].
    + apply Ht. unfold read in *. cbn [h_path h_name canonical] in *.
      destruct Hp as [Hp|[Hp|(f & f' & db & Hp1 & Hp2)]].
      * by rewrite Hp in H.
      * by rewrite <- Hp.
      * rewrite Hp2 in H. by rewrite Hp1.
    + rewrite Hother in H by done. by apply Ht.
Qed.

(** Every state a store goes through is [ok]. *)
Lemma reachable_ok (st : state) : reachable st → ok st.
Proof.
  induction 1 as [base|w st cid docs meta repl _ IH|w st cid _ IH
                 |st cid _ IH].
  - apply ok_init.
  - by apply add_documents_ok.
  - by apply delete_codebase_ok.
  - by apply get_codebase_stats_ok.
Qed.

End Reachable.

(** * Further properties of the code *)

Section SplitterCoverage.
Import Py Chunking.

(** A line feed separates what is blank before it from what is blank
    after it. *)
Lemma blank_append_LF (y : string) :
  ∀ (n : nat) (x : string),
    (String.length x <= n)%nat →
    blank (x +:+ String LF y) = blank x && blank y.
Proof.
  induction n as [|n IH]; intros x Hn.
  - destruct x; [|simpl in Hn; lia].
    by rewrite append_nil_l, blank_cons, space1_LF.
  - destruct x as [|c x].
    { by rewrite append_nil_l, blank_cons, space1_LF. }
    simpl in Hn. rewrite append_cons, !blank_cons.
    destruct (space1 c).
    { apply IH. lia. }
    destruct x as [|d x]; simpl in Hn.
    { rewrite append_nil_l, space2_LF. destruct y; [done|].
      by rewrite space3_LF_mid. }
    rewrite append_cons.
    destruct (space2 c d).
    { apply IH. lia. }
    destruct x as [|e x]; simpl in Hn.
    { by rewrite append_nil_l, space3_LF_end. }
    rewrite append_cons, IH by lia. by rewrite andb_assoc.
Qed.

(** Lines joined by line feeds are blank when each line is. *)
Lemma blank_join (ws : list string) :
  blank (join LF ws) = true ↔ Forall (fun w => blank w = true) ws.
Proof.
  induction ws as [|w ws IH]; [done|].
  destruct ws as [|w' ws].
  - simpl. split; [by repeat constructor|by inversion 1].
  - rewrite join_cons2, (blank_append_LF _ _ w (le_n _)), andb_true_iff, IH.
    split; [intros [? ?]; by constructor|by inversion 1].
Qed.

Lemma blank_lines (text : string) :
  blank text = true ↔ Forall (fun w => blank w = true) (split LF text).
Proof. by rewrite <- blank_join, join_split. Qed.

Lemma slice_window {A} (l : list A) (a s : Z) :
  (0 <= a)%Z → (0 <= s)%Z →
  slice l a (a + s) = take (Z.to_nat s) (drop (Z.to_nat a) l).
Proof.
  intros Ha Hs. rewrite slice_take_drop by lia. unfold len.
  destruct (decide (a <= Z.of_nat (length l))%Z) as [Hin|Hout].
  - rewrite (Z.min_l a) by lia.
    destruct (decide (a + s <= Z.of_nat (length l))%Z).
    + rewrite Z.min_l by lia. f_equal. lia.
    + rewrite Z.min_r by lia.
      rewrite !take_ge; [done| |]; rewrite length_drop; lia.
  - rewrite !drop_ge by lia. by rewrite !take_nil.
Qed.

Lemma window_take (lines : list string) (k : nat) :
  window 40 lines (0 + Z.of_nat k * 30) = join LF (window_lines lines k).
Proof.
  unfold window, window_lines. rewrite slice_window by lia.
  do 3 f_equal. lia.
Qed.

(** What [chunk_code] returns: the windows that are not blank, in
    order. *)
Lemma chunk_code_windows (text : string) :
  chunk_code text
  = inr (flat_map (fun k => keep (join LF (window_lines (split LF text) k)))
                  (seq 0 (windows (split LF text)))).
Proof.
  unfold chunk_code, chunk_code_with, Config.CHUNK_SIZE,
    Config.CHUNK_OVERLAP.
  replace (40 - 10)%Z with 30%Z by done.
  rewrite range_up by lia. f_equal. fold (windows (split LF text)).
  rewrite flat_map_concat_map, map_map, <- flat_map_concat_map.
  apply flat_map_ext. intros k. by rewrite <- window_take.
Qed.

Lemma windows_bound (lines : list string) :
  (length lines <= 30 * windows lines < length lines + 30)%nat.
Proof.
  unfold windows, len.
  pose proof (Z.div_mod (Z.of_nat (length lines) - 0 + 30 - 1) 30
                ltac:(lia)) as H.
  pose proof (Z.mod_pos_bound (Z.of_nat (length lines) - 0 + 30 - 1) 30
                ltac:(lia)) as H'.
  lia.
Qed.

Lemma window_lines_nonempty (lines : list string) (k : nat) :
  (k < windows lines)%nat → (1 <= length (window_lines lines k) <= 40)%nat.
Proof.
  intros Hk. pose proof (windows_bound lines).
  unfold window_lines. rewrite length_take, length_drop. lia.
Qed.

Lemma lines_of_window (lines : list string) (k : nat) :
  Forall (fun w => has LF w = false) lines →
  (k < windows lines)%nat →
  lines_of (join LF (window_lines lines k)) = window_lines lines k.
Proof.
  intros Hfree Hk. apply lines_of_join.
  - apply length_pos_nonnil.
    pose proof (window_lines_nonempty _ _ Hk). lia.
  - by apply Forall_take, Forall_drop.
Qed.

(** Every line lies in the window that starts at the multiple of thirty
    below it. *)
Lemma line_in_window (lines : list string) (j : nat) (line : string) :
  lines !! j = Some line →
  (j / 30 < windows lines)%nat ∧ line ∈ window_lines lines (j / 30).
Proof.
  intros Hj. pose proof (lookup_lt_Some _ _ _ Hj) as Hlt.
  pose proof (windows_bound lines) as Hw.
  pose proof (Nat.div_mod_eq j 30) as Hd.
  pose proof (Nat.mod_upper_bound j 30 ltac:(lia)) as Hm.
  split; [lia|].
  apply (list_elem_of_lookup_2 _ (j mod 30)).
  unfold window_lines. rewrite lookup_take_lt by lia.
  rewrite lookup_drop. rewrite <- Hj. f_equal. lia.
Qed.

Lemma keep_nil (chunk : string) : keep chunk = [] ↔ blank chunk = true.
Proof.
  unfold keep, strip_truthy. destruct (blank chunk); simpl; split; done.
Qed.

Lemma flat_map_nil {A B} (f : A → list B) (l : list A) :
  flat_map f l = [] ↔ ∀ x, x ∈ l → f x = [].
Proof.
  induction l as [|a l IH]; simpl.
  - split; [intros _ x Hx; by apply elem_of_nil in Hx|done].
  - split.
    + intros H. apply app_eq_nil in H as [Ha Hl].
      intros x Hx. apply elem_of_cons in Hx as [->|Hx]; [done|].
      by apply IH.
    + intros H. rewrite (H a) by (by left). simpl. apply IH.
      intros x Hx. apply H. by right.
Qed.

(** A text of nothing but whitespace gives no chunk. *)
Lemma chunk_code_blank (text : string) :
  blank text = true → chunk_code text = inr [].
Proof.
  rewrite chunk_code_windows, blank_lines. intros Hall.
  f_equal. apply flat_map_nil. intros k _.
  apply keep_nil, blank_join. unfold window_lines.
  by apply Forall_take, Forall_drop.
Qed.

(** X1. [chunk_code] returns no chunk exactly on the texts that hold nothing
    but whitespace, the empty text among them: a text with one visible
    character anywhere gives at least one chunk. *)
Theorem chunk_code_empty_iff_blank (text : string) :
  chunk_code text = inr [] ↔ blank text = true.
Proof.
  split; [|apply chunk_code_blank].
  rewrite chunk_code_windows, blank_lines.
  set (lines := split LF text).
  intros [= H]. rewrite flat_map_nil in H.
  apply Forall_lookup. intros j line Hj.
  destruct (line_in_window lines j line Hj) as [Hk Hin].
  specialize (H (j / 30)%nat).
  rewrite keep_nil, blank_join, Forall_forall in H.
  apply H; [|done]. apply elem_of_seq. lia.
Qed.

Lemma flat_map_length_le {A B} (f : A → list B) (l : list A) :
  (∀ x, length (f x) <= 1)%nat → (length (flat_map f l) <= length l)%nat.
Proof.
  intros Hf. induction l as [|a l IH]; simpl; [lia|].
  rewrite length_app. specialize (Hf a). lia.
Qed.

(** X2. [chunk_code] always returns, with the constants of [config.py]; each
    chunk is a run of at least one and at most forty consecutive lines of
    the text that starts at a multiple of thirty and is not blank, and there
    are no more chunks than windows, one for every thirty lines begun. *)
Theorem chunk_code_chunks_bounded (text : string) :
  ∃ chunks : list string,
    chunk_code text = inr chunks
    ∧ Forall (fun c =>
                strip_truthy c = true
                ∧ (1 <= length (lines_of c) <= 40)%nat
                ∧ ∃ k : nat,
                    lines_of c = take 40 (drop (30 * k) (split LF text)))
             chunks
    ∧ (30 * length chunks < length (split LF text) + 30)%nat.
Proof.
  eexists. split; [apply chunk_code_windows|].
  set (lines := split LF text). split.
  - apply List.Forall_forall. intros c Hc.
    apply in_flat_map in Hc as (k & Hk & Hc). apply in_seq in Hk.
    unfold keep in Hc. destruct (strip_truthy _) eqn:E; [|done].
    destruct Hc as [<-|[]]. split; [done|].
    rewrite lines_of_window by (first [apply split_has|lia]).
    split; [apply window_lines_nonempty; lia|]. by exists k.
  - pose proof (windows_bound lines) as Hw.
    pose proof (flat_map_length_le
                  (fun k => keep (join LF (window_lines lines k)))
                  (seq 0 (windows lines))) as Hl.
    rewrite length_seq in Hl.
    assert (∀ k, length (keep (join LF (window_lines lines k))) <= 1)%nat
      as Hone.
    { intros k. unfold keep. destruct (strip_truthy _); simpl; lia. }
    specialize (Hl Hone). lia.
Qed.

Lemma take_thirty_pieces {A} (m : nat) :
  ∀ l : list A,
    (length l <= 30 * m)%nat →
    flat_map (fun k => take 30 (drop (30 * k) l)) (seq 0 m) = l.
Proof.
  induction m as [|m IH]; intros l Hl.
  - destruct l; [done|simpl in Hl; lia].
  - rewrite <- cons_seq, <- fmap_S_seq. simpl flat_map.
    rewrite drop_0.
    change (S <$> seq 0 m) with (map S (seq 0 m)).
    rewrite flat_map_concat_map, map_map, <- flat_map_concat_map.
    transitivity (take 30 l ++ drop 30 l); [|apply take_drop]. f_equal.
    etransitivity; [|apply (IH (drop 30 l)); rewrite length_drop; lia].
    apply flat_map_ext. intros k. rewrite drop_drop. do 2 f_equal. lia.
Qed.

Lemma flat_map_singletons {A B} (f : A → list B) (g : A → B) (l : list A) :
  (∀ x, In x l → f x = [g x]) → flat_map f l = map g l.
Proof.
  induction l as [|a l IH]; intros H; [done|]. simpl.
  rewrite (H a) by (by left). simpl. f_equal. apply IH.
  intros x Hx. apply H. by right.
Qed.

(** X3. No line is lost when no window is dropped: if every window of the
    text holds something besides whitespace, there is one chunk for each
    window and the text is recovered from the chunks by joining the first
    thirty lines of each. *)
Theorem chunk_code_reassemble (text : string) (chunks : list string)
    (Hfull : Forall (fun k =>
                       blank (join LF (window_lines (split LF text) k))
                       = false)
                    (seq 0 (windows (split LF text))))
    (Hrun : chunk_code text = inr chunks) :
  length chunks = windows (split LF text)
  ∧ join LF (flat_map (fun c => take 30 (lines_of c)) chunks) = text.
Proof.
  rewrite chunk_code_windows in Hrun. injection Hrun as <-.
  set (lines := split LF text) in *.
  assert (flat_map (fun k => keep (join LF (window_lines lines k)))
                   (seq 0 (windows lines))
          = map (fun k => join LF (window_lines lines k))
                (seq 0 (windows lines))) as ->.
  { apply flat_map_singletons. intros k Hk.
    rewrite List.Forall_forall in Hfull.
    unfold keep, strip_truthy. rewrite (Hfull k Hk). reflexivity. }
  split; [by rewrite length_map, length_seq|].
  rewrite flat_map_concat_map, map_map, <- flat_map_concat_map.
  etransitivity; [|apply (join_split LF text)]. fold lines. f_equal.
  etransitivity;
    [|apply (take_thirty_pieces (windows lines) lines);
      pose proof (windows_bound lines); lia].
  rewrite !flat_map_concat_map. f_equal. apply map_ext_in. intros k Hk.
  apply in_seq in Hk.
  rewrite lines_of_window by (first [apply split_has|lia]).
  unfold window_lines. rewrite take_take. f_equal.
Qed.

Lemma chunk_code_reassemble_witness :
  ∃ chunks : list string,
    chunk_code hundred_lines = inr chunks
    ∧ length chunks = windows (split LF hundred_lines)
    ∧ join LF (flat_map (fun c => take 30 (lines_of c)) chunks)
      = hundred_lines.
Proof.
  destruct (chunk_code hundred_lines) as [e|chunks] eqn:E;
    [vm_compute in E; discriminate|].
  exists chunks. split; [reflexivity|].
  apply (chunk_code_reassemble hundred_lines chunks); [|exact E].
  apply (bool_decide_unpack _). vm_compute. exact I.
Defined.

End SplitterCoverage.

Section DecimalRoundTrip.
Import Py PyStr.

Lemma int10_acc_uint (d : Decimal.uint) :
  ∀ acc : Z,
    int10_acc acc (NilEmpty.string_of_uint d) = Some (uint_value acc d).
Proof. induction d; intros acc; simpl; try apply IHd; reflexivity. Qed.

Lemma uint_value_pos (d : Decimal.uint) :
  ∀ p : positive,
    uint_value (Z.pos p) d = Z.pos (Pos.of_uint_acc d p).
Proof.
  induction d; intros p; simpl; [done|..];
    match goal with
    | |- uint_value ?a _ = Z.pos (Pos.of_uint_acc _ ?q) =>
        replace a with (Z.pos q) by lia
    end; apply IHd.
Qed.

Lemma uint_value_0 (d : Decimal.uint) :
  uint_value 0 d = Z.of_N (Pos.of_uint d).
Proof.
  induction d; simpl; [done|exact IHd|..];
    match goal with
    | |- uint_value ?a _ = Z.pos (Pos.of_uint_acc _ ?q) =>
        change a with (Z.pos q)
    end; apply uint_value_pos.
Qed.

Lemma uint_value_to_uint (p : positive) :
  uint_value 0 (Pos.to_uint p) = Z.pos p.
Proof. by rewrite uint_value_0, Unsigned.of_to. Qed.

Lemma int10_uint (d : Decimal.uint) :
  d ≠ Decimal.Nil →
  int10 (NilEmpty.string_of_uint d) = Some (uint_value 0 d).
Proof.
  intros Hd. rewrite <- int10_acc_uint.
  destruct d; [done|..]; reflexivity.
Qed.

Lemma string_of_uint_nonempty (d : Decimal.uint) :
  d ≠ Decimal.Nil → NilEmpty.string_of_uint d ≠ EmptyString.
Proof. destruct d; done. Qed.

Lemma NilZero_string_of_uint (d : Decimal.uint) :
  d ≠ Decimal.Nil →
  NilZero.string_of_uint d = NilEmpty.string_of_uint d.
Proof. destruct d; done. Qed.

(** [int(str(n)) == n]. *)
Lemma int10_str (n : Z) : int10 (str n) = Some n.
Proof.
  unfold str. destruct n as [|p|p]; simpl Z.to_int.
  - reflexivity.
  - pose proof (Unsigned.to_uint_nonnil p) as Hp.
    unfold NilZero.string_of_int.
    rewrite NilZero_string_of_uint, int10_uint by done.
    by rewrite uint_value_to_uint.
  - pose proof (Unsigned.to_uint_nonnil p) as Hp.
    unfold NilZero.string_of_int.
    rewrite NilZero_string_of_uint by done.
    unfold int10. rewrite Ascii.eqb_refl.
    pose proof (string_of_uint_nonempty _ Hp) as Hne.
    destruct (NilEmpty.string_of_uint (Pos.to_uint p)) as [|c r] eqn:E;
      [done|].
    rewrite <- E, int10_acc_uint, uint_value_to_uint. reflexivity.
Qed.

End DecimalRoundTrip.

Section Listing.
Import Py PyStr World Store.

Lemma append_nil_r (s : string) : s +:+ EmptyString = s.
Proof. induction s as [|c s IH]; [done|]. by rewrite append_cons, IH. Qed.

Lemma drop_prefix_append (p s : string) :
  Os.drop_prefix p (p +:+ s) = Some s.
Proof.
  induction p as [|c p IH]; [done|].
  rewrite append_cons. simpl. by rewrite Ascii.eqb_refl.
Qed.

Lemma drop_prefix_inv (p s r : string) :
  Os.drop_prefix p s = Some r → s = p +:+ r.
Proof.
  revert s. induction p as [|c p IH]; intros s; simpl.
  - by intros [= ->].
  - destruct s as [|b s]; [done|].
    destruct (Ascii.eqb_spec c b) as [->|]; [|done].
    intros H. rewrite append_cons. f_equal. by apply IH.
Qed.

Lemma uint_no_slash (d : Decimal.uint) :
  has "/" (NilEmpty.string_of_uint d) = false.
Proof. induction d; simpl; done. Qed.

Lemma str_no_slash (n : Z) : has "/" (str n) = false.
Proof.
  unfold str. destruct (Z.to_int n) as [d|d]; simpl.
  - destruct d; try apply uint_no_slash. reflexivity.
  - destruct d; try apply uint_no_slash. reflexivity.
Qed.

Lemma existsb_has (c : ascii) (s : string) :
  existsb (Ascii.eqb c) (list_ascii_of_string s) = has c s.
Proof.
  induction s as [|x s IH]; [done|]. simpl. rewrite IH.
  by rewrite (Ascii.eqb_sym c x).
Qed.

(** A name without a separator, joined to the base directory, is the
    path of an entry of the base directory, and [os.listdir] gives the
    name back. *)
Lemma path_join_name (base name : string) :
  startswith "/" name = false →
  Os.path_join base name = Os.path_join base EmptyString +:+ name.
Proof.
  intros Hn. unfold Os.path_join. unfold Os.sep. rewrite Hn.
  change (startswith "/" EmptyString) with false. cbv iota.
  destruct (String.eqb base EmptyString || endswith "/" base).
  - by rewrite append_nil_r.
  - by rewrite append_assoc.
Qed.

Lemma has_startswith (c : ascii) (s : string) :
  has c s = false → startswith (String c EmptyString) s = false.
Proof.
  destruct s as [|x s]; [done|]. simpl.
  rewrite (Ascii.eqb_sym c x). by intros [-> _]%orb_false_iff.
Qed.

Lemma child_name_join (base name : string) :
  name ≠ EmptyString → has "/" name = false →
  Os.child_name base (Os.path_join base name) = Some name.
Proof.
  intros Hne Hfree. unfold Os.child_name.
  rewrite (path_join_name base name) by (by apply has_startswith).
  rewrite drop_prefix_append. simpl.
  unfold Os.sep. rewrite existsb_has, Hfree.
  destruct name; [done|]. reflexivity.
Qed.

Lemma child_name_inv (base path name : string) :
  Os.child_name base path = Some name →
  path = Os.path_join base name ∧ name ≠ EmptyString
  ∧ has "/" name = false.
Proof.
  unfold Os.child_name.
  destruct (Os.drop_prefix _ path) as [n|] eqn:E; [|done]. simpl.
  destruct (String.eqb_spec n EmptyString) as [->|Hne]; [done|]. simpl.
  unfold Os.sep. rewrite existsb_has.
  destruct (has "/" n) eqn:Hfree; [done|]. intros [= <-].
  split_and!; try done.
  rewrite (path_join_name base n) by (by apply has_startswith).
  by apply drop_prefix_inv.
Qed.

Lemma elem_of_listdir (d : gmap string Os.node) (base item : string) :
  item ∈ Os.listdir d base
  ↔ item ≠ EmptyString ∧ has "/" item = false
    ∧ is_Some (d !! Os.path_join base item).
Proof.
  unfold Os.listdir. rewrite list_elem_of_omap. split.
  - intros (p & Hp & Hc). apply list_elem_of_fmap in Hp as ([p' n] & -> & Hp).
    apply elem_of_map_to_list in Hp. simpl in Hc.
    apply child_name_inv in Hc as (-> & ? & ?). split_and!; eauto.
  - intros (Hne & Hfree & [n Hn]). exists (Os.path_join base item).
    split; [|by apply child_name_join].
    apply list_elem_of_fmap. exists (Os.path_join base item, n).
    split; [done|]. by apply elem_of_map_to_list.
Qed.

Lemma tenant_dir_path (st : state) (cid : Z) :
  get_db_path st cid = Os.path_join (base_db_dir st) (tenant_dir cid).
Proof. reflexivity. Qed.

Lemma tenant_dir_free (cid : Z) :
  tenant_dir cid ≠ EmptyString ∧ has "/" (tenant_dir cid) = false.
Proof.
  unfold tenant_dir. split; [done|].
  rewrite has_append, str_no_slash. reflexivity.
Qed.

(** The second piece of a tenant's directory name, and of a backup name
    made from it, is the tenant's id. *)
Lemma tenant_dir_piece (cid : Z) (rest : string) :
  ∃ more : list string,
    split "_" (tenant_dir cid +:+ rest)
    = "codebase"%string :: more
    ∧ (rest = EmptyString → more = [str cid])
    ∧ (∀ r, rest = String "_" r → more = str cid :: split "_" r).
Proof.
  unfold tenant_dir.
  change ("codebase_" +:+ str cid) with ("codebase" +:+ String "_" (str cid)).
  rewrite append_assoc, (append_cons "_" (str cid) rest).
  rewrite split_app_free by reflexivity.
  eexists. split; [reflexivity|]. split.
  - intros ->. rewrite append_nil_r. apply split_free, str_no_underscore.
  - intros r ->. apply split_app_free, str_no_underscore.
Qed.

Lemma listed_id_tenant (st : state) (cid : Z) :
  listed_id st (tenant_dir cid)
  = if Os.isdir (disk st) (get_db_path st cid) then Some cid else None.
Proof.
  unfold listed_id. rewrite <- tenant_dir_path.
  change (startswith "codebase_" (tenant_dir cid)) with true.
  rewrite andb_true_l. destruct (Os.isdir _ _); [|done].
  destruct (tenant_dir_piece cid EmptyString) as (more & Hs & Hm & _).
  rewrite append_nil_r in Hs. rewrite Hs, (Hm eq_refl).
  change (("codebase"%string :: [str cid]) !! 1%nat) with (Some (str cid)).
  cbn [mbind option_bind]. apply int10_str.
Qed.

Lemma elem_of_list_codebases (st : state) (cid : Z) :
  cid ∈ list_codebases st
  ↔ Os.exists_ (disk st) (base_db_dir st) = true
    ∧ ∃ item, item ∈ Os.listdir (disk st) (base_db_dir st)
              ∧ listed_id st item = Some cid.
Proof.
  unfold list_codebases. destruct (Os.exists_ _ _); simpl.
  - rewrite merge_sort_Permutation, list_elem_of_omap.
    split; [intros (x & ? & ?); eauto|intros (_ & x & ? & ?); eauto].
  - split; [by intros ?%elem_of_nil|by intros [? _]].
Qed.

Lemma isdir_is_Some (d : gmap string Os.node) (p : string) :
  Os.isdir d p = true → is_Some (d !! p).
Proof. unfold Os.isdir. destruct (d !! p); [eauto|done]. Qed.

Lemma isdir_exists (d : gmap string Os.node) (p : string) :
  Os.isdir d p = true → Os.exists_ d p = true.
Proof.
  intros H. apply bool_decide_eq_true. by apply isdir_is_Some.
Qed.

(** A tenant whose directory stands in an existing base directory is
    listed. *)
Lemma listed_of_dir (st : state) (cid : Z) :
  Os.exists_ (disk st) (base_db_dir st) = true →
  Os.isdir (disk st) (get_db_path st cid) = true →
  cid ∈ list_codebases st.
Proof.
  intros Hbase Hdir. apply elem_of_list_codebases. split; [done|].
  exists (tenant_dir cid). destruct (tenant_dir_free cid) as [Hne Hfree].
  split.
  - apply elem_of_listdir. split_and!; try done.
    rewrite <- tenant_dir_path. by apply isdir_is_Some.
  - by rewrite listed_id_tenant, Hdir.
Qed.

(** X4. [list_codebases] answers in ascending order, and with the id of
    every tenant whose directory stands in the base directory. *)
Theorem list_codebases_sorted_complete (st : state) :
  Sorted Z.le (list_codebases st)
  ∧ ∀ cid : Z,
      Os.exists_ (disk st) (base_db_dir st) = true →
      Os.isdir (disk st) (get_db_path st cid) = true →
      cid ∈ list_codebases st.
Proof.
  split; [|apply listed_of_dir].
  unfold list_codebases. destruct (negb _); [constructor|].
  apply Sorted_merge_sort, _.
Qed.

End Listing.

Section StoreGrounded.
Import Py PyStr World Store.

Lemma isdir_frame (d d' : gmap string Os.node) (p : string) :
  d' !! p = d !! p → Os.isdir d' p = Os.isdir d p.
Proof. unfold Os.isdir. by intros ->. Qed.

Lemma open_collection_frame (path name : string) (d : gmap string Os.node)
    (p : string) :
  p ≠ path → open_collection path name d !! p = d !! p.
Proof.
  intros Hp. unfold open_collection.
  destruct (d !! path) as [[|files db]|]; try done.
  by rewrite lookup_insert_ne.
Qed.

(** Opening a tenant this process has not opened yet. *)
Lemma gcc_open (st : state) (cid : Z) :
  cid ∉ dom (clients st) →
  get_client_and_collection st cid
  = match Os.mkdir (base_db_dir st) (disk st)
            ≫= Os.mkdir (get_db_path st cid) with
    | None => Raised (FileExistsError (get_db_path st cid))
    | Some d =>
        Returned
          (with_collections (insert cid (canonical st cid))
             (with_clients (insert cid (get_db_path st cid))
                (with_disk
                   (open_collection (get_db_path st cid)
                      (get_collection_name cid) d) st)),
           canonical st cid)
    end.
Proof.
  intros H. unfold get_client_and_collection. rewrite decide_False by done.
  destruct (_ ≫= _); [|done].
  cbn [collections with_collections with_clients with_disk].
  by rewrite lookup_insert_eq.
Qed.

Lemma gcc_grounded (st st0 : state) (cid : Z) (h : handle) :
  grounded st →
  get_client_and_collection st cid = Returned (st0, h) →
  Os.isdir (disk st0) (base_db_dir st0) = true
  ∧ base_db_dir st0 = base_db_dir st
  ∧ cid ∈ dom (clients st0).
Proof.
  intros Hg. destruct (decide (cid ∈ dom (clients st))) as [Hin|Hout].
  - unfold get_client_and_collection. rewrite decide_True by done.
    destruct (collections st !! cid); [|done]. intros [= <- <-].
    split_and!; try done. apply Hg. intros E. rewrite E in Hin.
    by rewrite dom_empty_L in Hin.
  - rewrite gcc_open by done.
    destruct (Os.mkdir (base_db_dir st) (disk st)) as [d1|] eqn:E1; [|done].
    cbn [mbind option_bind].
    destruct (Os.mkdir (get_db_path st cid) d1) as [d2|] eqn:E2; [|done].
    intros [= <- <-].
    cbn [disk base_db_dir clients with_collections with_clients with_disk].
    destruct (mkdir_spec _ _ _ E1) as [_ (files & db & D1 & _)].
    destruct (mkdir_spec _ _ _ E2) as [F2 _].
    pose proof (get_db_path_not_base st cid) as Hnb.
    split_and!; try done.
    + unfold Os.isdir.
      rewrite open_collection_frame, F2, D1 by done. done.
    + apply elem_of_dom. rewrite lookup_insert_eq. eauto.
Qed.

Lemma clear_existing_frame (w : env) (st : state) (h : handle) (cid : Z) :
  base_db_dir (clear_existing w st h cid) = base_db_dir st
  ∧ clients (clear_existing w st h cid) = clients st
  ∧ collections (clear_existing w st h cid) = collections st
  ∧ ∀ p, p ≠ h_path h →
         disk (clear_existing w st h cid) !! p = disk st !! p.
Proof.
  unfold clear_existing.
  destruct (if get_raises w then None else read (disk st) h) as [c|];
    [|done].
  destruct (Chroma.get_where _ _ c); [done|].
  destruct (delete_raises w); [done|].
  cbn [base_db_dir clients collections disk emit with_disk].
  split_and!; try done. intros p Hp. by apply write_frame.
Qed.

(** [add_documents] once the tenant is open and the vectors are made. *)
Lemma add_documents_unfold (w : env) (st st0 : state) (cid : Z)
    (docs : list string) (meta : option (list (gmap string Chroma.mval)))
    (repl : bool) (h : handle) (embs : list (list float)) :
  docs ≠ [] →
  get_client_and_collection st cid = Returned (st0, h) →
  mapM Embedding.get_embedding docs = Some embs →
  add_documents w st cid docs meta repl
  = match (if add_raises w then None
           else read (disk (if repl then clear_existing w st0 h cid
                            else st0)) h
                  ≫= Chroma.add (batch_ids cid docs) docs embs
                                 (batch_metas cid docs meta))
    with
    | Some c =>
        (emit (Info_added (len docs) cid)
           (with_disk
              (write h c (disk (if repl then clear_existing w st0 h cid
                                else st0)))
              (if repl then clear_existing w st0 h cid else st0)),
         Returned ())
    | None =>
        (emit Error_failed_to_add
           (if repl then clear_existing w st0 h cid else st0),
         Raised StoreError)
    end.
Proof.
  intros Hd Hg He. destruct docs as [|d docs']; [done|].
  unfold add_documents. rewrite Hg, He. destruct meta; reflexivity.
Qed.

Lemma add_documents_grounded (w : env) (st : state) (cid : Z)
    (docs : list string) (meta : option (list (gmap string Chroma.mval)))
    (repl : bool) :
  ok st → grounded st →
  grounded (fst (add_documents w st cid docs meta repl)).
Proof.
  intros Hok Hg. destruct docs as [|d docs'] eqn:Ed; [done|].
  rewrite <- Ed. assert (docs ≠ []) as Hd by (by rewrite Ed). clear Ed.
  destruct (embeddings_exist docs) as [embs He].
  destruct (get_client_and_collection st cid) as [[st0 h]|e] eqn:Eg.
  - destruct (gcc_grounded _ _ _ _ Hg Eg) as (Hdir & Hb & _).
    assert (h = canonical st cid) as Hh.
    { destruct (gcc_spec st cid Hok) as [[e He']|(st0' & c0 & Hg' & _)];
        congruence. }
    assert (h_path h ≠ base_db_dir st0) as Hne.
    { rewrite Hh, Hb. apply get_db_path_not_base. }
    rewrite (add_documents_unfold _ _ _ _ _ _ _ _ _ Hd Eg He).
    set (st1 := if repl then clear_existing w st0 h cid else st0).
    assert (Os.isdir (disk st1) (base_db_dir st1) = true
            ∧ base_db_dir st1 = base_db_dir st0) as [Hd1 Hb1].
    { unfold st1. destruct repl; [|done].
      destruct (clear_existing_frame w st0 h cid) as (B & _ & _ & F).
      split; [|done]. rewrite B, <- Hdir. apply isdir_frame.
      apply F. congruence. }
    destruct (if add_raises w then None else _) as [c|]; intros _;
      cbn [fst base_db_dir disk emit with_disk]; [|done].
    rewrite <- Hd1. apply isdir_frame, write_frame. congruence.
  - destruct docs as [|d' docs'']; [done|]. unfold add_documents.
    by rewrite Eg.
Qed.

Lemma backup_not_base (w : env) (st : state) (cid : Z) :
  backup_of w (get_db_path st cid) ≠ base_db_dir st.
Proof.
  unfold backup_of. destruct (get_db_path_shape st) as (pre & Hlen & H).
  rewrite H. intros E. apply (f_equal String.length) in E.
  rewrite !length_append in E. simpl in E. lia.
Qed.

Lemma delete_codebase_clients (w : env) (st : state) (cid : Z) :
  clients (fst (delete_codebase w st cid)) = delete cid (clients st).
Proof.
  unfold delete_codebase.
  set (sa := if decide (cid ∈ dom (clients st))
             then with_clients (delete cid) st else st).
  set (sb := if decide (cid ∈ dom (collections sa))
             then with_collections (delete cid) sa else sa).
  set (sc := emit (Sleep 500) (emit Gc_collect sb)).
  assert (clients sc = delete cid (clients st)) as Hc.
  { unfold sc, sb, sa.
    destruct (decide (cid ∈ dom (clients st))) as [|Hn]; cbn;
      destruct (decide _); cbn; try done;
      symmetry; apply delete_id; by apply not_elem_of_dom. }
  destruct (Os.exists_ (disk sc) (get_db_path sc cid)); [|done].
  pose proof (force_remove_settled w (get_db_path sc cid) [0; 1; 2]%Z 0
                sc sc (settled_refl _ _ sc)) as (_ & S2 & _).
  unfold _force_remove_directory.
  change (range 0 max_retries 1) with (Some [0; 1; 2]%Z).
  destruct (force_remove_loop w (get_db_path sc cid) [0; 1; 2]%Z 0 sc)
    as [st' [[]|e]]; cbn [fst] in *; cbn [clients emit]; congruence.
Qed.

Lemma delete_codebase_grounded (w : env) (st : state) (cid : Z) :
  grounded st → grounded (fst (delete_codebase w st cid)).
Proof.
  intros Hg Hne.
  destruct (delete_codebase_settled w st cid) as (Hb & _ & [Hfr _]).
  rewrite delete_codebase_clients in Hne. rewrite Hb.
  rewrite <- Hg.
  - apply isdir_frame, Hfr.
    + intros E. symmetry in E. by apply get_db_path_not_base in E.
    + intros E. symmetry in E. by apply backup_not_base in E.
  - intros E. rewrite E in Hne. by rewrite delete_empty in Hne.
Qed.

Lemma get_codebase_stats_grounded (st : state) (cid : Z) :
  grounded st → grounded (fst (get_codebase_stats st cid)).
Proof.
  intros Hg. unfold get_codebase_stats.
  destruct (decide (cid ∈ dom (collections st))).
  - by destruct (collections st !! cid ≫= read (disk st)).
  - destruct (get_client_and_collection st cid) as [[st0 h]|e] eqn:E;
      [|done].
    destruct (gcc_grounded _ _ _ _ Hg E) as (Hd & _ & _).
    by destruct (collections st0 !! cid ≫= read (disk st0)); intros _.
Qed.

(** Along every run the base directory is there as soon as a tenant is
    open. *)
Lemma reachable_grounded (st : state) : reachable st → grounded st.
Proof.
  induction 1 as [base|w st cid docs meta repl Hr IH|w st cid Hr IH
                 |st cid Hr IH].
  - intros H. by simpl in H.
  - by apply add_documents_grounded; [apply reachable_ok|].
  - by apply delete_codebase_grounded.
  - by apply get_codebase_stats_grounded.
Qed.

End StoreGrounded.

Section StoreLifecycle.
Import Py PyStr World Store.

(** Opening a tenant that has nothing on the disk makes its directory
    and an empty collection in it. *)
Lemma gcc_creates (st : state) (cid : Z) :
  cid ∉ dom (clients st) →
  disk st !! get_db_path st cid = None →
  disk st !! base_db_dir st ≠ Some Os.File →
  ∃ st0,
    get_client_and_collection st cid = Returned (st0, canonical st cid)
    ∧ base_db_dir st0 = base_db_dir st
    ∧ collections st0 = <[cid := canonical st cid]> (collections st)
    ∧ disk st0 !! get_db_path st cid
      = Some (Os.Dir ["chroma.sqlite3"] {[get_collection_name cid := []]})
    ∧ Os.isdir (disk st0) (base_db_dir st) = true.
Proof.
  intros Hcl Hno Hbase. rewrite gcc_open by done.
  pose proof (get_db_path_not_base st cid) as Hnb.
  assert (∃ d1, Os.mkdir (base_db_dir st) (disk st) = Some d1
                ∧ Os.isdir d1 (base_db_dir st) = true
                ∧ d1 !! get_db_path st cid = None) as (d1 & E1 & D1 & N1).
  { unfold Os.mkdir, Os.isdir.
    destruct (disk st !! base_db_dir st) as [[|files db]|] eqn:E.
    - done.
    - exists (disk st). by rewrite E.
    - eexists. split; [done|]. rewrite lookup_insert_eq.
      split; [done|]. by rewrite lookup_insert_ne. }
  rewrite E1. cbn [mbind option_bind]. unfold Os.mkdir at 1. rewrite N1.
  eexists. split; [reflexivity|].
  cbn [base_db_dir collections disk with_collections with_clients
         with_disk].
  unfold open_collection. rewrite lookup_insert_eq.
  rewrite decide_False by (by intros ?%elem_of_nil).
  rewrite lookup_empty, insert_empty. split_and!; try done.
  - apply lookup_insert_eq.
  - rewrite <- D1. apply isdir_frame.
    by rewrite !lookup_insert_ne.
Qed.

(** Opening a tenant leaves the handles of the others alone. *)
Lemma gcc_handles (st st0 : state) (c cid : Z) (h : handle) :
  c ≠ cid →
  get_client_and_collection st c = Returned (st0, h) →
  clients st0 !! cid = clients st !! cid
  ∧ collections st0 !! cid = collections st !! cid.
Proof.
  intros Hc. destruct (decide (c ∈ dom (clients st))) as [Hin|Hout].
  - unfold get_client_and_collection. rewrite decide_True by done.
    destruct (collections st !! c); [|done]. by intros [= <- <-].
  - rewrite gcc_open by done.
    destruct (Os.mkdir (base_db_dir st) (disk st)
                ≫= Os.mkdir (get_db_path st c)) as [d|]; [|done].
    intros [= <- <-].
    cbn [clients collections with_collections with_clients with_disk].
    by rewrite !lookup_insert_ne.
Qed.

Lemma add_documents_handles (w : env) (st : state) (c cid : Z)
    (docs : list string) (meta : option (list (gmap string Chroma.mval)))
    (repl : bool) :
  c ≠ cid →
  clients (fst (add_documents w st c docs meta repl)) !! cid
  = clients st !! cid
  ∧ collections (fst (add_documents w st c docs meta repl)) !! cid
    = collections st !! cid.
Proof.
  intros Hc. destruct docs as [|doc docs']; [done|].
  destruct (get_client_and_collection st c) as [[st0 h]|e] eqn:Hg.
  2: { unfold add_documents. by rewrite Hg. }
  destruct (gcc_handles _ _ _ _ _ Hc Hg) as [H1 H2].
  destruct (embeddings_exist (doc :: docs')) as [embs He].
  rewrite (add_documents_unfold w st st0 c (doc :: docs') meta repl h embs
             ltac:(done) Hg He).
  set (st1 := if repl then clear_existing w st0 h c else st0).
  assert (clients st1 = clients st0 ∧ collections st1 = collections st0)
    as [E1 E2].
  { unfold st1. destruct repl; [|done].
    destruct (clear_existing_frame w st0 h c) as (_ & ? & ? & _). done. }
  destruct (if add_raises w then None else _);
    cbn [fst clients collections emit with_disk]; by rewrite E1, E2.
Qed.

Lemma get_codebase_stats_handles (st : state) (c cid : Z) :
  c ≠ cid →
  clients (fst (get_codebase_stats st c)) !! cid = clients st !! cid
  ∧ collections (fst (get_codebase_stats st c)) !! cid
    = collections st !! cid.
Proof.
  intros Hc. unfold get_codebase_stats.
  destruct (decide (c ∈ dom (collections st))).
  - by destruct (collections st !! c ≫= read (disk st)).
  - destruct (get_client_and_collection st c) as [[st0 h]|e] eqn:Hg;
      [|done].
    destruct (gcc_handles _ _ _ _ _ Hc Hg) as [H1 H2].
    by destruct (collections st0 !! c ≫= read (disk st0)).
Qed.

(** A tenant the process has not opened has no client and no handle. *)
Lemma unopened_handles (cid : Z) (st : state) :
  unopened cid st → clients st !! cid = None ∧ collections st !! cid = None.
Proof.
  induction 1 as [base d|w st c docs meta repl Hc _ [IH1 IH2]
                 |w st c _ [IH1 IH2]|st c Hc _ [IH1 IH2]].
  - done.
  - destruct (add_documents_handles w st c cid docs meta repl Hc)
      as [-> ->]. done.
  - rewrite delete_codebase_clients.
    destruct (delete_codebase_settled w st c) as (_ & -> & _).
    destruct (decide (c = cid)) as [->|Hc].
    + by rewrite !lookup_delete_eq.
    + by rewrite !lookup_delete_ne.
  - destruct (get_codebase_stats_handles st c cid Hc) as [-> ->]. done.
Qed.

(** X5. Asking for the statistics of a tenant that has no data makes the
    tenant, in a process that has not opened it before: its directory and
    an empty collection are created, it is reported as existing with no
    documents, and [list_codebases] lists it from then on. *)
Theorem get_codebase_stats_creates (st : state) (cid : Z)
    (Hnew : unopened cid st)
    (Hnodir : disk st !! get_db_path st cid = None)
    (Hbase : disk st !! base_db_dir st ≠ Some Os.File) :
  snd (get_codebase_stats st cid) = (0%Z, true)
  ∧ disk (fst (get_codebase_stats st cid)) !! get_db_path st cid
    = Some (Os.Dir ["chroma.sqlite3"] {[get_collection_name cid := []]})
  ∧ collections (fst (get_codebase_stats st cid)) !! cid
    = Some (canonical st cid)
  ∧ cid ∈ list_codebases (fst (get_codebase_stats st cid)).
Proof.
  destruct (unopened_handles cid st Hnew) as [Hcl Hco].
  apply not_elem_of_dom in Hcl. apply not_elem_of_dom in Hco.
  destruct (gcc_creates st cid Hcl Hnodir Hbase)
    as (st0 & Hg & Hb & Hc & Hd & Hdir).
  assert (get_codebase_stats st cid = (st0, (0%Z, true))) as ->.
  { unfold get_codebase_stats. rewrite decide_False by done. rewrite Hg.
    rewrite Hc, lookup_insert_eq. cbn [mbind option_bind].
    unfold read, canonical. cbn [h_path h_name]. rewrite Hd.
    by rewrite lookup_singleton_eq. }
  cbn [fst snd]. split_and!; try done.
  - by rewrite Hc, lookup_insert_eq.
  - apply listed_of_dir.
    + rewrite Hb. by apply isdir_exists.
    + rewrite (get_db_path_base st st0) by done. unfold Os.isdir.
      by rewrite Hd.
Qed.

Lemma get_codebase_stats_creates_witness :
  unopened 7 populated
  ∧ disk populated !! get_db_path populated 7 = None
  ∧ snd (get_codebase_stats populated 7) = (0%Z, true)
  ∧ 7%Z ∈ list_codebases (fst (get_codebase_stats populated 7)).
Proof.
  assert (unopened 7 populated) as Hnew.
  { apply unopened_add; [done|apply unopened_init]. }
  assert (disk populated !! get_db_path populated 7 = None) as Hnodir
    by (vm_compute; reflexivity).
  split; [exact Hnew|]. split; [exact Hnodir|].
  destruct (get_codebase_stats_creates populated 7 Hnew Hnodir)
    as (H1 & _ & _ & H4).
  - vm_compute. discriminate.
  - split; [exact H1|exact H4].
Defined.

Lemma read_isdir (d : gmap string Os.node) (h : handle)
    (c : list Chroma.entry) :
  read d h = Some c → Os.isdir d (h_path h) = true.
Proof.
  unfold read, Os.isdir. by destruct (d !! h_path h) as [[|? ?]|].
Qed.

(** X6. A tenant, once an ingest for it has returned, is listed, and its
    statistics are read off without a change to the store. *)
Theorem add_documents_listed (w : env) (st st' : state) (cid : Z)
    (docs : list string) (meta : option (list (gmap string Chroma.mval)))
    (repl : bool)
    (Hreach : reachable st) (Hdocs : docs ≠ [])
    (Hrun : add_documents w st cid docs meta repl = (st', Returned ())) :
  cid ∈ list_codebases st'
  ∧ ∃ c : list Chroma.entry,
      read (disk st') (canonical st' cid) = Some c
      ∧ get_codebase_stats st' cid = (st', (len c, true)).
Proof.
  pose proof (reachable_ok st Hreach) as Hok.
  pose proof (add_documents_grounded w st cid docs meta repl Hok
                (reachable_grounded st Hreach)) as Hg.
  rewrite Hrun in Hg. cbn [fst] in Hg.
  destruct (add_documents_spec w st cid docs meta repl Hok Hdocs)
    as [(e & _ & H)
       |(st'' & r & st0 & c0 & c1 & embs & H & _ & _ & _ & Hb & Hc & Hcl
         & _ & _ & _ & _ & _ & _ & Hend)];
    rewrite Hrun in H; [done|]. injection H as <- <-.
  destruct Hend as [(_ & _ & c & _ & Hrd)|(? & _)]; [|done].
  assert (canonical st' cid = canonical st cid) as Hcan.
  { unfold canonical. by rewrite (get_db_path_base st st'). }
  split.
  - apply listed_of_dir.
    + apply isdir_exists, Hg. intros E. rewrite E in Hcl.
      by rewrite dom_empty_L in Hcl.
    + pose proof (read_isdir _ _ _ Hrd) as Hd.
      by rewrite (get_db_path_base st st').
  - exists c. rewrite Hcan. split; [done|].
    unfold get_codebase_stats.
    rewrite decide_True by (apply elem_of_dom; eauto).
    rewrite Hc. cbn [mbind option_bind]. by rewrite Hrd.
Qed.

Lemma add_documents_listed_witness :
  reachable (init "/db" ∅) ∧ ["print(1)"%string] ≠ []
  ∧ add_documents calm (init "/db" ∅) 5 ["print(1)"] None true
    = (populated, Returned ())
  ∧ 5%Z ∈ list_codebases populated
  ∧ ∃ c : list Chroma.entry,
      read (disk populated) (canonical populated 5) = Some c
      ∧ get_codebase_stats populated 5 = (populated, (len c, true)).
Proof.
  assert (add_documents calm (init "/db" ∅) 5 ["print(1)"] None true
          = (populated, Returned ())) as Hrun
    by (vm_compute; reflexivity).
  split; [apply reach_init|]. split; [done|]. split; [exact Hrun|].
  exact (add_documents_listed calm (init "/db" ∅) populated 5 ["print(1)"]
           None true (reach_init "/db") ltac:(done) Hrun).
Defined.

Lemma path_join_name_inj (base a b : string) :
  has "/" a = false → has "/" b = false →
  Os.path_join base a = Os.path_join base b → a = b.
Proof.
  intros Ha Hb.
  rewrite (path_join_name base a), (path_join_name base b)
    by (by apply has_startswith).
  apply append_inj_l.
Qed.

Lemma backup_path (w : env) (st : state) (cid : Z) :
  backup_of w (get_db_path st cid)
  = Os.path_join (base_db_dir st)
      (tenant_dir cid +:+ "_backup_" +:+ str (now w)).
Proof.
  unfold backup_of. rewrite tenant_dir_path.
  rewrite (path_join_name (base_db_dir st) (tenant_dir cid)) by reflexivity.
  rewrite (path_join_name (base_db_dir st)
             (tenant_dir cid +:+ "_backup_" +:+ str (now w)))
    by reflexivity.
  by rewrite append_assoc.
Qed.

Lemma backup_name_free (w : env) (cid : Z) :
  has "/" (tenant_dir cid +:+ "_backup_" +:+ str (now w)) = false.
Proof.
  destruct (tenant_dir_free cid) as [_ H].
  rewrite !has_append, H, str_no_slash. reflexivity.
Qed.

(** Whether [list_codebases] lists [B] is decided by the entries of the
    base directory whose name parses to [B]. *)
Lemma list_codebases_agree (st st' : state) (B : Z) :
  base_db_dir st' = base_db_dir st →
  Os.exists_ (disk st') (base_db_dir st)
  = Os.exists_ (disk st) (base_db_dir st) →
  (∀ item, has "/" item = false →
     disk st' !! Os.path_join (base_db_dir st) item
     = disk st !! Os.path_join (base_db_dir st) item
     ∨ split "_" item !! 1%nat ≫= int10 ≠ Some B) →
  B ∈ list_codebases st' ↔ B ∈ list_codebases st.
Proof.
  intros Hb He Hitems. rewrite !elem_of_list_codebases, Hb, He.
  apply and_iff_compat_l.
  assert (∀ s s' : state,
            base_db_dir s = base_db_dir st → base_db_dir s' = base_db_dir st →
            (∀ item, has "/" item = false →
               disk s' !! Os.path_join (base_db_dir st) item
               = disk s !! Os.path_join (base_db_dir st) item
               ∨ split "_" item !! 1%nat ≫= int10 ≠ Some B) →
            (∃ item, item ∈ Os.listdir (disk s) (base_db_dir st)
                     ∧ listed_id s item = Some B) →
            ∃ item, item ∈ Os.listdir (disk s') (base_db_dir st)
                    ∧ listed_id s' item = Some B) as Hdir.
  { intros s s' Bs Bs' Hi (item & Hin & Hl). exists item.
    apply elem_of_listdir in Hin as (Hne & Hfree & Hsome).
    unfold listed_id in Hl |- *. rewrite Bs in Hl. rewrite Bs'.
    destruct (startswith "codebase_" item
              && Os.isdir (disk s) (Os.path_join (base_db_dir st) item))
      eqn:Hc; [|done].
    destruct (Hi item Hfree) as [Heq|Hno]; [|done].
    split.
    - apply elem_of_listdir. split_and!; try done. by rewrite Heq.
    - by rewrite (isdir_frame (disk s) (disk s')), Hc by done. }
  split; apply Hdir; try done.
  intros item Hfree. destruct (Hitems item Hfree); auto.
Qed.

(** X7. Deleting tenant [A] leaves every other tenant [B] as it was: the
    same handle, the same directory, the same answers to a query, and listed
    or not as before, also when [A]'s directory was only renamed. *)
Theorem delete_codebase_isolation (w : env) (st : state) (A B : Z)
    (query : string) (n : Z)
    (Hok : ok st) (HAB : A ≠ B) :
  let st' := fst (delete_codebase w st A) in
  query_codebase st' B query n = query_codebase st B query n
  ∧ collections st' !! B = collections st !! B
  ∧ disk st' !! get_db_path st' B = disk st !! get_db_path st B
  ∧ (B ∈ list_codebases st' ↔ B ∈ list_codebases st).
Proof.
  intros st'.
  destruct (delete_codebase_settled w st A) as (Hb & Hc & [Hfr _]).
  fold st' in Hb, Hc, Hfr.
  assert (collections st' !! B = collections st !! B) as HcB.
  { rewrite Hc. by apply lookup_delete_ne. }
  assert (disk st' !! get_db_path st B = disk st !! get_db_path st B) as Hd.
  { apply Hfr.
    - intros E. by apply get_db_path_inj in E.
    - intros E. symmetry in E. by apply backup_not_tenant in E. }
  split_and!; try done.
  - unfold query_codebase. rewrite HcB.
    destruct (collections st !! B) as [h|] eqn:E; [|done].
    destruct (Embedding.get_embedding query); [|done].
    pose proof (ok_handles st Hok _ _ E) as ->.
    by rewrite (read_frame (disk st') (disk st)).
  - by rewrite (get_db_path_base st st').
  - apply list_codebases_agree; [done| |].
    + unfold Os.exists_. rewrite Hfr; [done| |].
      * intros E. symmetry in E. by apply get_db_path_not_base in E.
      * intros E. symmetry in E. by apply backup_not_base in E.
    + intros item Hfree.
      destruct (decide (Os.path_join (base_db_dir st) item
                        = get_db_path st A)) as [E1|N1].
      { right. rewrite tenant_dir_path in E1.
        apply path_join_name_inj in E1;
          [|done|by destruct (tenant_dir_free A)].
        subst item.
        destruct (tenant_dir_piece A EmptyString) as (more & Hs & Hm & _).
        rewrite append_nil_r in Hs. rewrite Hs, (Hm eq_refl).
        change (("codebase"%string :: [str A]) !! 1%nat)
          with (Some (str A)).
        cbn [mbind option_bind]. rewrite int10_str. congruence. }
      destruct (decide (Os.path_join (base_db_dir st) item
                        = backup_of w (get_db_path st A))) as [E2|N2].
      { right. rewrite backup_path in E2.
        apply path_join_name_inj in E2;
          [|done|apply backup_name_free].
        subst item.
        destruct (tenant_dir_piece A ("_backup_" +:+ str (now w)))
          as (more & Hs & _ & Hm).
        rewrite Hs, (Hm _ eq_refl).
        change (("codebase"%string :: str A :: ?l) !! 1%nat)
          with (Some (str A)).
        cbn [mbind option_bind]. rewrite int10_str. congruence. }
      left. by apply Hfr.
Qed.

Lemma delete_codebase_isolation_witness :
  ok two_tenants ∧ (5 ≠ 6)%Z
  ∧ query_codebase (fst (delete_codebase locked two_tenants 5)) 6
      "where is x" 3
    = query_codebase two_tenants 6 "where is x" 3
  ∧ (6%Z ∈ list_codebases (fst (delete_codebase locked two_tenants 5))
     ↔ 6%Z ∈ list_codebases two_tenants).
Proof.
  split; [apply ok_two_tenants|]. split; [lia|].
  destruct (delete_codebase_isolation locked two_tenants 5 6 "where is x" 3
              ok_two_tenants ltac:(lia)) as (H1 & _ & _ & H4).
  split; [exact H1|exact H4].
Defined.

(** X8. When the first removal goes through, [delete_codebase] takes the
    tenant's directory away and nothing else, forgets its handle, and the
    tenant is no longer listed, provided the base directory holds under the
    names in [codebase_] only tenant directories as [get_db_path] names
    them. *)
Theorem delete_codebase_unlists (w : env) (st : state) (A : Z)
    (Hfirst : blocked w 0 = false)
    (Hdir : Os.isdir (disk st) (get_db_path st A) = true)
    (Hnames : canonical_names st) :
  let st' := fst (delete_codebase w st A) in
  snd (delete_codebase w st A) = Returned ()
  ∧ disk st' = delete (get_db_path st A) (disk st)
  ∧ collections st' !! A = None
  ∧ A ∉ list_codebases st'.
Proof.
  intros st'.
  destruct (delete_codebase_settled w st A) as (Hb & Hc & _).
  fold st' in Hb, Hc.
  assert (delete_codebase w st A
          = (st', Returned ())
            ∧ disk st' = delete (get_db_path st A) (disk st)) as [Hrun Hd].
  { unfold st', delete_codebase.
    set (sa := if decide (A ∈ dom (clients st))
               then with_clients (delete A) st else st).
    set (sb := if decide (A ∈ dom (collections sa))
               then with_collections (delete A) sa else sa).
    set (sc := emit (Sleep 500) (emit Gc_collect sb)).
    assert (base_db_dir sc = base_db_dir st ∧ disk sc = disk st)
      as (Hbc & Hdc).
    { unfold sc, sb, sa.
      destruct (decide (A ∈ dom (clients st))); cbn;
        destruct (decide _); cbn; done. }
    rewrite (get_db_path_base st sc) by done.
    rewrite Hdc, (isdir_exists _ _ Hdir).
    unfold _force_remove_directory.
    change (range 0 max_retries 1) with (Some [0; 1; 2]%Z).
    cbn [force_remove_loop]. unfold blocked in Hfirst.
    destruct (rmtree_meets w 0); [|done].
    unfold Os.isdir in Hdir. rewrite Hdc.
    destruct (disk st !! get_db_path st A) as [[|files db]|] eqn:E;
      try done.
    rewrite (rmtree_removed _ _ _ _ E). done. }
  rewrite Hrun. cbn [snd]. split_and!; try done.
  - rewrite Hc. apply lookup_delete_eq.
  - intros Hin. apply elem_of_list_codebases in Hin as (_ & item & Hi & Hl).
    rewrite Hb in Hi. apply elem_of_listdir in Hi as (Hne & Hfree & Hsome).
    rewrite Hd in Hsome.
    assert (Os.path_join (base_db_dir st) item ≠ get_db_path st A) as Hp.
    { intros E. rewrite E, lookup_delete_eq in Hsome.
      by destruct Hsome. }
    rewrite lookup_delete_ne in Hsome by done.
    assert (listed_id st item = Some A) as Hl'.
    { unfold listed_id in Hl |- *. rewrite Hb, Hd in Hl.
      rewrite (isdir_frame (delete (get_db_path st A) (disk st)) (disk st))
        by (by rewrite lookup_delete_ne). done. }
    assert (item ∈ Os.listdir (disk st) (base_db_dir st)) as Hitem
      by (by apply elem_of_listdir).
    unfold listed_id in Hl'.
    destruct (startswith "codebase_" item) eqn:Hs; [|done].
    destruct (Os.isdir (disk st) (Os.path_join (base_db_dir st) item))
      eqn:Hd'; [|done].
    destruct (Hnames item Hitem Hs Hd') as [c ->].
    pose proof (listed_id_tenant st c) as Hlc.
    rewrite tenant_dir_path, Hd' in Hlc.
    unfold listed_id in Hlc. rewrite Hs, Hd' in Hlc.
    cbn [andb] in Hl', Hlc. rewrite Hlc in Hl'. injection Hl' as ->.
    apply Hp. by rewrite tenant_dir_path.
Qed.

Lemma delete_codebase_unlists_witness :
  blocked calm 0 = false
  ∧ Os.isdir (disk populated) (get_db_path populated 5) = true
  ∧ snd (delete_codebase calm populated 5) = Returned ()
  ∧ 5%Z ∉ list_codebases (fst (delete_codebase calm populated 5)).
Proof.
  assert (Os.isdir (disk populated) (get_db_path populated 5) = true)
    as Hdir by (vm_compute; reflexivity).
  split; [reflexivity|]. split; [exact Hdir|].
  destruct (delete_codebase_unlists calm populated 5 eq_refl Hdir)
    as (H1 & _ & _ & H4).
  - intros item Hin _ _.
    assert (Os.listdir (disk populated) (base_db_dir populated)
            = [tenant_dir 5]) as E by (vm_compute; reflexivity).
    rewrite E in Hin. apply list_elem_of_singleton in Hin. by exists 5%Z.
  - split; [exact H1|exact H4].
Defined.

(** X9. The handles live in the process, the data on the disk.  A store
    object made anew over a disk that holds a tenant's collection does not
    answer a query for it ([ValueError], "not found") until something has
    opened the tenant; [get_codebase_stats] does, reports the stored count,
    and from then on the query is answered from the stored collection, as
    the store that wrote it answers. *)
Theorem query_codebase_needs_open (st : state) (cid : Z)
    (c : list Chroma.entry) (query : string) (n : Z)
    (Hok : ok st)
    (Hdata : read (disk st) (canonical st cid) = Some c)
    (Hbase : Os.isdir (disk st) (base_db_dir st) = true) :
  let fresh := init (base_db_dir st) (disk st) in
  query_codebase fresh cid query n
  = Raised (ValueError ("Codebase " +:+ str cid
                          +:+ " not found in embedding store"))
  ∧ snd (get_codebase_stats fresh cid) = (len c, true)
  ∧ (∃ v : list float,
       Embedding.get_embedding query = Some v
       ∧ query_codebase (fst (get_codebase_stats fresh cid)) cid query n
         = match Chroma.query v n c with
           | Some results => Returned results
           | None => Raised StoreError
           end)
  ∧ (is_Some (collections st !! cid) →
     query_codebase (fst (get_codebase_stats fresh cid)) cid query n
     = query_codebase st cid query n).
Proof.
  intros fresh.
  assert (∃ st2, get_client_and_collection fresh cid
                 = Returned (st2, canonical st cid)
                 ∧ collections st2 !! cid = Some (canonical st cid)
                 ∧ read (disk st2) (canonical st cid) = Some c)
    as (st2 & Hg & Hc2 & Hr2).
  { rewrite gcc_open by (cbn; by rewrite dom_empty_L).
    change (base_db_dir fresh) with (base_db_dir st).
    change (disk fresh) with (disk st).
    change (get_db_path fresh cid) with (get_db_path st cid).
    change (canonical fresh cid) with (canonical st cid).
    unfold read, canonical in Hdata. cbn [h_path h_name] in Hdata.
    destruct (disk st !! get_db_path st cid) as [[|files db]|] eqn:Ep;
      try done.
    unfold Os.isdir in Hbase.
    destruct (disk st !! base_db_dir st) as [[|bf bdb]|] eqn:Eb; try done.
    unfold Os.mkdir at 2. rewrite Eb. cbn [mbind option_bind].
    unfold Os.mkdir. rewrite Ep.
    eexists. split; [reflexivity|].
    cbn [collections disk with_collections with_clients with_disk].
    rewrite lookup_insert_eq. split; [done|].
    unfold open_collection, read, canonical. cbn [h_path h_name].
    rewrite Ep, Hdata, lookup_insert_eq. done. }
  assert (get_codebase_stats fresh cid = (st2, (len c, true))) as Hstats.
  { unfold get_codebase_stats.
    rewrite decide_False by (cbn; by rewrite dom_empty_L).
    rewrite Hg, Hc2. cbn [mbind option_bind]. by rewrite Hr2. }
  rewrite Hstats. cbn [fst snd].
  destruct (get_embedding_value query) as [Hv _].
  assert (query_codebase st2 cid query n
          = match Chroma.query
                    (Embedding.normalize
                       <$> Md5.digest (PyStr.encode query)) n c with
            | Some results => Returned results
            | None => Raised StoreError
            end) as Hq.
  { unfold query_codebase. rewrite Hc2, Hv, Hr2. reflexivity. }
  split_and!; try done.
  - eexists. split; [exact Hv|exact Hq].
  - intros [h Hh]. rewrite Hq. unfold query_codebase. rewrite Hh, Hv.
    pose proof (ok_handles st Hok _ _ Hh) as ->. rewrite Hdata.
    reflexivity.
Qed.

Lemma query_codebase_needs_open_witness :
  ok populated
  ∧ Os.isdir (disk populated) (base_db_dir populated) = true
  ∧ ∃ c : list Chroma.entry,
      read (disk populated) (canonical populated 5) = Some c
      ∧ query_codebase (init (base_db_dir populated) (disk populated)) 5
          "print" 3
        = Raised (ValueError ("Codebase " +:+ str 5
                                +:+ " not found in embedding store"))
      ∧ snd (get_codebase_stats
               (init (base_db_dir populated) (disk populated)) 5)
        = (len c, true).
Proof.
  assert (Os.isdir (disk populated) (base_db_dir populated) = true)
    as Hbase by (vm_compute; reflexivity).
  split; [apply ok_populated|]. split; [exact Hbase|].
  destruct (read (disk populated) (canonical populated 5)) as [c|] eqn:E;
    [|vm_compute in E; discriminate].
  exists c. split; [reflexivity|].
  destruct (query_codebase_needs_open populated 5 c "print" 3 ok_populated E
              Hbase) as (H1 & H2 & _).
  split; [exact H1|exact H2].
Defined.

Lemma insert_new_noop (batch c : list Chroma.entry) :
  (∀ e, e ∈ batch → Chroma.e_id e ∈ Chroma.e_id <$> c) →
  Chroma.insert_new batch c = c.
Proof.
  induction batch as [|e batch IH]; intros H; [done|]. simpl.
  rewrite decide_True by (apply H; by left).
  apply IH. intros e' He'. apply H. by right.
Qed.

Lemma insert_new_keeps (batch c : list Chroma.entry) (i : string) :
  i ∈ Chroma.e_id <$> c → i ∈ Chroma.e_id <$> Chroma.insert_new batch c.
Proof.
  revert c. induction batch as [|e batch IH]; intros c Hi; [done|]. simpl.
  destruct (decide _); apply IH; [done|].
  rewrite fmap_app. apply elem_of_app. by left.
Qed.

Lemma insert_new_ids (batch c : list Chroma.entry) (e : Chroma.entry) :
  e ∈ batch → Chroma.e_id e ∈ Chroma.e_id <$> Chroma.insert_new batch c.
Proof.
  revert c. induction batch as [|b batch IH]; intros c He.
  - by apply elem_of_nil in He.
  - simpl. apply elem_of_cons in He as [->|He].
    + destruct (decide _) as [Hin|Hout]; apply insert_new_keeps; [done|].
      rewrite fmap_app. apply elem_of_app. right. by left.
    + destruct (decide _); by apply IH.
Qed.

Lemma batch_ids_prefix (cid : Z) (X Y : list string) (i : string) :
  (length Y <= length X)%nat → i ∈ batch_ids cid Y → i ∈ batch_ids cid X.
Proof.
  unfold batch_ids. intros Hlen Hi.
  apply list_elem_of_fmap in Hi as (k & -> & Hk).
  apply list_elem_of_fmap. exists k. split; [done|].
  apply elem_of_seq in Hk. apply elem_of_seq. lia.
Qed.

(** X10. The id of a document, [doc_<id>_<i>], is made of the tenant and
    its position in the batch, so a batch added without
    [replace_existing] after a batch at least as long has every id
    taken, and the database leaves a stored id as it is: the call returns
    and reports the documents as added, and the collection holds what it
    held, none of the new documents. *)
Theorem add_documents_keeps_stored (w1 w2 : env) (st st1 : state) (cid : Z)
    (X Y : list string) (meta : option (list (gmap string Chroma.mval)))
    (repl : bool)
    (Hok : ok st) (HX : X ≠ []) (HY : Y ≠ [])
    (Hlen : (length Y <= length X)%nat)
    (Hadd : add_raises w2 = false)
    (Hfirst : add_documents w1 st cid X meta repl = (st1, Returned ())) :
  ∃ st2 : state,
    add_documents w2 st1 cid Y None false = (st2, Returned ())
    ∧ read (disk st2) (canonical st cid)
      = read (disk st1) (canonical st cid)
    ∧ Info_added (len Y) cid ∈ trace st2.
Proof.
  pose proof (add_documents_ok w1 st cid X meta repl Hok) as Hok1.
  rewrite Hfirst in Hok1. cbn [fst] in Hok1.
  destruct (add_documents_spec w1 st cid X meta repl Hok HX)
    as [(e & _ & H)
       |(st' & r & st0 & c0 & c1 & embs & H & _ & _ & _ & Hb & Hc & Hcl
         & _ & _ & _ & _ & _ & _ & Hend)];
    rewrite Hfirst in H; [done|]. injection H as <- <-.
  destruct Hend as [(_ & _ & c & Ha & Hrd)|(? & _)]; [|done].
  assert (canonical st1 cid = canonical st cid) as Hcan.
  { unfold canonical. by rewrite (get_db_path_base st st1). }
  assert (∀ i, i ∈ batch_ids cid X → i ∈ Chroma.e_id <$> c) as Hids.
  { unfold Chroma.add in Ha.
    destruct (decide _) as [(L1 & L2 & L3)|]; [|done].
    injection Ha as <-. intros i Hi.
    destruct (zip4_fields _ _ _ _ L1 L2 L3) as (E1 & _ & _).
    rewrite <- E1 in Hi. apply list_elem_of_fmap in Hi as (e & -> & He).
    by apply insert_new_ids. }
  destruct (embeddings_exist Y) as [embsY HeY].
  assert (get_client_and_collection st1 cid
          = Returned (st1, canonical st cid)) as Hg.
  { apply gcc_cached; [done|]. by rewrite Hc. }
  assert (Chroma.add (batch_ids cid Y) Y embsY (batch_metas cid Y None) c
          = Some c) as HaY.
  { unfold Chroma.add. rewrite decide_True.
    - f_equal. apply insert_new_noop. intros e He.
      apply Hids, (batch_ids_prefix cid X Y); [done|].
      destruct (zip4_fields (batch_ids cid Y) Y embsY
                  (batch_metas cid Y None)) as (E1 & _ & _).
      + unfold batch_ids. by rewrite length_fmap, length_seq.
      + apply length_mapM in HeY. unfold batch_ids.
        by rewrite length_fmap, length_seq.
      + unfold batch_ids, batch_metas. by rewrite !length_fmap.
      + rewrite <- E1. by apply list_elem_of_fmap_2.
    - unfold batch_ids, batch_metas. rewrite !length_fmap, !length_seq.
      apply length_mapM in HeY. done. }
  rewrite (add_documents_unfold _ _ _ _ _ _ _ _ _ HY Hg HeY).
  cbv beta iota. rewrite Hadd, Hrd. cbn [mbind option_bind]. rewrite HaY.
  eexists. split; [reflexivity|].
  cbn [disk trace emit with_disk]. split.
  - by apply (read_write _ _ _ c).
  - apply elem_of_app. right. by left.
Qed.

Lemma add_documents_keeps_stored_witness :
  ok (init "/db" ∅)
  ∧ add_documents calm (init "/db" ∅) 5 ["print(1)"] None true
    = (populated, Returned ())
  ∧ ∃ st2 : state,
      add_documents calm populated 5 ["print(2)"] None false
      = (st2, Returned ())
      ∧ read (disk st2) (canonical (init "/db" ∅) 5)
        = read (disk populated) (canonical (init "/db" ∅) 5)
      ∧ Info_added (len ["print(2)"%string]) 5 ∈ trace st2.
Proof.
  assert (add_documents calm (init "/db" ∅) 5 ["print(1)"] None true
          = (populated, Returned ())) as Hrun
    by (vm_compute; reflexivity).
  split; [apply ok_init|]. split; [exact Hrun|].
  exact (add_documents_keeps_stored calm calm (init "/db" ∅) populated 5
           ["print(1)"] ["print(2)"] None true (ok_init "/db")
           ltac:(done) ltac:(done) (le_n 1) eq_refl Hrun).
Defined.

End StoreLifecycle.

Section LoaderFacts.
Import Py World RepoLoader.

Lemma split_app_sep (sep : ascii) (a b : string) :
  split sep (a +:+ String sep b) = split sep a ++ split sep b.
Proof.
  induction a as [|c a IH].
  - rewrite append_nil_l. simpl. by rewrite Ascii.eqb_refl.
  - rewrite append_cons. simpl. destruct (Ascii.eqb c sep).
    + by rewrite IH.
    + rewrite IH. pose proof (split_nonempty sep a) as Hne.
      by destruct (split sep a).
Qed.

(** Whether [get_source_files] passes over a directory. *)
Lemma skipped_root (root : string) (files : list string) (part : string) :
  In part (split Os.sep root) →
  startswith "." part = true ∨ part ∈ skipped_dirs →
  existsb (startswith ".") (split Os.sep root)
  || existsb (fun part => bool_decide (part ∈ skipped_dirs))
       (split Os.sep root) = true.
Proof.
  intros Hin [Hdot|Hskip]; apply orb_true_iff; [left|right];
    apply existsb_exists; exists part; split; try done.
  by apply bool_decide_eq_true.
Qed.

(** X11. [get_source_files] looks at every component of the directory paths
    that [os.walk] yields, those of the repository's own path among them:
    when one component of the path the repository lies at starts with a dot
    or is one of the skipped directory names, no file of the repository is
    returned. *)
Theorem get_source_files_skipped_root (t : tree) (repo_path part : string)
    (Hwalk : Forall (fun entry =>
                       entry.1 = repo_path
                       ∨ ∃ sub, entry.1 = repo_path +:+ String Os.sep sub)
                    (walk t))
    (Hin : part ∈ split Os.sep repo_path)
    (Hpart : startswith "." part = true ∨ part ∈ skipped_dirs) :
  get_source_files t = [].
Proof.
  unfold get_source_files. apply flat_map_nil. intros [root files] Hentry.
  rewrite Forall_forall in Hwalk. specialize (Hwalk _ Hentry).
  cbn [fst] in Hwalk. cbv beta iota zeta.
  rewrite (skipped_root root files part); [done| |done].
  apply list_elem_of_In.
  destruct Hwalk as [->|[sub ->]]; [done|].
  rewrite split_app_sep. apply elem_of_app. by left.
Qed.

Lemma get_source_files_skipped_root_witness :
  "build"%string ∈ split Os.sep "/app/repos/build"
  ∧ "build"%string ∈ skipped_dirs
  ∧ get_source_files
      (Tree [("/app/repos/build", ["main.py"]);
             ("/app/repos/build/src", ["util.py"])]
            (fun _ => Some "x = 1"%string) 2)
    = [].
Proof.
  assert ("build"%string ∈ split Os.sep "/app/repos/build") as Hin
    by (vm_compute; repeat constructor).
  assert ("build"%string ∈ skipped_dirs) as Hskip
    by (vm_compute; repeat constructor).
  split; [exact Hin|]. split; [exact Hskip|].
  apply (get_source_files_skipped_root _ "/app/repos/build" "build");
    [|exact Hin|right; exact Hskip].
  cbn [walk]. constructor; [left; reflexivity|].
  constructor; [right; exists "src"%string; reflexivity|]. constructor.
Defined.

End LoaderFacts.

Section IngestFacts.
Import Py World RepoLoader Store.

Lemma chunk_code_nonblank (text : string) (chunks : list string) :
  Chunking.chunk_code text = inr chunks →
  Forall (fun c => strip_truthy c = true) chunks.
Proof.
  rewrite chunk_code_windows. intros [= <-].
  apply List.Forall_forall. intros c Hc.
  apply in_flat_map in Hc as (k & _ & Hc).
  unfold keep in Hc. destruct (strip_truthy _) eqn:E; [|done].
  by destruct Hc as [<-|[]].
Qed.

(** One turn of the file loop of [process_repository]. *)
Lemma process_file_step (t : tree) (chunks : list string) (recorded : Z)
    (f : string) :
  Forall (fun c => strip_truthy c = true) chunks →
  ∃ (chunks' : list string) (recorded' : Z),
    TempProcessor.process_file t (chunks, recorded) f = (chunks', recorded')
    ∧ Forall (fun c => strip_truthy c = true) chunks'
    ∧ (recorded <= recorded' <= recorded + 1)%Z.
Proof.
  intros Hc. unfold TempProcessor.process_file.
  destruct (String.eqb (read_file t f) EmptyString).
  { eexists _, _. split; [reflexivity|]. split; [done|lia]. }
  destruct (Chunking.chunk_code (read_file t f)) as [e|cs] eqn:E.
  { eexists _, _. split; [reflexivity|]. split; [done|lia]. }
  eexists _, _. split; [reflexivity|]. split; [|lia].
  apply Forall_app. split; [done|].
  by apply (chunk_code_nonblank (read_file t f)).
Qed.

(** The file loop of [process_repository]: it records no more files than
    it is given, and gathers chunks that are not blank. *)
Lemma process_files_spec (t : tree) (files : list string) :
  ∀ (chunks : list string) (recorded : Z),
    Forall (fun c => strip_truthy c = true) chunks →
    Forall (fun c => strip_truthy c = true)
           (fold_left (TempProcessor.process_file t) files
                      (chunks, recorded)).1
    ∧ (recorded
       <= (fold_left (TempProcessor.process_file t) files
                     (chunks, recorded)).2
       <= recorded + len files)%Z.
Proof.
  induction files as [|f files IH]; intros chunks recorded Hc.
  - simpl. unfold len. simpl. split; [done|lia].
  - cbn [fold_left].
    destruct (process_file_step t chunks recorded f Hc)
      as (chunks' & recorded' & -> & Hc' & Hr).
    destruct (IH chunks' recorded' Hc') as [H1 H2].
    replace (len (f :: files)) with (1 + len files)%Z
      by (unfold len; simpl length; lia).
    split; [done|lia].
Qed.

(** [process_repository] returns whenever the clone was made. *)
Lemma process_repository_returns (t : tree) (commit name : string) :
  ∃ (chunks : list string) (md : TempProcessor.metadata),
    TempProcessor.process_repository (Some (t, commit)) name
    = Returned (chunks, md, commit).
Proof.
  unfold TempProcessor.process_repository.
  destruct (fold_left _ _ _) as [[|c chunks] recorded]; eauto.
Qed.

(** X12. [process_repository] on a repository that could be cloned: it
    returns at least one chunk and the commit it was given; the metadata
    count the source files found and, among them, the files recorded; and
    either chunks were made, none of them blank, and the metadata count
    them, or none was made, the one chunk returned is the placeholder, and
    the metadata, written before the placeholder was put in, count zero
    chunks under the status [empty]. *)
Theorem process_repository_metadata (t : tree) (commit name : string) :
  ∃ (chunks : list string) (md : TempProcessor.metadata),
    TempProcessor.process_repository (Some (t, commit)) name
    = Returned (chunks, md, commit)
    ∧ chunks ≠ []
    ∧ TempProcessor.total_files md = len (get_source_files t)
    ∧ (0 <= TempProcessor.processed_files md
       <= TempProcessor.total_files md)%Z
    ∧ ((TempProcessor.status md = "empty"%string
        ∧ TempProcessor.total_chunks md = 0%Z
        ∧ chunks
          = [TempProcessor.placeholder name (top_items t)])
       ∨ (TempProcessor.status md = "processed"%string
          ∧ TempProcessor.total_chunks md = len chunks
          ∧ Forall (fun c => strip_truthy c = true) chunks)).
Proof.
  unfold TempProcessor.process_repository.
  destruct (process_files_spec t (get_source_files t) [] 0%Z)
    as [Hc Hn]; [constructor|].
  destruct (fold_left _ _ _) as [chunks recorded]. cbn [fst snd] in Hc, Hn.
  destruct chunks as [|c chunks].
  - eexists _, _. split; [reflexivity|].
    cbn [TempProcessor.total_files TempProcessor.processed_files
           TempProcessor.total_chunks TempProcessor.status].
    split_and!; try done; try lia. left. done.
  - eexists _, _. split; [reflexivity|].
    cbn [TempProcessor.total_files TempProcessor.processed_files
           TempProcessor.total_chunks TempProcessor.status].
    split_and!; try done; try lia. right. done.
Qed.

Lemma safe_docs_blank (t : tree) (files : list string) :
  Forall (fun f => blank (read_file t f) = true) files →
  Manager.safe_docs t files = inr [].
Proof.
  induction 1 as [|f files Hf Hfiles IH]; [done|].
  cbn [Manager.safe_docs]. rewrite IH.
  destruct (String.eqb _ _); [done|].
  by rewrite (chunk_code_blank _ Hf).
Qed.

Lemma process_files_blank (t : tree) (local_path : string)
    (items : list (nat * string)) acc :
  Forall (fun item => blank (read_file t item.2) = true) items →
  fold_left (Manager.process_file t local_path) items acc = acc.
Proof.
  induction 1 as [|[i f] items Hf Hitems IH]; [done|].
  cbn [fold_left]. unfold Manager.process_file at 2.
  cbn [snd] in Hf. unfold strip_truthy. rewrite Hf. exact IH.
Qed.

(** X13. A repository whose source files hold nothing but whitespace, or
    cannot be read.  The safe re-processing hands the store an empty list:
    nothing is cleared and nothing is stored, what the tenant held stays,
    and a chunk count of zero is recorded.  The first processing of the same
    tree stores the placeholder instead. *)
Theorem safe_process_blank_files (w : env) (st : state) (codebase_id : Z)
    (local_path : string) (t : tree)
    (Hfiles : get_source_files t ≠ [])
    (Hblank : Forall (fun f => blank (read_file t f) = true)
                     (get_source_files t)) :
  Manager._safe_process_codebase w st codebase_id t
  = (emit (Update_stats codebase_id (len (get_source_files t)) 0) st,
     Returned ())
  ∧ Manager._process_codebase w st codebase_id local_path t
    = match add_documents w st codebase_id [Manager.placeholder]
              (Some [Manager.placeholder_meta]) true with
      | (st1, Returned _) =>
          (emit (Update_stats codebase_id (len (get_source_files t)) 0)
             (emit (Warning_no_processable_content codebase_id) st1),
           Returned ())
      | (st1, Raised e) => (st1, Raised e)
      end.
Proof.
  split.
  - unfold Manager._safe_process_codebase.
    destruct (get_source_files t) as [|f files] eqn:E; [done|].
    rewrite (safe_docs_blank t _ Hblank). reflexivity.
  - unfold Manager._process_codebase.
    destruct (get_source_files t) as [|f files] eqn:E; [done|].
    rewrite process_files_blank.
    + destruct (add_documents _ _ _ _ _ _) as [st1 [[]|e]]; reflexivity.
    + apply Forall_forall. intros [i f'] Hin. cbn [snd].
      apply elem_of_lookup_imap in Hin as (i' & f'' & [= -> ->] & Hl).
      rewrite Forall_forall in Hblank. apply Hblank.
      by eapply list_elem_of_lookup_2.
Qed.

Lemma safe_process_blank_files_witness :
  get_source_files blank_tree ≠ []
  ∧ Manager._safe_process_codebase calm (init "/db" ∅) 5 blank_tree
    = (emit (Update_stats 5 (len (get_source_files blank_tree)) 0)
            (init "/db" ∅),
       Returned ()).
Proof.
  assert (get_source_files blank_tree ≠ []) as Hfiles
    by (vm_compute; discriminate).
  split; [exact Hfiles|].
  apply (safe_process_blank_files calm (init "/db" ∅) 5 "/repos/notes"
           blank_tree Hfiles).
  vm_compute. repeat constructor.
Defined.

End IngestFacts.

Section CatalogFacts.

Lemma find_app {A} (f : A → bool) (l : list A) (x : A) :
  List.find f (l ++ [x])
  = match List.find f l with
    | Some y => Some y
    | None => if f x then Some x else None
    end.
Proof.
  induction l as [|a l IH]; simpl; [done|].
  destruct (f a); [done|]. exact IH.
Qed.

Lemma find_none {A} (f : A → bool) (l : list A) :
  (∀ x, x ∈ l → f x = false) → List.find f l = None.
Proof.
  induction l as [|a l IH]; intros H; simpl; [done|].
  rewrite (H a) by (by left). apply IH. intros x Hx. apply H. by right.
Qed.

Lemma find_filter_keep {A} (f g : A → bool) (l : list A) :
  (∀ x, f x = true → g x = true) →
  List.find f (List.filter g l) = List.find f l.
Proof.
  intros H. induction l as [|a l IH]; simpl; [done|].
  destruct (f a) eqn:Ef.
  - rewrite (H a Ef). simpl. by rewrite Ef.
  - destruct (g a); simpl; [by rewrite Ef|done].
Qed.

Lemma find_filter_drop {A} (f g : A → bool) (l : list A) :
  (∀ x, f x = true → g x = false) →
  List.find f (List.filter g l) = None.
Proof.
  intros H. induction l as [|a l IH]; simpl; [done|].
  destruct (g a) eqn:Eg; [|done]. simpl.
  destruct (f a) eqn:Ef; [|done]. rewrite (H a Ef) in Eg. done.
Qed.

Lemma find_fmap_id {A} (f : A → bool) (h : A → A) (l : list A) :
  (∀ x, f (h x) = f x) →
  List.find f (h <$> l) = h <$> List.find f l.
Proof.
  intros H. induction l as [|a l IH]; simpl; [done|].
  rewrite H. destruct (f a); [done|]. exact IH.
Qed.

Lemma max_id_ge {A} (key : A → Z) (rows : list A) (r : A) :
  r ∈ rows → (key r <= CodebaseDatabase.max_id key rows)%Z.
Proof.
  induction rows as [|a rows IH]; intros Hr.
  - by apply elem_of_nil in Hr.
  - simpl. apply elem_of_cons in Hr as [->|Hr]; [lia|].
    specialize (IH Hr). lia.
Qed.

Lemma existsb_name (n : string) (rows : list CodebaseDatabase.codebase_row) :
  existsb (fun r => String.eqb (CodebaseDatabase.name r) n) rows = false →
  ∀ r, r ∈ rows → CodebaseDatabase.name r ≠ n.
Proof.
  intros H r Hr Hn.
  assert (existsb (fun r => String.eqb (CodebaseDatabase.name r) n) rows
          = true) as H'; [|congruence].
  apply existsb_exists. exists r. split; [by apply list_elem_of_In|].
  by apply String.eqb_eq.
Qed.

(** What a successful [add_codebase] has done. *)
Lemma add_codebase_some (now : Z) (d d' : CodebaseDatabase.db) (i : Z)
    (n u : string) (lp : option string) (desc sm : string)
    (ch : option string) (rm : option TempProcessor.metadata) :
  CodebaseDatabase.add_codebase now d n u lp desc sm ch rm = (d', Some i) →
  (∀ r, r ∈ CodebaseDatabase.codebases d →
        CodebaseDatabase.name r ≠ n ∧ (CodebaseDatabase.id r < i)%Z)
  ∧ (CodebaseDatabase.codebases_seq d < i)%Z
  ∧ CodebaseDatabase.codebases_seq d' = i
  ∧ CodebaseDatabase.get_codebase d' i
    = Some (fresh_row now i n u lp desc sm ch rm)
  ∧ CodebaseDatabase.get_codebase_by_name d' n
    = Some (fresh_row now i n u lp desc sm ch rm)
  ∧ (∀ j, j ≠ i →
          CodebaseDatabase.get_codebase d' j
          = CodebaseDatabase.get_codebase d j)
  ∧ CodebaseDatabase.chat_history d' = CodebaseDatabase.chat_history d.
Proof.
  unfold CodebaseDatabase.add_codebase.
  destruct (existsb _ _) eqn:E; [done|]. intros [= <- <-].
  pose proof (existsb_name _ _ E) as Hnames.
  set (i := (Z.max (CodebaseDatabase.codebases_seq d)
               (CodebaseDatabase.max_id CodebaseDatabase.id
                  (CodebaseDatabase.codebases d)) + 1)%Z).
  assert (∀ r, r ∈ CodebaseDatabase.codebases d →
               (CodebaseDatabase.id r < i)%Z) as Hids.
  { intros r Hr. pose proof (max_id_ge CodebaseDatabase.id _ _ Hr).
    unfold i. lia. }
  split_and!; try done.
  - intros r Hr. split; [by apply Hnames|by apply Hids].
  - unfold i. lia.
  - unfold CodebaseDatabase.get_codebase.
    cbn [CodebaseDatabase.codebases]. rewrite find_app, find_none.
    + cbn [CodebaseDatabase.id]. by rewrite Z.eqb_refl.
    + intros r Hr. specialize (Hids r Hr). lia.
  - unfold CodebaseDatabase.get_codebase_by_name.
    cbn [CodebaseDatabase.codebases]. rewrite find_app, find_none.
    + cbn [CodebaseDatabase.name]. by rewrite String.eqb_refl.
    + intros r Hr. apply String.eqb_neq. by apply Hnames.
  - intros j Hj. unfold CodebaseDatabase.get_codebase.
    cbn [CodebaseDatabase.codebases]. rewrite find_app.
    destruct (List.find _ (CodebaseDatabase.codebases d)); [done|].
    cbn [CodebaseDatabase.id].
    destruct (Z.eqb_spec i j); [congruence|done].
Qed.

(** An [add_codebase] that failed found the name taken and wrote
    nothing. *)
Lemma add_codebase_none (now : Z) (d d' : CodebaseDatabase.db)
    (n u : string) (lp : option string) (desc sm : string)
    (ch : option string) (rm : option TempProcessor.metadata) :
  CodebaseDatabase.add_codebase now d n u lp desc sm ch rm = (d', None) →
  d' = d
  ∧ ∃ r, r ∈ CodebaseDatabase.codebases d ∧ CodebaseDatabase.name r = n.
Proof.
  unfold CodebaseDatabase.add_codebase.
  destruct (existsb _ _) eqn:E; [|done]. intros [= <-]. split; [done|].
  apply existsb_exists in E as (r & Hr & Hn).
  exists r. split; [by apply list_elem_of_In|]. by apply String.eqb_eq.
Qed.

(** X14. [add_codebase] and the look-ups of the catalog.  When no row has
    the name, the call returns an id above every id in the table, and
    [get_codebase] under the id and [get_codebase_by_name] under the name
    hand out the row just written, its counts zero, its storage mode [local]
    if it was given empty; every other id looks up as before. When a row has
    the name the call fails ([ValueError]) and the tables are as they were.
    *)
Theorem catalog_add_get (now : Z) (d : CodebaseDatabase.db) (n u : string)
    (lp : option string) (desc sm : string) (ch : option string)
    (rm : option TempProcessor.metadata) :
  match CodebaseDatabase.add_codebase now d n u lp desc sm ch rm with
  | (d', Some i) =>
      (∀ r, r ∈ CodebaseDatabase.codebases d →
            CodebaseDatabase.name r ≠ n ∧ (CodebaseDatabase.id r < i)%Z)
      ∧ (CodebaseDatabase.codebases_seq d < i)%Z
      ∧ CodebaseDatabase.codebases_seq d' = i
      ∧ CodebaseDatabase.get_codebase d' i
        = Some (fresh_row now i n u lp desc sm ch rm)
      ∧ CodebaseDatabase.get_codebase_by_name d' n
        = Some (fresh_row now i n u lp desc sm ch rm)
      ∧ (∀ j, j ≠ i →
              CodebaseDatabase.get_codebase d' j
              = CodebaseDatabase.get_codebase d j)
      ∧ CodebaseDatabase.chat_history d' = CodebaseDatabase.chat_history d
  | (d', None) =>
      d' = d
      ∧ ∃ r, r ∈ CodebaseDatabase.codebases d ∧ CodebaseDatabase.name r = n
  end.
Proof.
  destruct (CodebaseDatabase.add_codebase now d n u lp desc sm ch rm)
    as [d' [i|]] eqn:E.
  - exact (add_codebase_some _ _ _ _ _ _ _ _ _ _ _ E).
  - exact (add_codebase_none _ _ _ _ _ _ _ _ _ _ E).
Qed.

Lemma get_codebase_deleted (d : CodebaseDatabase.db) (i : Z) :
  CodebaseDatabase.get_codebase (CodebaseDatabase.delete_codebase d i) i
  = None.
Proof.
  unfold CodebaseDatabase.get_codebase, CodebaseDatabase.delete_codebase.
  cbn [CodebaseDatabase.codebases].
  rewrite find_filter_drop; [done|]. intros r Hr. by rewrite Hr.
Qed.

Lemma get_codebase_delete_ne (d : CodebaseDatabase.db) (i j : Z) :
  j ≠ i →
  CodebaseDatabase.get_codebase (CodebaseDatabase.delete_codebase d i) j
  = CodebaseDatabase.get_codebase d j.
Proof.
  intros Hj.
  unfold CodebaseDatabase.get_codebase, CodebaseDatabase.delete_codebase.
  cbn [CodebaseDatabase.codebases].
  rewrite find_filter_keep; [done|]. intros r Hr.
  apply Z.eqb_eq in Hr. apply negb_true_iff, Z.eqb_neq. congruence.
Qed.

(** X16. [delete_codebase] of the catalog takes away the row of the id and
    the chat entries of the id, and nothing else: every other row looks up
    as before, the chat entries of other ids stay, and the id counter is not
    moved back. *)
Theorem catalog_delete (d : CodebaseDatabase.db) (i : Z) :
  CodebaseDatabase.get_codebase (CodebaseDatabase.delete_codebase d i) i
  = None
  ∧ (∀ j, j ≠ i →
          CodebaseDatabase.get_codebase
            (CodebaseDatabase.delete_codebase d i) j
          = CodebaseDatabase.get_codebase d j)
  ∧ (∀ c, c ∈ CodebaseDatabase.chat_history
                (CodebaseDatabase.delete_codebase d i)
          ↔ c ∈ CodebaseDatabase.chat_history d
            ∧ CodebaseDatabase.codebase_id c ≠ i)
  ∧ CodebaseDatabase.codebases_seq (CodebaseDatabase.delete_codebase d i)
    = CodebaseDatabase.codebases_seq d.
Proof.
  split; [apply get_codebase_deleted|].
  split; [intros j; apply get_codebase_delete_ne|].
  split; [|done].
  intros c. unfold CodebaseDatabase.delete_codebase.
  cbn [CodebaseDatabase.chat_history].
  rewrite !list_elem_of_In, filter_In.
  rewrite negb_true_iff, Z.eqb_neq. done.
Qed.

End CatalogFacts.

Section ManagerFacts.
Import World.

Ltac manager_cbn :=
  unfold CodebaseManager.local_disk, CodebaseManager.with_local_disk,
    CodebaseManager.with_store, CodebaseManager.with_db,
    CodebaseManager.with_current, Store.with_disk;
  cbn [fst snd CodebaseManager.db CodebaseManager.embedding_store
         CodebaseManager.current_codebase_id
         Store.collections Store.disk].

Lemma rmtree_true (o : Os.rm_outcome) (path : string)
    (d d' : gmap string Os.node) :
  Os.rmtree o path d = (d', true) → d' = delete path d.
Proof.
  unfold Os.rmtree. destruct (d !! path) as [[|files db]|]; try done.
  destruct o; [|done]. by intros [= <-].
Qed.

Lemma exists_false (d : gmap string Os.node) (p : string) :
  Os.exists_ d p = false → d !! p = None.
Proof.
  unfold Os.exists_. intros H. apply bool_decide_eq_false in H.
  destruct (d !! p); [|done]. exfalso. apply H. eauto.
Qed.

Lemma get_codebase_local_path (d : CodebaseDatabase.db) (i : Z)
    (row : CodebaseDatabase.codebase_row) :
  CodebaseDatabase.get_codebase d i = Some row →
  CodebaseDatabase.id row = i.
Proof.
  unfold CodebaseDatabase.get_codebase.
  destruct (List.find _ _) as [r|] eqn:E; [|done].
  intros [= <-]. apply find_some in E as [_ E]. simpl.
  by apply Z.eqb_eq in E.
Qed.

(** The ways through [delete_codebase] of the manager. *)
Lemma delete_codebase_cases (w : CodebaseManager.env)
    (m : CodebaseManager.state) (i : Z)
    (row : CodebaseDatabase.codebase_row) :
  CodebaseDatabase.get_codebase (CodebaseManager.db m) i = Some row →
  let m' := (CodebaseManager.delete_codebase w m i).1 in
  let answer := (CodebaseManager.delete_codebase w m i).2 in
  CodebaseDatabase.get_codebase (CodebaseManager.db m') i = None
  ∧ (∀ j, j ≠ i →
          CodebaseDatabase.get_codebase (CodebaseManager.db m') j
          = CodebaseDatabase.get_codebase (CodebaseManager.db m) j)
  ∧ Store.collections (CodebaseManager.embedding_store m') !! i = None
  ∧ (CodebaseDatabase.local_path row = None → answer = false)
  ∧ (answer = true →
     ∃ lp, CodebaseDatabase.local_path row = Some lp
           ∧ CodebaseManager.local_disk m' !! lp = None
           ∧ CodebaseManager.current_codebase_id m'
             = if bool_decide (CodebaseManager.current_codebase_id m
                               = Some i)
               then None else CodebaseManager.current_codebase_id m)
  ∧ (answer = false →
     CodebaseManager.current_codebase_id m'
     = CodebaseManager.current_codebase_id m).
Proof.
  intros Hrow m' answer. unfold m', answer. clear m' answer.
  unfold CodebaseManager.delete_codebase. rewrite Hrow.
  pose proof (get_codebase_deleted (CodebaseManager.db m) i) as D1.
  pose proof (get_codebase_delete_ne (CodebaseManager.db m) i) as D2.
  pose proof (delete_codebase_settled (CodebaseManager.store_env w)
                (CodebaseManager.embedding_store m) i) as (_ & Hc & _).
  cbn [CodebaseManager.embedding_store CodebaseManager.with_db].
  destruct (Store.delete_codebase _ _ i) as [s [[]|e]];
    cbn [fst] in Hc.
  2: { manager_cbn. rewrite Hc, lookup_delete_eq. split_and!; try done. }
  destruct (CodebaseDatabase.local_path row) as [lp|] eqn:Elp.
  2: { manager_cbn. rewrite Hc, lookup_delete_eq. split_and!; try done. }
  manager_cbn.
  destruct (if Os.exists_ (Store.disk s) lp
            then Os.rmtree (CodebaseManager.local_rmtree_meets w 0) lp
                           (Store.disk s)
            else (Store.disk s, true)) as [d ok] eqn:Erm.
  destruct ok.
  - assert (d !! lp = None) as Hgone.
    { destruct (Os.exists_ (Store.disk s) lp) eqn:Eex.
      - apply rmtree_true in Erm as ->. apply lookup_delete_eq.
      - injection Erm as <-. by apply exists_false. }
    manager_cbn.
    destruct (bool_decide_reflect
                (CodebaseManager.current_codebase_id m = Some i)) as [Ec|Ec];
      manager_cbn; rewrite Hc, lookup_delete_eq; split_and!; try done;
      intros _; exists lp; split_and!; done.
  - manager_cbn. rewrite Hc, lookup_delete_eq. split_and!; try done.
Qed.

(** X17. [delete_codebase] of the manager, for an id the catalog knows. The
    row is deleted first and stays deleted whatever the call answers, the
    store has let go of the tenant's handle, the id cannot be selected any
    more, and a selection of it reads as none.  The answer is [True] only if
    the row had a local path and that path is gone in the end; a row without
    a local path, as the temporary mode writes it, always gets [False],
    because [os.path.exists(None)] raises.  The field [current_codebase_id]
    is reset only on [True]. *)
Theorem manager_delete_codebase (w : CodebaseManager.env)
    (m : CodebaseManager.state) (i : Z)
    (row : CodebaseDatabase.codebase_row)
    (Hrow : CodebaseDatabase.get_codebase (CodebaseManager.db m) i
            = Some row) :
  let m' := (CodebaseManager.delete_codebase w m i).1 in
  let answer := (CodebaseManager.delete_codebase w m i).2 in
  CodebaseDatabase.get_codebase (CodebaseManager.db m') i = None
  ∧ (∀ j, j ≠ i →
          CodebaseDatabase.get_codebase (CodebaseManager.db m') j
          = CodebaseDatabase.get_codebase (CodebaseManager.db m) j)
  ∧ Store.collections (CodebaseManager.embedding_store m') !! i = None
  ∧ CodebaseManager.switch_codebase m' i = (m', false)
  ∧ (CodebaseManager.current_codebase_id m = Some i →
     CodebaseManager.get_current_codebase m' = None)
  ∧ (CodebaseDatabase.local_path row = None → answer = false)
  ∧ (answer = true →
     ∃ lp, CodebaseDatabase.local_path row = Some lp
           ∧ CodebaseManager.local_disk m' !! lp = None
           ∧ CodebaseManager.current_codebase_id m' ≠ Some i)
  ∧ (answer = false →
     CodebaseManager.current_codebase_id m'
     = CodebaseManager.current_codebase_id m).
Proof.
  intros m' answer.
  destruct (delete_codebase_cases w m i row Hrow)
    as (Hnone & Hother & Hcoll & Hnolp & Htrue & Hfalse).
  fold m' in Hnone, Hother, Hcoll, Htrue, Hfalse.
  fold answer in Hnolp, Htrue, Hfalse.
  split_and!; try done.
  - unfold CodebaseManager.switch_codebase. by rewrite Hnone.
  - intros Hcur. unfold CodebaseManager.get_current_codebase.
    destruct answer.
    + destruct (Htrue eq_refl) as (lp & _ & _ & ->).
      by rewrite bool_decide_eq_true_2.
    + rewrite (Hfalse eq_refl), Hcur. by destruct (Z.eqb i 0).
  - intros Ha. destruct (Htrue Ha) as (lp & Hlp & Hgone & ->).
    exists lp. split_and!; try done.
    destruct (bool_decide_reflect
                (CodebaseManager.current_codebase_id m = Some i)); done.
Qed.

Lemma manager_delete_codebase_witness :
  CodebaseDatabase.get_codebase (CodebaseManager.db one_local) 1
  = Some one_local_row
  ∧ CodebaseDatabase.get_codebase
      (CodebaseManager.db (CodebaseManager.delete_codebase quiet one_local 1).1)
      1
    = None
  ∧ CodebaseManager.get_current_codebase
      (CodebaseManager.delete_codebase quiet one_local 1).1
    = None.
Proof.
  split; [reflexivity|].
  destruct (manager_delete_codebase quiet one_local 1 one_local_row eq_refl)
    as (H1 & _ & _ & _ & H5 & _).
  split; [exact H1|exact (H5 eq_refl)].
Defined.

Lemma get_codebase_update_stats (now : Z) (d : CodebaseDatabase.db)
    (i j fc cc : Z) :
  CodebaseDatabase.get_codebase
    (CodebaseDatabase.update_codebase_stats now d i fc cc) j
  = (fun r => if Z.eqb (CodebaseDatabase.id r) i
              then with_counts now fc cc r else r)
      <$> CodebaseDatabase.get_codebase d j.
Proof.
  unfold CodebaseDatabase.get_codebase,
    CodebaseDatabase.update_codebase_stats.
  cbn [CodebaseDatabase.codebases]. rewrite find_fmap_id.
  - destruct (List.find _ _) as [r|]; [|done]. simpl.
    destruct (Z.eqb _ i); reflexivity.
  - intros r. by destruct (Z.eqb (CodebaseDatabase.id r) i).
Qed.

(** X18. A codebase added in the temporary mode has a row without a local
    path, which carries the commit and the counts of what was processed; so
    [reprocess_codebase] on it raises [TypeError] instead of answering, and
    [delete_codebase] on it answers [False] although it has deleted the row.
    *)
Theorem temporary_codebase_no_local_path (w : CodebaseManager.env)
    (m m1 : CodebaseManager.state) (name url description : string)
    (cloned : option (RepoLoader.tree * string)) (i : Z)
    (Hadd : CodebaseManager._add_codebase_temp w m name url description
              cloned
            = (m1, CodebaseManager.Returned i)) :
  (∃ (row : CodebaseDatabase.codebase_row) (chunks : list string)
     (md : TempProcessor.metadata) (commit : string),
     TempProcessor.process_repository cloned name
     = Returned (chunks, md, commit)
     ∧ CodebaseDatabase.get_codebase (CodebaseManager.db m1) i = Some row
     ∧ CodebaseDatabase.local_path row = None
     ∧ CodebaseDatabase.storage_mode row = "temporary"%string
     ∧ CodebaseDatabase.commit_hash row = Some commit
     ∧ CodebaseDatabase.file_count row = TempProcessor.processed_files md
     ∧ CodebaseDatabase.chunk_count row = Py.len chunks)
  ∧ (∀ w' t,
       CodebaseManager.reprocess_codebase w' m1 i t
       = (m1, CodebaseManager.Raised CodebaseManager.TypeError))
  ∧ (∀ w',
       (CodebaseManager.delete_codebase w' m1 i).2 = false
       ∧ CodebaseDatabase.get_codebase
           (CodebaseManager.db (CodebaseManager.delete_codebase w' m1 i).1)
           i
         = None).
Proof.
  unfold CodebaseManager._add_codebase_temp in Hadd.
  destruct (TempProcessor.process_repository cloned name)
    as [[[chunks md] commit]|e] eqn:Ep; [|done].
  destruct (CodebaseDatabase.add_codebase _ _ _ _ _ _ _ _ _)
    as [d [i'|]] eqn:Ea; [|done].
  destruct (add_codebase_some _ _ _ _ _ _ _ _ _ _ _ Ea)
    as (_ & _ & _ & Hget & _).
  cbn [CodebaseManager.embedding_store CodebaseManager.with_db] in Hadd.
  destruct (Store.add_documents _ _ i' chunks None true) as [s [[]|e]];
    [|done].
  injection Hadd as Hm <-.
  assert (CodebaseDatabase.get_codebase (CodebaseManager.db m1) i'
          = Some (with_counts (CodebaseManager.db_now w)
                    (TempProcessor.processed_files md) (Py.len chunks)
                    (fresh_row (CodebaseManager.db_now w) i' name url None
                       description "temporary" (Some commit) (Some md))))
    as Hrow.
  { rewrite <- Hm.
    cbn [CodebaseManager.db CodebaseManager.with_db
           CodebaseManager.with_store].
    rewrite get_codebase_update_stats, Hget. simpl.
    by rewrite Z.eqb_refl. }
  clear Hm.
  split_and!.
  - eexists _, chunks, md, commit. split; [done|]. split; [exact Hrow|].
    done.
  - intros w' t. unfold CodebaseManager.reprocess_codebase.
    by rewrite Hrow.
  - intros w'.
    destruct (delete_codebase_cases w' _ i' _ Hrow)
      as (Hnone & _ & _ & Hfalse & _).
    split; [by apply Hfalse|exact Hnone].
Qed.

Lemma temporary_codebase_no_local_path_witness :
  let m1 := (CodebaseManager._add_codebase_temp quiet new_manager "demo"
               "https://example.org/demo.git" EmptyString
               (Some (picture_only, "0a1b2c3"%string))).1 in
  CodebaseManager._add_codebase_temp quiet new_manager "demo"
    "https://example.org/demo.git" EmptyString
    (Some (picture_only, "0a1b2c3"%string))
  = (m1, CodebaseManager.Returned 1%Z)
  ∧ (CodebaseManager.delete_codebase quiet m1 1).2 = false
  ∧ CodebaseManager.reprocess_codebase quiet m1 1 picture_only
    = (m1, CodebaseManager.Raised CodebaseManager.TypeError).
Proof.
  intros m1.
  assert (CodebaseManager._add_codebase_temp quiet new_manager "demo"
            "https://example.org/demo.git" EmptyString
            (Some (picture_only, "0a1b2c3"%string))
          = (m1, CodebaseManager.Returned 1%Z)) as Hadd
    by (vm_compute; reflexivity).
  split; [exact Hadd|].
  destruct (temporary_codebase_no_local_path quiet new_manager m1 "demo"
              "https://example.org/demo.git" EmptyString
              (Some (picture_only, "0a1b2c3"%string)) 1 Hadd)
    as (_ & H2 & H3).
  split; [exact (proj1 (H3 quiet))|exact (H2 quiet picture_only)].
Defined.

(** X19. A temporary add that fails in the store leaves the catalog row it
    had written: the name stays taken, with counts of zero, and adding the
    codebase again under this name fails with the [ValueError] of a taken
    name, after the repository has been cloned and processed once more. *)
Theorem add_codebase_temp_keeps_row (w : CodebaseManager.env)
    (m m1 : CodebaseManager.state) (name url description : string)
    (cloned : option (RepoLoader.tree * string)) (e : World.exn)
    (Hcloned : is_Some cloned)
    (Hfail : CodebaseManager._add_codebase_temp w m name url description
               cloned
             = (m1, CodebaseManager.Raised (CodebaseManager.Of_store e))) :
  (∃ row : CodebaseDatabase.codebase_row,
     CodebaseDatabase.get_codebase_by_name (CodebaseManager.db m1) name
     = Some row
     ∧ CodebaseDatabase.storage_mode row = "temporary"%string
     ∧ CodebaseDatabase.file_count row = 0%Z
     ∧ CodebaseDatabase.chunk_count row = 0%Z)
  ∧ ∀ (w' : CodebaseManager.env) (url' description' : string)
      (cloned' : option (RepoLoader.tree * string)),
      is_Some cloned' →
      CodebaseManager._add_codebase_temp w' m1 name url' description'
        cloned'
      = (m1, CodebaseManager.Raised (CodebaseManager.ValueError_exists name)).
Proof.
  destruct Hcloned as [[t commit] ->].
  unfold CodebaseManager._add_codebase_temp in Hfail.
  destruct (process_repository_returns t commit name)
    as (chunks & md & Hp).
  rewrite Hp in Hfail.
  destruct (CodebaseDatabase.add_codebase _ _ _ _ _ _ _ _ _)
    as [d [i'|]] eqn:Ea; [|done].
  destruct (add_codebase_some _ _ _ _ _ _ _ _ _ _ _ Ea)
    as (_ & _ & _ & _ & Hname & _).
  cbn [CodebaseManager.embedding_store CodebaseManager.with_db] in Hfail.
  destruct (Store.add_documents _ _ i' chunks None true) as [s [[]|e']];
    [done|].
  injection Hfail as <- _.
  cbn [CodebaseManager.db CodebaseManager.with_db
         CodebaseManager.with_store].
  split.
  - eexists. split; [exact Hname|]. done.
  - intros w' url' description' cloned' [[t' commit'] ->].
    unfold CodebaseManager._add_codebase_temp.
    destruct (process_repository_returns t' commit' name)
      as (chunks' & md' & Hp').
    rewrite Hp'.
    cbn [CodebaseManager.db CodebaseManager.with_db
           CodebaseManager.with_store].
    destruct (CodebaseDatabase.add_codebase _ d _ _ _ _ _ _ _)
      as [d' [j|]] eqn:Ea'; [|done].
    destruct (add_codebase_some _ _ _ _ _ _ _ _ _ _ _ Ea') as (Hfree & _).
    unfold CodebaseDatabase.get_codebase_by_name in Hname.
    destruct (List.find _ (CodebaseDatabase.codebases d)) as [r|] eqn:Ef;
      [|done].
    apply find_some in Ef as [Hin Hn]. apply String.eqb_eq in Hn.
    apply list_elem_of_In in Hin. by destruct (Hfree r Hin).
Qed.

Lemma add_codebase_temp_keeps_row_witness :
  let m1 := (CodebaseManager._add_codebase_temp store_add_fails new_manager
               "demo" "https://example.org/demo.git" EmptyString
               (Some (picture_only, "0a1b2c3"%string))).1 in
  CodebaseManager._add_codebase_temp store_add_fails new_manager "demo"
    "https://example.org/demo.git" EmptyString
    (Some (picture_only, "0a1b2c3"%string))
  = (m1, CodebaseManager.Raised (CodebaseManager.Of_store StoreError))
  ∧ CodebaseManager._add_codebase_temp quiet m1 "demo"
      "https://example.org/demo.git" EmptyString
      (Some (picture_only, "0a1b2c3"%string))
    = (m1, CodebaseManager.Raised (CodebaseManager.ValueError_exists "demo")).
Proof.
  intros m1.
  assert (CodebaseManager._add_codebase_temp store_add_fails new_manager
            "demo" "https://example.org/demo.git" EmptyString
            (Some (picture_only, "0a1b2c3"%string))
          = (m1, CodebaseManager.Raised (CodebaseManager.Of_store StoreError)))
    as Hfail by (vm_compute; reflexivity).
  split; [exact Hfail|].
  destruct (add_codebase_temp_keeps_row store_add_fails new_manager m1 "demo"
              "https://example.org/demo.git" EmptyString
              (Some (picture_only, "0a1b2c3"%string)) StoreError
              (mk_is_Some _ _ eq_refl) Hfail) as (_ & H2).
  exact (H2 quiet "https://example.org/demo.git" EmptyString
           (Some (picture_only, "0a1b2c3"%string))
           (mk_is_Some _ _ eq_refl)).
Defined.

Lemma get_codebase_update_commit (now : Z) (d : CodebaseDatabase.db)
    (i j : Z) (ch : string) (md : TempProcessor.metadata) :
  CodebaseDatabase.get_codebase
    (CodebaseDatabase.update_commit now d i ch md) j
  = (fun r => if Z.eqb (CodebaseDatabase.id r) i
              then with_commit now ch md r else r)
      <$> CodebaseDatabase.get_codebase d j.
Proof.
  unfold CodebaseDatabase.get_codebase, CodebaseDatabase.update_commit.
  cbn [CodebaseDatabase.codebases]. rewrite find_fmap_id.
  - destruct (List.find _ _) as [r|]; [|done]. simpl.
    destruct (Z.eqb _ i); reflexivity.
  - intros r. by destruct (Z.eqb (CodebaseDatabase.id r) i).
Qed.

(** X20. [_refresh_temp_codebase] is not all-or-nothing.  Once the
    repository has been processed again the row gets the new commit and
    metadata at once; the counts follow only if the store took the new
    chunks, and then the answer is [True].  If the store raises, the answer
    is [False] and the row keeps the new commit beside the counts of the
    processing before.  No other row changes, and the selection stays. *)
Theorem refresh_temp_codebase_row (w : CodebaseManager.env)
    (m : CodebaseManager.state) (i : Z)
    (row : CodebaseDatabase.codebase_row)
    (cloned : option (RepoLoader.tree * string))
    (chunks : list string) (md : TempProcessor.metadata) (commit : string)
    (Hrow : CodebaseDatabase.get_codebase (CodebaseManager.db m) i
            = Some row)
    (Hproc : TempProcessor.process_repository cloned
               (CodebaseDatabase.name row)
             = Returned (chunks, md, commit)) :
  let m' := (CodebaseManager._refresh_temp_codebase w m i cloned).1 in
  let answer := (CodebaseManager._refresh_temp_codebase w m i cloned).2 in
  let added :=
    Store.add_documents (CodebaseManager.store_env w)
      (CodebaseManager.embedding_store m) i chunks None true in
  CodebaseManager.embedding_store m' = added.1
  ∧ (answer = true ↔ added.2 = Returned ())
  ∧ CodebaseDatabase.get_codebase (CodebaseManager.db m') i
    = Some (if answer
            then with_counts (CodebaseManager.db_now w)
                   (TempProcessor.processed_files md) (Py.len chunks)
                   (with_commit (CodebaseManager.db_now w) commit md row)
            else with_commit (CodebaseManager.db_now w) commit md row)
  ∧ (∀ j, j ≠ i →
          CodebaseDatabase.get_codebase (CodebaseManager.db m') j
          = CodebaseDatabase.get_codebase (CodebaseManager.db m) j)
  ∧ CodebaseManager.current_codebase_id m'
    = CodebaseManager.current_codebase_id m.
Proof.
  intros m' answer added. unfold m', answer, added. clear m' answer added.
  pose proof (get_codebase_local_path _ _ _ Hrow) as Hid.
  unfold CodebaseManager._refresh_temp_codebase. rewrite Hrow, Hproc.
  cbn [CodebaseManager.embedding_store CodebaseManager.with_db].
  destruct (Store.add_documents _ _ i chunks None true) as [s [[]|e]];
    manager_cbn.
  - rewrite get_codebase_update_stats, get_codebase_update_commit, Hrow.
    simpl. rewrite Hid, Z.eqb_refl.
    change (CodebaseDatabase.id (with_commit _ _ _ row))
      with (CodebaseDatabase.id row).
    rewrite Hid, Z.eqb_refl. split_and!; try done.
    intros j Hj.
    rewrite get_codebase_update_stats, get_codebase_update_commit.
    destruct (CodebaseDatabase.get_codebase (CodebaseManager.db m) j)
      as [r|] eqn:Er; [|done].
    pose proof (get_codebase_local_path _ _ _ Er) as Hr. simpl.
    destruct (Z.eqb_spec (CodebaseDatabase.id r) i) as [E|N];
      [congruence|].
    simpl. by destruct (Z.eqb_spec (CodebaseDatabase.id r) i).
  - rewrite get_codebase_update_commit, Hrow.
    simpl. rewrite Hid, Z.eqb_refl. split_and!; try done.
    intros j Hj. rewrite get_codebase_update_commit.
    destruct (CodebaseDatabase.get_codebase (CodebaseManager.db m) j)
      as [r|] eqn:Er; [|done].
    pose proof (get_codebase_local_path _ _ _ Er) as Hr. simpl.
    by destruct (Z.eqb_spec (CodebaseDatabase.id r) i) as [E|N];
      [congruence|].
Qed.

Lemma refresh_temp_codebase_row_witness :
  let m1 := (CodebaseManager._add_codebase_temp quiet new_manager "demo"
               "https://example.org/demo.git" EmptyString
               (Some (picture_only, "0a1b2c3"%string))).1 in
  ∃ (row : CodebaseDatabase.codebase_row) (chunks : list string)
    (md : TempProcessor.metadata),
    CodebaseDatabase.get_codebase (CodebaseManager.db m1) 1 = Some row
    ∧ TempProcessor.process_repository
        (Some (picture_only, "4d5e6f7"%string)) (CodebaseDatabase.name row)
      = Returned (chunks, md, "4d5e6f7"%string)
    ∧ CodebaseDatabase.get_codebase
        (CodebaseManager.db
           (CodebaseManager._refresh_temp_codebase store_add_fails m1 1
              (Some (picture_only, "4d5e6f7"%string))).1) 1
      = Some (if (CodebaseManager._refresh_temp_codebase store_add_fails m1
                    1 (Some (picture_only, "4d5e6f7"%string))).2
              then with_counts (CodebaseManager.db_now store_add_fails)
                     (TempProcessor.processed_files md) (Py.len chunks)
                     (with_commit (CodebaseManager.db_now store_add_fails)
                        "4d5e6f7" md row)
              else with_commit (CodebaseManager.db_now store_add_fails)
                     "4d5e6f7" md row).
Proof.
  intros m1.
  destruct (CodebaseDatabase.get_codebase (CodebaseManager.db m1) 1)
    as [row|] eqn:Hrow; [|vm_compute in Hrow; discriminate].
  destruct (process_repository_returns picture_only "4d5e6f7"
              (CodebaseDatabase.name row)) as (chunks & md & Hproc).
  exists row, chunks, md. split; [reflexivity|]. split; [exact Hproc|].
  destruct (refresh_temp_codebase_row store_add_fails m1 1 row
              (Some (picture_only, "4d5e6f7"%string)) chunks md "4d5e6f7"
              Hrow Hproc) as (_ & _ & H3 & _).
  exact H3.
Defined.



End ManagerFacts.

Section TempDirectory.
Import World.





End TempDirectory.

Section CleanupFacts.
Import Py World.

Lemma cleanup_stretch_trans path backup st1 st2 st3 c1 c2 s1 s2 k1 k2 m1 m2 :
  cleanup_stretch path backup st1 st2 c1 s1 k1 m1 →
  cleanup_stretch path backup st2 st3 c2 s2 k2 m2 →
  cleanup_stretch path backup st1 st3 (c1 ++ c2) (s1 ++ s2) (k1 ++ k2)
                  (m1 ++ m2).
Proof.
  intros (A1 & A2 & A3 & A4 & A5) (B1 & B2 & B3 & B4 & B5).
  split_and!.
  - by rewrite B1, A1, app_assoc.
  - by rewrite B2, A2, app_assoc.
  - by rewrite B3, A3, app_assoc.
  - by rewrite B4, A4, app_assoc.
  - intros p H1 H2. by rewrite B5, A5.
Qed.

Lemma cleanup_backup_differs (w : Cleanup.env) (path : string) :
  cleanup_backup w path ≠ path.
Proof.
  unfold cleanup_backup, Cleanup.sibling.
  destruct (String.eqb_spec path ".") as [->|_]; [done|].
  intros E. apply (f_equal String.length) in E.
  rewrite length_append in E. simpl in E. lia.
Qed.

Ltac cleanup_tac :=
  unfold cleanup_stretch, cleanup_calls, cleanup_sleeps, cleanup_kills,
    cleanup_moves; simpl;
  rewrite ?omap_app; simpl;
  rewrite <- ?app_assoc; simpl; rewrite ?app_nil_r;
  split_and!; try done;
  intros ? ? ?;
  repeat first [ rewrite lookup_delete_ne by congruence
               | rewrite lookup_insert_ne by congruence ];
  reflexivity.

Section Rounds.
Context (w : Cleanup.env) (path : string)
        (db : gmap string Chroma.collection).

Let backup := cleanup_backup w path.

(** A round before the last, the process-killing helper not raising in
    it: a plain [rmtree], a wait of [2 ** attempt] seconds, an [rmtree]
    with the handler. *)
Lemma cleanup_round (attempt : Z) (rest : list Z) (k : nat)
    (st : Cleanup.state) (files : list string) :
  (0 <= attempt < 4)%Z →
  (attempt = 1%Z → Cleanup.kill_raises w = false) →
  Cleanup.disk st !! path = Some (Os.Dir files db) →
  (cleanup_blocked w k = false
   ∧ ∃ st', Cleanup.force_remove_loop w path (attempt :: rest) k st
            = (st', Cleanup.Returned true)
       ∧ Cleanup.disk st' !! path = None
       ∧ cleanup_stretch path backup st st' [true] [] [] [])
  ∨ (cleanup_blocked w k = true ∧ cleanup_blocked w (S k) = false
     ∧ ∃ st', Cleanup.force_remove_loop w path (attempt :: rest) k st
              = (st', Cleanup.Returned true)
         ∧ Cleanup.disk st' !! path = None
         ∧ cleanup_stretch path backup st st' [false; true]
             [(2 ^ attempt)%Z]
             (if (attempt =? 1)%Z then [path] else []) [])
  ∨ (cleanup_blocked w k = true ∧ cleanup_blocked w (S k) = true
     ∧ ∃ st' files',
         Cleanup.force_remove_loop w path (attempt :: rest) k st
         = Cleanup.force_remove_loop w path rest (S (S k)) st'
         ∧ Cleanup.disk st' !! path = Some (Os.Dir files' db)
         ∧ cleanup_stretch path backup st st' [false; false]
             [(2 ^ attempt)%Z]
             (if (attempt =? 1)%Z then [path] else []) []).
Proof.
  intros Ha Hkill Hdir. cbn [Cleanup.force_remove_loop].
  unfold cleanup_blocked, blocked.
  assert ((attempt <? Cleanup.max_retries - 1)%Z = true) as Hlt
    by (unfold Cleanup.max_retries; lia).
  destruct (rmtree_meets (Cleanup.os_env w) k) as [|s1].
  { left. split; [done|]. rewrite (rmtree_removed _ _ _ _ Hdir).
    eexists. split; [reflexivity|]. split; [apply lookup_delete_eq|].
    cleanup_tac. }
  right. rewrite (rmtree_blocked _ _ _ _ _ Hdir). rewrite Hlt.
  assert ((attempt =? 1)%Z && Cleanup.kill_raises w = false) as ->.
  { destruct (Z.eqb_spec attempt 1) as [E|]; [|done]. by rewrite (Hkill E). }
  destruct (attempt =? 1)%Z;
    cbn [Cleanup.disk Cleanup.emit Cleanup.with_disk].
  all: erewrite rmtree_onerror_dir by apply lookup_insert_eq.
  all: destruct (rmtree_meets (Cleanup.os_env w) (S k)) as [|s2].
  1, 3: left; split; [done|]; split; [done|];
        erewrite rmtree_removed by apply lookup_insert_eq;
        eexists; split; [reflexivity|]; split; [apply lookup_delete_eq|];
        cleanup_tac.
  all: right; split; [done|]; split; [done|];
       erewrite rmtree_blocked by apply lookup_insert_eq;
       eexists; eexists; split; [reflexivity|];
       split; [apply lookup_insert_eq|]; cleanup_tac.
Qed.

(** The second round when the process-killing helper raises. *)
Lemma cleanup_round_kill (rest : list Z) (k : nat) (st : Cleanup.state)
    (files : list string) :
  Cleanup.kill_raises w = true →
  Cleanup.disk st !! path = Some (Os.Dir files db) →
  (cleanup_blocked w k = false
   ∧ ∃ st', Cleanup.force_remove_loop w path (1%Z :: rest) k st
            = (st', Cleanup.Returned true)
       ∧ Cleanup.disk st' !! path = None
       ∧ cleanup_stretch path backup st st' [true] [] [] [])
  ∨ (cleanup_blocked w k = true
     ∧ ∃ st' files',
         Cleanup.force_remove_loop w path (1%Z :: rest) k st
         = (st', Cleanup.Raised_by_kill)
         ∧ Cleanup.disk st' !! path = Some (Os.Dir files' db)
         ∧ cleanup_stretch path backup st st' [false] [] [path] []).
Proof.
  intros Hkill Hdir. cbn [Cleanup.force_remove_loop].
  unfold cleanup_blocked, blocked.
  destruct (rmtree_meets (Cleanup.os_env w) k) as [|s1].
  { left. split; [done|]. rewrite (rmtree_removed _ _ _ _ Hdir).
    eexists. split; [reflexivity|]. split; [apply lookup_delete_eq|].
    cleanup_tac. }
  right. split; [done|]. rewrite (rmtree_blocked _ _ _ _ _ Hdir).
  rewrite Hkill.
  change (1 <? Cleanup.max_retries - 1)%Z with true.
  change (1 =? 1)%Z with true. cbn [andb].
  eexists. eexists. split; [reflexivity|].
  split; [apply lookup_insert_eq|]. cleanup_tac.
Qed.

(** The last round: a plain [rmtree], then the rename. *)
Lemma cleanup_last (rest : list Z) (k : nat) (st : Cleanup.state)
    (files : list string) :
  Cleanup.disk st !! path = Some (Os.Dir files db) →
  (cleanup_blocked w k = false
   ∧ ∃ st', Cleanup.force_remove_loop w path (4%Z :: rest) k st
            = (st', Cleanup.Returned true)
       ∧ Cleanup.disk st' !! path = None
       ∧ cleanup_stretch path backup st st' [true] [] [] [])
  ∨ (cleanup_blocked w k = true
     ∧ ∃ st' files',
         Cleanup.force_remove_loop w path (4%Z :: rest) k st
         = (st', Cleanup.Returned true)
         ∧ Cleanup.disk st' !! path = None
         ∧ Cleanup.disk st' !! backup = Some (Os.Dir files' db)
         ∧ Cleanup.Renamed path backup ∈ Cleanup.trace st'
         ∧ cleanup_stretch path backup st st' [false] [] []
             [(path, backup, true)])
  ∨ (cleanup_blocked w k = true
     ∧ ∃ st' files',
         Cleanup.force_remove_loop w path (4%Z :: rest) k st
         = (st', Cleanup.Returned false)
         ∧ Cleanup.disk st' !! path = Some (Os.Dir files' db)
         ∧ Cleanup.Cannot_remove_or_rename path ∈ Cleanup.trace st'
         ∧ cleanup_stretch path backup st st' [false] [] []
             [(path, backup, false)]).
Proof.
  intros Hdir. cbn [Cleanup.force_remove_loop].
  unfold cleanup_blocked, blocked.
  pose proof (cleanup_backup_differs w path) as Hne. fold backup in Hne.
  destruct (rmtree_meets (Cleanup.os_env w) k) as [|s1].
  { left. split; [done|]. rewrite (rmtree_removed _ _ _ _ Hdir).
    eexists. split; [reflexivity|]. split; [apply lookup_delete_eq|].
    cleanup_tac. }
  right. rewrite (rmtree_blocked _ _ _ _ _ Hdir).
  change (4 <? Cleanup.max_retries - 1)%Z with false.
  cbn [Cleanup.disk Cleanup.emit Cleanup.with_disk].
  fold (cleanup_backup w path). fold backup.
  unfold Os.rename.
  destruct (rename_raises (Cleanup.os_env w)).
  { right. split; [done|]. eexists. eexists. split; [reflexivity|].
    split; [apply lookup_insert_eq|].
    split; [set_solver|]. cleanup_tac. }
  rewrite lookup_insert_eq, lookup_insert_ne by done.
  destruct (Cleanup.disk st !! backup) as [n|] eqn:Hb.
  { right. split; [done|]. eexists. eexists. split; [reflexivity|].
    split; [apply lookup_insert_eq|].
    split; [set_solver|]. cleanup_tac. }
  left. split; [done|]. eexists. eexists. split; [reflexivity|].
  split.
  { simpl. rewrite lookup_insert_ne by done. apply lookup_delete_eq. }
  split; [apply lookup_insert_eq|].
  split; [set_solver|]. cleanup_tac.
Qed.

End Rounds.

Lemma blocked_below (w : Cleanup.env) (n : nat) :
  (∀ k : nat, (k < n)%nat → cleanup_blocked w k = true) →
  cleanup_blocked w n = true →
  ∀ k : nat, (k < S n)%nat → cleanup_blocked w k = true.
Proof.
  intros H Hn k Hk. destruct (decide (k = n)) as [->|]; [done|].
  apply H. lia.
Qed.

(** X23. [force_remove_directory] of the clean-up utility, on a directory.
    It makes at most nine calls of [shutil.rmtree], two in each of the first
    four rounds and one in the fifth, sleeps 1, 2, 4 and 8 seconds before
    the second call of a round, and runs the process-killing helper once, in
    the second round.  It answers [True] as soon as a call removes the tree.
    When all nine are blocked it renames the directory to a backup name
    beside it and answers [True], or [False] if the rename fails too.  It
    raises only if the helper lets an exception through, after three blocked
    calls. *)
Theorem cleanup_force_remove_bounded (w : Cleanup.env) (path : string)
    (st : Cleanup.state) (files : list string)
    (db : gmap string Chroma.collection)
    (Hdir : Cleanup.disk st !! path = Some (Os.Dir files db)) :
  ∃ (st' : Cleanup.state) (r : Cleanup.result) (calls : list bool)
    (sleeps : list Z) (kills : list string)
    (moves : list (string * string * bool)),
    Cleanup.force_remove_directory w path st = (st', r)
    ∧ cleanup_stretch path (cleanup_backup w path) st st' calls sleeps
                      kills moves
    ∧ (length calls <= 9)%nat
    ∧ ((∃ k : nat,
          (k < 9)%nat ∧ cleanup_blocked w k = false
          ∧ (∀ j : nat, (j < k)%nat → cleanup_blocked w j = true)
          ∧ (3 <= k → Cleanup.kill_raises w = false)%nat
          ∧ calls = replicate k false ++ [true]
          ∧ sleeps = take ((k + 1) / 2) [1; 2; 4; 8]%Z
          ∧ kills = (if (3 <=? k)%nat then [path] else [])
          ∧ moves = []
          ∧ r = Cleanup.Returned true
          ∧ Cleanup.disk st' !! path = None)
       ∨ (Cleanup.kill_raises w = true
          ∧ (∀ k : nat, (k < 3)%nat → cleanup_blocked w k = true)
          ∧ calls = replicate 3 false
          ∧ sleeps = [1%Z] ∧ kills = [path] ∧ moves = []
          ∧ r = Cleanup.Raised_by_kill
          ∧ is_Some (Cleanup.disk st' !! path))
       ∨ (Cleanup.kill_raises w = false
          ∧ (∀ k : nat, (k < 9)%nat → cleanup_blocked w k = true)
          ∧ calls = replicate 9 false
          ∧ sleeps = [1; 2; 4; 8]%Z ∧ kills = [path]
          ∧ ((moves = [(path, cleanup_backup w path, true)]
              ∧ r = Cleanup.Returned true
              ∧ Cleanup.disk st' !! path = None
              ∧ (∃ files', Cleanup.disk st' !! cleanup_backup w path
                           = Some (Os.Dir files' db))
              ∧ Cleanup.Renamed path (cleanup_backup w path)
                ∈ Cleanup.trace st')
             ∨ (moves = [(path, cleanup_backup w path, false)]
                ∧ r = Cleanup.Returned false
                ∧ is_Some (Cleanup.disk st' !! path)
                ∧ Cleanup.Cannot_remove_or_rename path
                  ∈ Cleanup.trace st')))).
Proof.
  unfold Cleanup.force_remove_directory.
  change (Cleanup.range1 Cleanup.max_retries) with [0; 1; 2; 3; 4]%Z.
  assert (∀ k : nat, (k < 0)%nat → cleanup_blocked w k = true) as A0
    by (intros; lia).
  (* round 1 *)
  destruct (cleanup_round w path db 0 [1; 2; 3; 4]%Z 0 st files
              ltac:(lia) ltac:(lia) Hdir)
    as [(B0 & st1 & E1 & D1 & S1)
       |[(B0 & B1 & st1 & E1 & D1 & S1)
        |(B0 & B1 & st1 & f1 & E1 & D1 & S1)]].
  { eexists st1, _, _, _, _, _.
    split_and!; [exact E1|exact S1|simpl; lia|].
    left. exists 0%nat. split_and!; try done; lia. }
  { pose proof (blocked_below w 0 A0 B0) as A1.
    eexists st1, _, _, _, _, _.
    split_and!; [exact E1|exact S1|simpl; lia|].
    left. exists 1%nat. split_and!; try done; lia. }
  pose proof (blocked_below w 0 A0 B0) as A1.
  pose proof (blocked_below w 1 A1 B1) as A2.
  rewrite E1.
  (* round 2 *)
  destruct (Cleanup.kill_raises w) eqn:Hk.
  { destruct (cleanup_round_kill w path db [2; 3; 4]%Z 2 st1 f1 Hk D1)
      as [(B2 & st2 & E2 & D2 & S2)
         |(B2 & st2 & f2 & E2 & D2 & S2)].
    - eexists st2, _, _, _, _, _.
      split_and!;
        [exact E2|exact (cleanup_stretch_trans _ _ _ _ _ _ _ _ _ _ _ _ _
                           S1 S2)|simpl; lia|].
      left. exists 2%nat. split_and!; try done; lia.
    - pose proof (blocked_below w 2 A2 B2) as A3.
      eexists st2, _, _, _, _, _.
      split_and!;
        [exact E2|exact (cleanup_stretch_trans _ _ _ _ _ _ _ _ _ _ _ _ _
                           S1 S2)|simpl; lia|].
      right. left. split_and!; try done; by rewrite D2. }
  destruct (cleanup_round w path db 1 [2; 3; 4]%Z 2 st1 f1
              ltac:(lia) ltac:(done) D1)
    as [(B2 & st2 & E2 & D2 & S2)
       |[(B2 & B3 & st2 & E2 & D2 & S2)
        |(B2 & B3 & st2 & f2 & E2 & D2 & S2)]].
  { eexists st2, _, _, _, _, _.
    split_and!;
      [exact E2|exact (cleanup_stretch_trans _ _ _ _ _ _ _ _ _ _ _ _ _
                         S1 S2)|simpl; lia|].
    left. exists 2%nat. split_and!; try done; lia. }
  { pose proof (blocked_below w 2 A2 B2) as A3.
    eexists st2, _, _, _, _, _.
    split_and!;
      [exact E2|exact (cleanup_stretch_trans _ _ _ _ _ _ _ _ _ _ _ _ _
                         S1 S2)|simpl; lia|].
    left. exists 3%nat. split_and!; try done; lia. }
  pose proof (blocked_below w 2 A2 B2) as A3.
  pose proof (blocked_below w 3 A3 B3) as A4.
  pose proof (cleanup_stretch_trans _ _ _ _ _ _ _ _ _ _ _ _ _ S1 S2) as S12.
  rewrite E2. clear S1 S2 E1 E2.
  (* round 3 *)
  destruct (cleanup_round w path db 2 [3; 4]%Z 4 st2 f2
              ltac:(lia) ltac:(lia) D2)
    as [(B4 & st3 & E3 & D3 & S3)
       |[(B4 & B5 & st3 & E3 & D3 & S3)
        |(B4 & B5 & st3 & f3 & E3 & D3 & S3)]].
  { eexists st3, _, _, _, _, _.
    split_and!;
      [exact E3|exact (cleanup_stretch_trans _ _ _ _ _ _ _ _ _ _ _ _ _
                         S12 S3)|simpl; lia|].
    left. exists 4%nat. split_and!; try done; lia. }
  { pose proof (blocked_below w 4 A4 B4) as A5.
    eexists st3, _, _, _, _, _.
    split_and!;
      [exact E3|exact (cleanup_stretch_trans _ _ _ _ _ _ _ _ _ _ _ _ _
                         S12 S3)|simpl; lia|].
    left. exists 5%nat. split_and!; try done; lia. }
  pose proof (blocked_below w 4 A4 B4) as A5.
  pose proof (blocked_below w 5 A5 B5) as A6.
  pose proof (cleanup_stretch_trans _ _ _ _ _ _ _ _ _ _ _ _ _ S12 S3)
    as S123.
  rewrite E3. clear S12 S3 E3.
  (* round 4 *)
  destruct (cleanup_round w path db 3 [4]%Z 6 st3 f3
              ltac:(lia) ltac:(lia) D3)
    as [(B6 & st4 & E4 & D4 & S4)
       |[(B6 & B7 & st4 & E4 & D4 & S4)
        |(B6 & B7 & st4 & f4 & E4 & D4 & S4)]].
  { eexists st4, _, _, _, _, _.
    split_and!;
      [exact E4|exact (cleanup_stretch_trans _ _ _ _ _ _ _ _ _ _ _ _ _
                         S123 S4)|simpl; lia|].
    left. exists 6%nat. split_and!; try done; lia. }
  { pose proof (blocked_below w 6 A6 B6) as A7.
    eexists st4, _, _, _, _, _.
    split_and!;
      [exact E4|exact (cleanup_stretch_trans _ _ _ _ _ _ _ _ _ _ _ _ _
                         S123 S4)|simpl; lia|].
    left. exists 7%nat. split_and!; try done; lia. }
  pose proof (blocked_below w 6 A6 B6) as A7.
  pose proof (blocked_below w 7 A7 B7) as A8.
  pose proof (cleanup_stretch_trans _ _ _ _ _ _ _ _ _ _ _ _ _ S123 S4)
    as S1234.
  rewrite E4. clear S123 S4 E4.
  (* round 5 *)
  destruct (cleanup_last w path db [] 8 st4 f4 D4)
    as [(B8 & st5 & E5 & D5 & S5)
       |[(B8 & st5 & f5 & E5 & D5 & Dk & W5 & S5)
        |(B8 & st5 & f5 & E5 & D5 & W5 & S5)]].
  { eexists st5, _, _, _, _, _.
    split_and!;
      [exact E5|exact (cleanup_stretch_trans _ _ _ _ _ _ _ _ _ _ _ _ _
                         S1234 S5)|simpl; lia|].
    left. exists 8%nat. split_and!; try done; lia. }
  { pose proof (blocked_below w 8 A8 B8) as A9.
    eexists st5, _, _, _, _, _.
    split_and!;
      [exact E5|exact (cleanup_stretch_trans _ _ _ _ _ _ _ _ _ _ _ _ _
                         S1234 S5)|simpl; lia|].
    right. right. split_and!; try done.
    left. split_and!; try done; by exists f5. }
  { pose proof (blocked_below w 8 A8 B8) as A9.
    eexists st5, _, _, _, _, _.
    split_and!;
      [exact E5|exact (cleanup_stretch_trans _ _ _ _ _ _ _ _ _ _ _ _ _
                         S1234 S5)|simpl; lia|].
    right. right. split_and!; try done.
    right. split_and!; try done; by rewrite D5. }
Qed.

Lemma cleanup_force_remove_bounded_witness :
  Cleanup.disk locked_tenant !! "vector_db/codebase_5"%string
  = Some (Os.Dir ["chroma.sqlite3"%string] ∅)
  ∧ ∃ (st' : Cleanup.state) (r : Cleanup.result) (calls : list bool),
      Cleanup.force_remove_directory (Cleanup.Env locked false)
        "vector_db/codebase_5" locked_tenant
      = (st', r)
      ∧ cleanup_calls (Cleanup.trace st')
        = cleanup_calls (Cleanup.trace locked_tenant) ++ calls
      ∧ (length calls <= 9)%nat.
Proof.
  split; [reflexivity|].
  destruct (cleanup_force_remove_bounded (Cleanup.Env locked false)
              "vector_db/codebase_5" locked_tenant ["chroma.sqlite3"%string]
              ∅ eq_refl)
    as (st' & r & calls & sleeps & kills & moves & H1 & H2 & H3 & _).
  exists st', r, calls. split; [exact H1|]. split; [exact (proj1 H2)|exact H3].
Defined.

End CleanupFacts.
